(** * UltraZend SMTP test script: the probe runner of [scripts/smtp-test.py]

    A shallow embedding of class [SMTPTester] and of the script's entry
    point.  The eight probes talk to the outside world only through
    [socket], [smtplib] and the clock; those calls are kept as nodes of a
    small program tree ([Prog]) and answered by an environment ([Env]) when
    the tree is run.  The runner itself ([log_result], [run_all_tests],
    [main]) lives in a state-and-exception monad ([M]) over the tester
    object, the console, the clock and the environment's state.  To say
    what a probe did on the network, an environment can be run with a
    journal of the library calls beside it ([recording]). *)

From Stdlib Require Import String Ascii ZArith List Bool Lia DecimalString.
Import ListNotations.
Open Scope string_scope.
Open Scope Z_scope.
Local Set Warnings "-register-all".

(** ** Python values the script manipulates *)

(** Exception classes the script tells apart.  [SMTPRecipientsRefused] has
    [except] clauses of its own; every other subclass of [Exception] is
    handled alike ([OSError], [ZeroDivisionError] and [UnicodeDecodeError]
    are named because the runtime raises them, [OtherException] stands
    for the rest).  [KeyboardInterrupt] derives from [BaseException] only, so
    [except Exception] lets it through while a bare [except:] stops it. *)
Inductive ExnClass : Type :=
| SMTPRecipientsRefused
| OtherException
| OSError
| UnicodeDecodeError
| ZeroDivisionError
| KeyboardInterrupt.

(** An exception object: its class and its string form [str(e)]. *)
Record Exn : Type := mkExn { exn_class : ExnClass; exn_str : string }.

(** [isinstance(e, Exception)] *)
Definition is_Exception (e : Exn) : bool :=
  match exn_class e with
  | KeyboardInterrupt => false
  | _ => true
  end.

(** [isinstance(e, smtplib.SMTPRecipientsRefused)] *)
Definition is_SMTPRecipientsRefused (e : Exn) : bool :=
  match exn_class e with
  | SMTPRecipientsRefused => true
  | _ => false
  end.

(** What a call produces: a value, or a raised exception. *)
Inductive Outcome (A : Type) : Type :=
| Ok (a : A)
| Raised (e : Exn).
Arguments Ok {A} a.
Arguments Raised {A} e.

(** The values passed as [error] to [log_result]: the default [None], a
    message string, or a caught exception. *)
Inductive PyErr : Type :=
| ErrNone
| ErrStr (s : string)
| ErrExn (e : Exn).

(** Python truthiness.  [None] and the empty string are falsy; exception
    classes define neither [__bool__] nor [__len__], so their instances are
    truthy whatever their message. *)
Definition str_truthy (s : string) : bool :=
  match s with
  | EmptyString => false
  | String _ _ => true
  end.

Definition truthy (error : PyErr) : bool :=
  match error with
  | ErrNone => false
  | ErrStr s => str_truthy s
  | ErrExn _ => true
  end.

Definition opt_truthy (details : option string) : bool :=
  match details with
  | None => false
  | Some s => str_truthy s
  end.

(** [str(error)] *)
Definition py_str (error : PyErr) : string :=
  match error with
  | ErrNone => "None"
  | ErrStr s => s
  | ErrExn e => exn_str e
  end.

(** [str(n)] for an [int]. *)
Definition str_int (n : Z) : string := NilZero.string_of_int (Z.to_int n).

Definition nl : string := String "010" "".

(** [s * n] *)
Fixpoint str_mul (s : string) (n : nat) : string :=
  match n with
  | O => ""
  | S n' => s ++ str_mul s n'
  end.

(** [s.lower()], on the ASCII letters. *)
Definition lower_ascii (c : ascii) : ascii :=
  let n := nat_of_ascii c in
  if andb (Nat.leb 65 n) (Nat.leb n 90) then ascii_of_nat (n + 32) else c.

Fixpoint lower (s : string) : string :=
  match s with
  | EmptyString => EmptyString
  | String c s' => String (lower_ascii c) (lower s')
  end.

(** [needle in s] *)
Fixpoint contains (needle s : string) : bool :=
  if prefix needle s then true
  else match s with
       | EmptyString => false
       | String _ s' => contains needle s'
       end.

(** [s.split('\n')] *)
Fixpoint split_lines_aux (cur : string) (s : string) : list string :=
  match s with
  | EmptyString => [cur]
  | String c s' =>
      if Ascii.eqb c "010"%char then cur :: split_lines_aux "" s'
      else split_lines_aux (cur ++ String c "") s'
  end.

Definition split_lines (s : string) : list string := split_lines_aux "" s.

(** ** The result log *)

(** One entry of [self.results]: the dict built by [log_result], with its
    five keys in insertion order. *)
Record Result : Type := mkResult {
  test : string;
  success : bool;
  timestamp : string;
  details : option string;
  error : option string
}.

(** The JSON documents [json.dump] can be handed by this script. *)
Inductive JSON : Type :=
| JNull
| JBool (b : bool)
| JString (s : string)
| JArray (items : list JSON)
| JObject (members : list (string * JSON)).

Definition json_opt (o : option string) : JSON :=
  match o with
  | None => JNull
  | Some s => JString s
  end.

Definition result_json (r : Result) : JSON :=
  JObject [ ("test", JString (test r));
            ("success", JBool (success r));
            ("timestamp", JString (timestamp r));
            ("details", json_opt (details r));
            ("error", json_opt (error r)) ].

Definition results_json (rs : list Result) : JSON :=
  JArray (map result_json rs).

Definition json_keys (j : JSON) : list string :=
  match j with
  | JObject members => map fst members
  | _ => []
  end.

(** ** The tester object *)

Record SMTPTester : Type := mkTester {
  smtp_host : string;
  mx_port : Z;
  submission_port : Z;
  results : list Result
}.

Definition default {A : Type} (d : A) (o : option A) : A :=
  match o with
  | Some a => a
  | None => d
  end.

(** [SMTPTester.__init__(smtp_host='app', mx_port=25, submission_port=587)];
    an argument left out is [None] here. *)
Definition __init__ (smtp_host : option string) (mx_port submission_port : option Z)
  : SMTPTester :=
  {| smtp_host := default "app" smtp_host;
     mx_port := default 25 mx_port;
     submission_port := default 587 submission_port;
     results := [] |}.

(** ** Library calls made by the probes *)

Definition Handle : Type := nat.

(** The message assembled by [test_send_test_email]. *)
Record Message : Type := mkMessage {
  msg_From : string;
  msg_To : string;
  msg_Subject : string;
  msg_body : string
}.

(** Calls into [socket] and [smtplib], indexed by the type of what they
    return.  [SMTP host port timeout] is the constructor (it connects),
    [SMTP_exit] the [__exit__] of the [with] statement. *)
Inductive LibOp : Type -> Type :=
| create_connection (host : string) (port : Z) (timeout : Z) : LibOp Handle
| sock_close (sock : Handle) : LibOp unit
| SMTP (host : string) (port : Z) (timeout : Z) : LibOp Handle
| SMTP_ehlo (server : Handle) : LibOp (Z * string)
| SMTP_mail (server : Handle) (sender : string) : LibOp unit
| SMTP_rcpt (server : Handle) (recip : string) : LibOp unit
| SMTP_quit (server : Handle) : LibOp unit
| SMTP_send_message (server : Handle) (msg : Message) : LibOp unit
| SMTP_exit (server : Handle) : LibOp unit.

(** File operations of the report step. *)
Inductive FsOp : Type :=
| fs_open_w (path : string)
| fs_dump (path : string) (doc : JSON)
| fs_close (path : string).

(** ** Probe programs *)

(** A probe body: it returns, raises, calls the library (and sees whether
    the call returned or raised), reads the clock, or calls
    [self.log_result]. *)
Inductive Prog (A : Type) : Type :=
| Ret (a : A)
| Raise (e : Exn)
| Lib {R : Type} (op : LibOp R) (k : Outcome R -> Prog A)
| Now (k : string -> Prog A)
| LogResult (test_name : string) (ok : bool) (dtl : option string)
            (err : PyErr) (k : Prog A).
Arguments Ret {A} a.
Arguments Raise {A} e.
Arguments Lib {A R} op k.
Arguments Now {A} k.
Arguments LogResult {A} test_name ok dtl err k.

Fixpoint pbind {A B : Type} (p : Prog A) (f : A -> Prog B) : Prog B :=
  match p with
  | Ret a => f a
  | Raise e => Raise e
  | Lib op k => Lib op (fun r => pbind (k r) f)
  | Now k => Now (fun t => pbind (k t) f)
  | LogResult n b d e k => LogResult n b d e (pbind k f)
  end.

(** Run [p] and hand back how it ended instead of raising. *)
Fixpoint attempt {A : Type} (p : Prog A) : Prog (Outcome A) :=
  match p with
  | Ret a => Ret (Ok a)
  | Raise e => Ret (Raised e)
  | Lib op k => Lib op (fun r => attempt (k r))
  | Now k => Now (fun t => attempt (k t))
  | LogResult n b d e k => LogResult n b d e (attempt k)
  end.

Definition reraise {A : Type} (r : Outcome A) : Prog A :=
  match r with
  | Ok a => Ret a
  | Raised e => Raise e
  end.

Declare Scope prog_scope.
Delimit Scope prog_scope with prog.
Bind Scope prog_scope with Prog.
Notation "x <- c1 ;; c2" := (pbind c1 (fun x => c2))
  (at level 61, c1 at next level, right associativity) : prog_scope.
Notation "c1 ;; c2" := (pbind c1 (fun _ => c2))
  (at level 61, right associativity) : prog_scope.

(** A library call as Python sees it: the value, or the exception raised. *)
Definition call {R : Type} (op : LibOp R) : Prog R := Lib op reraise.

(** [datetime.now().isoformat()] *)
Definition datetime_now : Prog string := Now (fun t => Ret t).

(** [self.log_result(test_name, success, details, error)] *)
Definition self_log_result (test_name : string) (ok : bool)
    (dtl : option string) (err : PyErr) : Prog unit :=
  LogResult test_name ok dtl err (Ret tt).

(** [try: p  except <clauses>: h e] with [h] deciding per exception (an
    exception no clause matches is raised again by [h]). *)
Definition try_except {A : Type} (p : Prog A) (h : Exn -> Prog A) : Prog A :=
  (r <- attempt p ;;
   match r with
   | Ok a => Ret a
   | Raised e => h e
   end)%prog.

(** [try: p  except Exception as e: h e] *)
Definition try_except_Exception {A : Type} (p : Prog A) (h : Exn -> Prog A)
  : Prog A :=
  try_except p (fun e => if is_Exception e then h e else Raise e).

(** [for x in xs: body x] *)
Fixpoint for_each {X : Type} (xs : list X) (body : X -> Prog unit) : Prog unit :=
  match xs with
  | [] => Ret tt
  | x :: xs' => (body x ;; for_each xs' body)%prog
  end.

(** [with smtplib.SMTP(host, port, timeout=t) as server: body server].  The
    constructor connects; [__exit__] runs however the body ended and
    returns [None], so the body's exception is raised again unless
    [__exit__] raises one of its own. *)
Definition with_SMTP {A : Type} (host : string) (port timeout : Z)
    (body : Handle -> Prog A) : Prog A :=
  (server <- call (SMTP host port timeout) ;;
   r <- attempt (body server) ;;
   call (SMTP_exit server) ;;
   reraise r)%prog.

(** ** The environment *)

(** Everything outside the script: the network and the file system as a
    state machine answering each call with a value or an exception, and
    the runtime functions kept abstract here: UTF-8 decoding of a reply,
    [repr] of a list of strings, and the float formatting
    [f"{(passed/total)*100:.1f}"] for [total <> 0]. *)
Record Env : Type := mkEnv {
  World : Type;
  lib : forall R : Type, LibOp R -> World -> Outcome R * World;
  fs : FsOp -> World -> Outcome unit * World;
  decode_utf8 : string -> Outcome string;
  repr_list : list string -> string;
  format_pct : Z -> Z -> string
}.

(** What the run does that an observer can see, in order. *)
Inductive Event : Type :=
| EvPrint (line : string)
| EvSleep (secs : Z)
| EvFs (op : FsOp) (done : bool).

Definition is_sleep (ev : Event) : bool :=
  match ev with
  | EvSleep _ => true
  | _ => false
  end.

(** A report write that went through: [json.dump] returned. *)
Definition dumped (ev : Event) : option (string * JSON) :=
  match ev with
  | EvFs (fs_dump path doc) true => Some (path, doc)
  | _ => None
  end.

Fixpoint dumps (tr : list Event) : list (string * JSON) :=
  match tr with
  | [] => []
  | ev :: tr' =>
      match dumped ev with
      | Some w => w :: dumps tr'
      | None => dumps tr'
      end
  end.

Definition sleeps (tr : list Event) : list Event := filter is_sleep tr.

Definition fs_paths (tr : list Event) : list string :=
  flat_map (fun ev => match ev with
                      | EvFs (fs_open_w p) _ => [p]
                      | EvFs (fs_dump p _) _ => [p]
                      | EvFs (fs_close p) _ => [p]
                      | _ => []
                      end) tr.

Section Runner.

Variable E : Env.

(** The clock: [now i] is what the [i]-th call of
    [datetime.now().isoformat()] returns. *)
Variable now : nat -> string.

Record State : Type := mkState {
  tester : SMTPTester;
  trace : list Event;
  ticks : nat;
  world : World E
}.

Definition M (A : Type) : Type := State -> Outcome A * State.

Definition mret {A : Type} (a : A) : M A := fun s => (Ok a, s).

Definition mraise {A : Type} (e : Exn) : M A := fun s => (Raised e, s).

Definition mbind {A B : Type} (m : M A) (f : A -> M B) : M B :=
  fun s =>
    match m s with
    | (Ok a, s') => f a s'
    | (Raised e, s') => (Raised e, s')
    end.

(** [try: m  except <clauses>: h e] *)
Definition mtry {A : Type} (m : M A) (h : Exn -> M A) : M A :=
  fun s =>
    match m s with
    | (Ok a, s') => (Ok a, s')
    | (Raised e, s') => h e s'
    end.

Declare Scope run_scope.
Delimit Scope run_scope with run.
Notation "x <- c1 ;; c2" := (mbind c1 (fun x => c2))
  (at level 61, c1 at next level, right associativity) : run_scope.
Notation "c1 ;; c2" := (mbind c1 (fun _ => c2))
  (at level 61, right associativity) : run_scope.

Definition emit (ev : Event) : M unit :=
  fun s => (Ok tt, {| tester := tester s; trace := trace s ++ [ev];
                      ticks := ticks s; world := world s |}).

(** [print(line)] *)
Definition print (line : string) : M unit := emit (EvPrint line).

(** [time.sleep(secs)] *)
Definition sleep (secs : Z) : M unit := emit (EvSleep secs).

(** [datetime.now().isoformat()] *)
Definition read_clock : M string :=
  fun s => (Ok (now (ticks s)),
            {| tester := tester s; trace := trace s;
               ticks := S (ticks s); world := world s |}).

Definition get_results : M (list Result) :=
  fun s => (Ok (results (tester s)), s).

(** [self.results.append(result)] *)
Definition append_result (result : Result) : M unit :=
  fun s =>
    let t := tester s in
    (Ok tt, {| tester := {| smtp_host := smtp_host t; mx_port := mx_port t;
                            submission_port := submission_port t;
                            results := results t ++ [result] |};
               trace := trace s; ticks := ticks s; world := world s |}).

Definition lib_call {R : Type} (op : LibOp R) : State -> Outcome R * State :=
  fun s =>
    let '(r, w) := lib E R op (world s) in
    (r, {| tester := tester s; trace := trace s; ticks := ticks s; world := w |}).

Definition is_ok {A : Type} (r : Outcome A) : bool :=
  match r with
  | Ok _ => true
  | Raised _ => false
  end.

Definition fs_call (op : FsOp) : M unit :=
  fun s =>
    let '(r, w) := fs E op (world s) in
    (r, {| tester := tester s; trace := trace s ++ [EvFs op (is_ok r)];
           ticks := ticks s; world := w |}).

Definition when (b : bool) (m : M unit) : M unit := if b then m else mret tt.

(** [SMTPTester.log_result] *)
Definition log_result (test_name : string) (ok : bool)
    (dtl : option string) (err : PyErr) : M unit :=
  (stamp <- read_clock ;;
   let result := {| test := test_name;
                    success := ok;
                    timestamp := stamp;
                    details := dtl;
                    error := if truthy err then Some (py_str err) else None |} in
   append_result result ;;
   let status := if ok then "✅ PASS" else "❌ FAIL" in
   print (status ++ " " ++ test_name) ;;
   when (truthy err) (print ("   Error: " ++ py_str err)) ;;
   when (opt_truthy dtl) (print ("   Details: " ++ default "" dtl)))%run.

(** Running a probe body against the environment. *)
Fixpoint interp {A : Type} (p : Prog A) : M A :=
  match p with
  | Ret a => mret a
  | Raise e => mraise e
  | Lib op k => fun s => let '(r, s') := lib_call op s in interp (k r) s'
  | Now k => (t <- read_clock ;; interp (k t))%run
  | LogResult n b d e k => (log_result n b d e ;; interp k)%run
  end.

(** ** The probes *)

Local Open Scope prog_scope.

Definition lift {A : Type} (r : Outcome A) : Prog A := reraise r.

(** [test_port_connectivity] *)
Definition test_port_connectivity (self : SMTPTester) : Prog unit :=
  for_each [("MX", mx_port self); ("Submission", submission_port self)]
    (fun '(port_name, port) =>
       let title := port_name ++ " Port " ++ str_int port ++ " Connectivity" in
       try_except_Exception
         (sock <- call (create_connection (smtp_host self) port 10) ;;
          call (sock_close sock) ;;
          self_log_result title true None ErrNone)
         (fun e => self_log_result title false None (ErrExn e)))%prog.

(** [test_smtp_banner] *)
Definition test_smtp_banner (self : SMTPTester) : Prog unit :=
  try_except_Exception
    (with_SMTP (smtp_host self) (mx_port self) 10 (fun server =>
       response <- call (SMTP_ehlo server) ;;
       banner <- (if str_truthy (snd response)
                  then lift (decode_utf8 E (snd response))
                  else Ret "No banner") ;;
       self_log_result "SMTP Banner" true (Some ("Response: " ++ banner)) ErrNone))
    (fun e => self_log_result "SMTP Banner" false None (ErrExn e))%prog.

(** [test_ehlo_features] *)
Definition test_ehlo_features (self : SMTPTester) : Prog unit :=
  try_except_Exception
    (with_SMTP (smtp_host self) (mx_port self) 10 (fun server =>
       response <- call (SMTP_ehlo server) ;;
       features <- (if str_truthy (snd response)
                    then decoded <- lift (decode_utf8 E (snd response)) ;;
                         Ret (split_lines decoded)
                    else Ret []) ;;
       self_log_result "EHLO Features" true
         (Some ("Features: " ++ repr_list E features)) ErrNone))
    (fun e => self_log_result "EHLO Features" false None (ErrExn e))%prog.

(** [test_submission_auth_required] *)
Definition test_submission_auth_required (self : SMTPTester) : Prog unit :=
  try_except_Exception
    (with_SMTP (smtp_host self) (submission_port self) 10 (fun server =>
       call (SMTP_ehlo server) ;;
       try_except
         (call (SMTP_mail server "test@example.com") ;;
          self_log_result "Submission Auth Required" false None
            (ErrStr "Submission port allows mail without authentication"))
         (fun auth_error =>
            if is_SMTPRecipientsRefused auth_error then
              self_log_result "Submission Auth Required" true None ErrNone
            else if is_Exception auth_error then
              if contains "authentication" (lower (exn_str auth_error)) then
                self_log_result "Submission Auth Required" true None ErrNone
              else
                self_log_result "Submission Auth Required" false None
                  (ErrExn auth_error)
            else Raise auth_error)))
    (fun e => self_log_result "Submission Auth Required" false None (ErrExn e))%prog.

(** [test_mx_external_email] *)
Definition test_mx_external_email (self : SMTPTester) : Prog unit :=
  try_except_Exception
    (with_SMTP (smtp_host self) (mx_port self) 10 (fun server =>
       call (SMTP_ehlo server) ;;
       call (SMTP_mail server "external@example.com") ;;
       call (SMTP_rcpt server "test@ultrazend.com.br") ;;
       call (SMTP_quit server) ;;
       self_log_result "MX External Email Acceptance" true None ErrNone))
    (fun e => self_log_result "MX External Email Acceptance" false None (ErrExn e))%prog.

(** [test_relay_protection] *)
Definition test_relay_protection (self : SMTPTester) : Prog unit :=
  try_except_Exception
    (with_SMTP (smtp_host self) (mx_port self) 10 (fun server =>
       call (SMTP_ehlo server) ;;
       call (SMTP_mail server "external@example.com") ;;
       try_except
         (call (SMTP_rcpt server "external@other-domain.com") ;;
          self_log_result "Relay Protection" false None
            (ErrStr "MX server allowed unauthorized relay"))
         (fun e =>
            if is_SMTPRecipientsRefused e then
              self_log_result "Relay Protection" true None ErrNone
            else Raise e)))
    (fun e => self_log_result "Relay Protection" false None (ErrExn e))%prog.

Definition indent16 : string := str_mul " " 16.

(** The f-string body of the test message. *)
Definition email_body (stamp : string) : string :=
  nl ++
  indent16 ++ "This is a test email from UltraZend SMTP server." ++ nl ++
  indent16 ++ nl ++
  indent16 ++ "Test Details:" ++ nl ++
  indent16 ++ "- Timestamp: " ++ stamp ++ nl ++
  indent16 ++ "- Test Type: Development SMTP Test" ++ nl ++
  indent16 ++ "- Server: UltraZend Development Environment" ++ nl ++
  indent16 ++ nl ++
  indent16 ++ "If you receive this email, the SMTP system is working correctly." ++ nl ++
  indent16.

(** [test_send_test_email] *)
Definition test_send_test_email (self : SMTPTester) : Prog unit :=
  try_except_Exception
    (with_SMTP "mailhog" 1025 10 (fun server =>
       stamp <- datetime_now ;;
       let msg := {| msg_From := "test@ultrazend.com.br";
                     msg_To := "recipient@example.com";
                     msg_Subject := "UltraZend SMTP Test";
                     msg_body := email_body stamp |} in
       call (SMTP_send_message server msg) ;;
       self_log_result "Send Test Email" true
         (Some "Email sent to MailHog successfully") ErrNone))
    (fun e => self_log_result "Send Test Email" false None (ErrExn e))%prog.

(** The [for i in range(n)] loop of [test_connection_limits]: the
    connections opened so far, and the exception that stopped it if any. *)
Fixpoint open_connections (self : SMTPTester) (n : nat) (connections : list Handle)
  : Prog (list Handle * option Exn) :=
  match n with
  | O => Ret (connections, None)
  | S n' =>
      (r <- attempt (call (SMTP (smtp_host self) (mx_port self) 5)) ;;
       match r with
       | Ok conn => open_connections self n' (connections ++ [conn])
       | Raised e => Ret (connections, Some e)
       end)%prog
  end.

(** [test_connection_limits]: the [try] block, its [except Exception]
    clause, then the [finally] block, which quits every connection under a
    bare [except: pass] before the pending exception is raised again. *)
Definition test_connection_limits (self : SMTPTester) : Prog unit :=
  (opened <- open_connections self 5 [] ;;
   let connections := fst opened in
   r <- attempt
          (try_except_Exception
             (match snd opened with
              | Some e => Raise e
              | None =>
                  self_log_result "Connection Limits" true
                    (Some ("Created " ++ str_int (Z.of_nat (length connections))
                           ++ " concurrent connections")) ErrNone
              end)
             (fun e => self_log_result "Connection Limits" false None (ErrExn e))) ;;
   for_each connections
     (fun conn => try_except (call (SMTP_quit conn)) (fun _ => Ret tt)) ;;
   reraise r)%prog.

(** ** The runner *)

Local Open Scope run_scope.

(** A bound method: its [__name__] and what calling it does. *)
Record Probe : Type := mkProbe { __name__ : string; body : Prog unit }.

(** The [tests] list of [run_all_tests]. *)
Definition tests_of (self : SMTPTester) : list Probe :=
  [ mkProbe "test_port_connectivity" (test_port_connectivity self);
    mkProbe "test_smtp_banner" (test_smtp_banner self);
    mkProbe "test_ehlo_features" (test_ehlo_features self);
    mkProbe "test_submission_auth_required" (test_submission_auth_required self);
    mkProbe "test_mx_external_email" (test_mx_external_email self);
    mkProbe "test_relay_protection" (test_relay_protection self);
    mkProbe "test_send_test_email" (test_send_test_email self);
    mkProbe "test_connection_limits" (test_connection_limits self) ].

(** One turn of the [for test in tests] loop. *)
Definition run_probe (t : Probe) : M unit :=
  (mtry (interp (body t))
        (fun e => if is_Exception e
                  then log_result (__name__ t) false None (ErrExn e)
                  else mraise e) ;;
   sleep 1)%run.

Fixpoint run_loop (tests : list Probe) : M unit :=
  match tests with
  | [] => mret tt
  | t :: rest => (run_probe t ;; run_loop rest)%run
  end.

(** [sum(1 for r in results if r['success'])] *)
Definition count_passed (rs : list Result) : Z :=
  Z.of_nat (length (filter success rs)).

(** The number of results with [success] false. *)
Definition count_failed (rs : list Result) : Z :=
  Z.of_nat (length (filter (fun r => negb (success r)) rs)).

(** [f"{(passed/total)*100:.1f}"]: true division raises on a zero
    divisor. *)
Definition success_rate (passed total : Z) : M string :=
  if total =? 0 then mraise (mkExn ZeroDivisionError "division by zero")
  else mret (format_pct E passed total).

Definition report_path : string := "/tmp/smtp-test-results.json".

Definition mattempt {A : Type} (m : M A) : M (Outcome A) :=
  fun s => let '(r, s') := m s in (Ok r, s').

Definition mreraise {A : Type} (r : Outcome A) : M A :=
  match r with
  | Ok a => mret a
  | Raised e => mraise e
  end.

(** [with open(report_path, 'w') as f: json.dump(rs, f, indent=2)] *)
Definition write_report (rs : list Result) : M unit :=
  (fs_call (fs_open_w report_path) ;;
   r <- mattempt (fs_call (fs_dump report_path (results_json rs))) ;;
   fs_call (fs_close report_path) ;;
   mreraise r)%run.

(** The summary lines, from "Test Summary" to the success rate. *)
Definition print_summary : M (Z * Z) :=
  (print (nl ++ str_mul "=" 50) ;;
   print "📊 Test Summary:" ;;
   rs <- get_results ;;
   let passed := count_passed rs in
   let total := Z.of_nat (length rs) in
   print ("✅ Passed: " ++ str_int passed ++ "/" ++ str_int total) ;;
   print ("❌ Failed: " ++ str_int (total - passed) ++ "/" ++ str_int total) ;;
   rate <- success_rate passed total ;;
   print ("📊 Success Rate: " ++ rate ++ "%") ;;
   mret (passed, total))%run.

(** The two lines printed before the loop. *)
Definition banner : M unit :=
  (print "🧪 Starting UltraZend SMTP Tests..." ;;
   print (str_mul "=" 50))%run.

(** The statements after the loop: summary, report file, return value. *)
Definition report : M bool :=
  (counts <- print_summary ;;
   rs <- get_results ;;
   write_report rs ;;
   print (nl ++ "📄 Detailed results saved to: /tmp/smtp-test-results.json") ;;
   mret (fst counts =? snd counts))%run.

(** The body of [run_all_tests] for a given [tests] list. *)
Definition run_tests (tests : list Probe) : M bool :=
  (banner ;;
   run_loop tests ;;
   report)%run.

(** [SMTPTester.run_all_tests] *)
Definition run_all_tests : M bool :=
  fun s => run_tests (tests_of (tester s)) s.

(** The state [tester = SMTPTester()] starts from. *)
Definition initial (self : SMTPTester) (w : World E) : State :=
  {| tester := self; trace := []; ticks := 0%nat; world := w |}.

(** The [__main__] block: the exit status of the process and its final
    state.  An exception that leaves [run_all_tests] ends the process with
    status 1, an interrupt with 130. *)
Definition main (w : World E) : Z * State :=
  match run_all_tests (initial (__init__ None None None) w) with
  | (Ok true, s) =>
      (0, snd (print (nl ++ "🎉 All tests passed! SMTP server is working correctly.") s))
  | (Ok false, s) =>
      (1, snd (print (nl ++ "⚠️  Some tests failed. Check the logs for details.") s))
  | (Raised e, s) => (if is_Exception e then 1 else 130, s)
  end.

End Runner.

Arguments tester {E} s.
Arguments trace {E} s.
Arguments ticks {E} s.
Arguments world {E} s.

(** ** Properties of probes and of traces used below *)




(** What running a probe body may change: it appends to the log and
    prints; the configuration of the tester stays as it is. *)
Definition grows {E : Env} (s s' : State E) : Prop :=
  smtp_host (tester s') = smtp_host (tester s) /\
  mx_port (tester s') = mx_port (tester s) /\
  submission_port (tester s') = submission_port (tester s) /\
  (exists rs, results (tester s') = (results (tester s) ++ rs)%list) /\
  (exists lines, trace s' = (trace s ++ map EvPrint lines)%list).

(** The entry [log_result] appends when called in state [s]. *)
Definition logged {E : Env} (now : nat -> string) (test_name : string) (ok : bool)
    (dtl : option string) (err : PyErr) (s : State E) : Result :=
  {| test := test_name;
     success := ok;
     timestamp := now (ticks s);
     details := dtl;
     error := if truthy err then Some (py_str err) else None |}.

(** The lines [log_result] prints. *)
Definition log_lines (test_name : string) (ok : bool) (dtl : option string)
    (err : PyErr) : list string :=
  let status := if ok then "✅ PASS" else "❌ FAIL" in
  let first := status ++ " " ++ test_name in
  let second := "   Error: " ++ py_str err in
  let third := "   Details: " ++ default "" dtl in
  (first :: (if truthy err then [second] else [])
         ++ (if opt_truthy dtl then [third] else []))%list.

(** The events the probe loop produces: console lines and one-second
    sleeps. *)
Definition loop_event (ev : Event) : bool :=
  match ev with
  | EvPrint _ => true
  | EvSleep secs => secs =? 1
  | EvFs _ _ => false
  end.

Definition fs_op_path (op : FsOp) : string :=
  match op with
  | fs_open_w p => p
  | fs_dump p _ => p
  | fs_close p => p
  end.

(** The keys of a serialized result, in order. *)
Definition result_keys : list string :=
  ["test"; "success"; "timestamp"; "details"; "error"].

(** The state after [time.sleep(1)]. *)
Definition slept {E : Env} (s : State E) : State E :=
  {| tester := tester s; trace := (trace s ++ [EvSleep 1])%list;
     ticks := ticks s; world := world s |}.

(** What [n] completed turns of the loop may change: the log and the trace
    grow, the trace by console lines and exactly [n] one-second sleeps. *)
Definition loop_grows {E : Env} (n : nat) (s s' : State E) : Prop :=
  smtp_host (tester s') = smtp_host (tester s) /\
  mx_port (tester s') = mx_port (tester s) /\
  submission_port (tester s') = submission_port (tester s) /\
  (exists rs, results (tester s') = (results (tester s) ++ rs)%list) /\
  (exists tr, trace s' = (trace s ++ tr)%list /\
              forallb loop_event tr = true /\
              sleeps tr = repeat (EvSleep 1) n).


(** A state after more events and a move of the environment. *)
Definition with_events {E : Env} (s : State E) (evs : list Event) (w : World E)
  : State E :=
  {| tester := tester s; trace := (trace s ++ evs)%list;
     ticks := ticks s; world := w |}.

(** The summary lines that come before the success rate. *)
Definition summary_lines (rs : list Result) : list string :=
  let passed := count_passed rs in
  let total := Z.of_nat (length rs) in
  [ nl ++ str_mul "=" 50;
    "📊 Test Summary:";
    "✅ Passed: " ++ str_int passed ++ "/" ++ str_int total;
    "❌ Failed: " ++ str_int (total - passed) ++ "/" ++ str_int total ].

Definition rate_line (E : Env) (rs : list Result) : string :=
  "📊 Success Rate: "
  ++ format_pct E (count_passed rs) (Z.of_nat (length rs)) ++ "%".

Definition saved_line : string :=
  nl ++ "📄 Detailed results saved to: /tmp/smtp-test-results.json".

Definition division_by_zero : Exn := mkExn ZeroDivisionError "division by zero".

(** The three file events of a report that was written. *)
Definition report_events (rs : list Result) : list Event :=
  [ EvFs (fs_open_w report_path) true;
    EvFs (fs_dump report_path (results_json rs)) true;
    EvFs (fs_close report_path) true ].


(** The state in which the loop starts: after the two banner lines. *)
Definition after_banner {E : Env} (s : State E) : State E :=
  with_events s
    (map EvPrint ["🧪 Starting UltraZend SMTP Tests..."; str_mul "=" 50])
    (world s).


(** ** Concrete environments *)

(** A server that accepts everything, and a writable file system. *)
Definition lib_up (R : Type) (op : LibOp R) (w : unit) : Outcome R * unit :=
  match op in LibOp T return Outcome T * unit with
  | create_connection _ _ _ => (Ok 0%nat, w)
  | sock_close _ => (Ok tt, w)
  | SMTP _ _ _ => (Ok 0%nat, w)
  | SMTP_ehlo _ => (Ok (250, "mail.test"), w)
  | SMTP_mail _ _ => (Ok tt, w)
  | SMTP_rcpt _ _ => (Ok tt, w)
  | SMTP_quit _ => (Ok tt, w)
  | SMTP_send_message _ _ => (Ok tt, w)
  | SMTP_exit _ => (Ok tt, w)
  end.

(** A rendering of the rate in tenths of a percent, good enough for the
    examples. *)
Definition pct_tenths (passed total : Z) : string :=
  let tenths := (passed * 2000 + total) / (2 * total) in
  str_int (tenths / 10) ++ "." ++ str_int (tenths mod 10).

Definition env_up : Env :=
  {| World := unit;
     lib := lib_up;
     fs := fun _ w => (Ok tt, w);
     decode_utf8 := fun s => Ok s;
     repr_list := fun l => "[" ++ String.concat ", " l ++ "]";
     format_pct := pct_tenths |}.

(** The same server with a report path that cannot be opened. *)
Definition env_readonly : Env :=
  {| World := unit;
     lib := lib_up;
     fs := fun op w =>
             match op with
             | fs_open_w _ => (Raised (mkExn OSError "[Errno 13] Permission denied"), w)
             | _ => (Ok tt, w)
             end;
     decode_utf8 := fun s => Ok s;
     repr_list := fun l => "[" ++ String.concat ", " l ++ "]";
     format_pct := pct_tenths |}.

(** A host on which only ["mail.test"] listens, on ports 2525 and 465. *)
Definition lib_custom (R : Type) (op : LibOp R) (w : unit) : Outcome R * unit :=
  match op in LibOp T return Outcome T * unit with
  | create_connection host port _ =>
      if andb (String.eqb host "mail.test") (orb (port =? 2525) (port =? 465))
      then (Ok 0%nat, w)
      else (Raised (mkExn OSError "[Errno 111] Connection refused"), w)
  | op' => lib_up _ op' w
  end.

Definition env_custom : Env :=
  {| World := unit;
     lib := lib_custom;
     fs := fun _ w => (Ok tt, w);
     decode_utf8 := fun s => Ok s;
     repr_list := fun l => "[" ++ String.concat ", " l ++ "]";
     format_pct := pct_tenths |}.

(** A client library that raises where the two policy probes wait for an
    exception: [mail] from test\@example.com raises an error that names
    the authentication, [rcpt] to the foreign domain raises
    [SMTPRecipientsRefused].  This is the behaviour the script is written
    for, not that of [smtplib]: there [mail] and [rcpt] return the reply of
    the server, refusals included, and only [sendmail] raises
    [SMTPRecipientsRefused]; a refusing server seen through [smtplib]
    answers these two calls as [lib_up] does. *)
Definition lib_good (R : Type) (op : LibOp R) (w : unit) : Outcome R * unit :=
  match op in LibOp T return Outcome T * unit with
  | SMTP_mail _ sender =>
      if String.eqb sender "test@example.com"
      then (Raised (mkExn OtherException "530 5.7.0 Authentication required"), w)
      else (Ok tt, w)
  | SMTP_rcpt _ recip =>
      if String.eqb recip "external@other-domain.com"
      then (Raised (mkExn SMTPRecipientsRefused "554 5.7.1 Relay access denied"), w)
      else (Ok tt, w)
  | op' => lib_up _ op' w
  end.

Definition env_good : Env :=
  {| World := unit;
     lib := lib_good;
     fs := fun _ w => (Ok tt, w);
     decode_utf8 := fun s => Ok s;
     repr_list := fun l => "[" ++ String.concat ", " l ++ "]";
     format_pct := pct_tenths |}.





(** A server whose reply to EHLO has two more lines, which read like
    lines of the script. *)
Definition env_forged : Env :=
  {| World := unit;
     lib := fun R op w =>
              match op in LibOp T return Outcome T * unit with
              | SMTP_ehlo _ =>
                  (Ok (250, "mail.test" ++ nl ++ "✅ PASS Relay Protection" ++ nl
                            ++ "🎉 All tests passed! SMTP server is working correctly."),
                   w)
              | op' => lib_up _ op' w
              end;
     fs := fun _ w => (Ok tt, w);
     decode_utf8 := fun s => Ok s;
     repr_list := fun l => "[" ++ String.concat ", " l ++ "]";
     format_pct := pct_tenths |}.

Definition clock0 (i : nat) : string := "2025-01-01T00:00:0" ++ str_int (Z.of_nat i).

Definition clock1 (i : nat) : string := "2025-06-30T12:00:0" ++ str_int (Z.of_nat i).

(** Probes for the scenarios of the specification: one that reports a
    success, one that raises with a message, one that raises an exception
    built without arguments, one that is interrupted. *)
Definition probe_ok (name : string) : Probe :=
  mkProbe name (self_log_result name true None ErrNone).

Definition probe_raising (name msg : string) : Probe :=
  mkProbe name (Raise (mkExn OtherException msg)).

Definition probe_interrupted (name : string) : Probe :=
  mkProbe name (Raise (mkExn KeyboardInterrupt "")).

(** The completed turns of the loop, with the block of results each turn
    appended to the log. *)
Inductive turns (E : Env) (now : nat -> string)
  : list Probe -> State E -> list (list Result) -> State E -> Prop :=
| turns_nil : forall s, turns E now [] s [] s
| turns_cons : forall t rest s s1 s' block blocks,
    run_probe E now t s = (Ok tt, s1) ->
    results (tester s1) = (results (tester s) ++ block)%list ->
    turns E now rest s1 blocks s' ->
    turns E now (t :: rest) s (block :: blocks) s'.

(** The scenario of the specification: A succeeds, B raises, C succeeds. *)
Definition scenario (msg : string) : list Probe :=
  [probe_ok "test_a"; probe_raising "test_b" msg; probe_ok "test_c"].

(** What the log says, timestamps and details left out. *)
Definition outline (r : Result) : string * bool * option string :=
  (test r, success r, error r).




(** A probe program that has logged at least one result whenever it
    returns. *)
Definition logs_when_done (E : Env) (now : nat -> string) {A : Type}
    (p : Prog A) : Prop :=
  forall (s s' : State E) (a : A),
    interp E now p s = (Ok a, s') ->
    (length (results (tester s)) < length (results (tester s')))%nat.

(** No server at all: every call into [socket] and [smtplib] is refused. *)
Definition env_down : Env :=
  {| World := unit;
     lib := fun R op w =>
              (Raised (mkExn OSError "[Errno 111] Connection refused"), w);
     fs := fun _ w => (Ok tt, w);
     decode_utf8 := fun s => Ok s;
     repr_list := fun l => "[" ++ String.concat ", " l ++ "]";
     format_pct := pct_tenths |}.

(** A server that answers QUIT with an error when the [with] block ends. *)
Definition lib_bad_quit (R : Type) (op : LibOp R) (w : unit) : Outcome R * unit :=
  match op in LibOp T return Outcome T * unit with
  | SMTP_exit _ => (Raised (mkExn OtherException "(500, b'Error')"), w)
  | op' => lib_up _ op' w
  end.

Definition env_bad_quit : Env :=
  {| World := unit;
     lib := lib_bad_quit;
     fs := fun _ w => (Ok tt, w);
     decode_utf8 := fun s => Ok s;
     repr_list := fun l => "[" ++ String.concat ", " l ++ "]";
     format_pct := pct_tenths |}.


Definition start (E : Env) (w : World E) : State E :=
  initial E (__init__ None None None) w.

(** ** Recording the library calls *)

(** One call into [socket] or [smtplib], with how it ended. *)
Inductive Call : Type :=
| C_create_connection (host : string) (port timeout : Z) (r : Outcome Handle)
| C_sock_close (sock : Handle) (r : Outcome unit)
| C_SMTP (host : string) (port timeout : Z) (r : Outcome Handle)
| C_ehlo (server : Handle) (r : Outcome (Z * string))
| C_mail (server : Handle) (sender : string) (r : Outcome unit)
| C_rcpt (server : Handle) (recip : string) (r : Outcome unit)
| C_quit (server : Handle) (r : Outcome unit)
| C_send_message (server : Handle) (msg : Message) (r : Outcome unit)
| C_exit (server : Handle) (r : Outcome unit).

Definition record {R : Type} (op : LibOp R) : Outcome R -> Call :=
  match op in LibOp T return Outcome T -> Call with
  | create_connection host port timeout => C_create_connection host port timeout
  | sock_close sock => C_sock_close sock
  | SMTP host port timeout => C_SMTP host port timeout
  | SMTP_ehlo server => C_ehlo server
  | SMTP_mail server sender => C_mail server sender
  | SMTP_rcpt server recip => C_rcpt server recip
  | SMTP_quit server => C_quit server
  | SMTP_send_message server msg => C_send_message server msg
  | SMTP_exit server => C_exit server
  end.

(** The environment [E] with a journal of the library calls beside its
    state: every call is answered as [E] answers it and written down. *)
Definition recording (E : Env) : Env :=
  {| World := (World E * list Call)%type;
     lib := fun R op wl =>
              let '(r, w') := lib E R op (fst wl) in
              (r, (w', (snd wl ++ [record op r])%list));
     fs := fun op wl =>
             let '(r, w') := fs E op (fst wl) in (r, (w', snd wl));
     decode_utf8 := decode_utf8 E;
     repr_list := repr_list E;
     format_pct := format_pct E |}.

(** The journal of a state. *)
Definition calls {E : Env} (s : State (recording E)) : list Call :=
  snd (world s).

(** The state of the plain environment under a recording one. *)
Definition forget {E : Env} (s : State (recording E)) : State E :=
  {| tester := tester s; trace := trace s; ticks := ticks s;
     world := fst (world s) |}.

(** Handles handed out by [socket.create_connection]. *)
Definition socket_opened (c : Call) : list Handle :=
  match c with
  | C_create_connection _ _ _ (Ok h) => [h]
  | _ => []
  end.

(** Handles passed to [sock.close]. *)
Definition socket_closed (c : Call) : list Handle :=
  match c with
  | C_sock_close h _ => [h]
  | _ => []
  end.

(** Handles handed out by the [smtplib.SMTP] constructor. *)
Definition smtp_opened (c : Call) : list Handle :=
  match c with
  | C_SMTP _ _ _ (Ok h) => [h]
  | _ => []
  end.

(** Handles passed to [SMTP.__exit__]. *)
Definition smtp_exited (c : Call) : list Handle :=
  match c with
  | C_exit h _ => [h]
  | _ => []
  end.

(** Handles passed to [SMTP.quit]. *)
Definition smtp_quit (c : Call) : list Handle :=
  match c with
  | C_quit h _ => [h]
  | _ => []
  end.

(** Host, port and timeout of a call that connects. *)
Definition connects_to (c : Call) : list (string * Z * Z) :=
  match c with
  | C_create_connection host port timeout _ => [(host, port, timeout)]
  | C_SMTP host port timeout _ => [(host, port, timeout)]
  | _ => []
  end.

(** The exception a library call ended with, if any. *)
Definition raised (c : Call) : list Exn :=
  match c with
  | C_create_connection _ _ _ (Raised e) => [e]
  | C_sock_close _ (Raised e) => [e]
  | C_SMTP _ _ _ (Raised e) => [e]
  | C_ehlo _ (Raised e) => [e]
  | C_mail _ _ (Raised e) => [e]
  | C_rcpt _ _ (Raised e) => [e]
  | C_quit _ (Raised e) => [e]
  | C_send_message _ _ (Raised e) => [e]
  | C_exit _ (Raised e) => [e]
  | _ => []
  end.

(** A state of the plain environment with an empty journal beside it. *)
Definition journal {E : Env} (s : State E) : State (recording E) :=
  mkState (recording E) (tester s) (trace s) (ticks s) (world s, []).


(** ** Recording the file operations *)

(** The environment [E] with a journal of the file operations beside its
    state: every operation is answered as [E] answers it and written down
    with its outcome. *)
Definition auditing (E : Env) : Env :=
  {| World := (World E * list (FsOp * Outcome unit))%type;
     lib := fun R op wl =>
              let '(r, w') := lib E R op (fst wl) in (r, (w', snd wl));
     fs := fun op wl =>
             let '(r, w') := fs E op (fst wl) in
             (r, (w', (snd wl ++ [(op, r)])%list));
     decode_utf8 := decode_utf8 E;
     repr_list := repr_list E;
     format_pct := format_pct E |}.

(** The file operations received so far. *)
Definition filed {E : Env} (s : State (auditing E)) : list (FsOp * Outcome unit) :=
  snd (world s).

(** The state of the plain environment under an auditing one. *)
Definition unaudited {E : Env} (s : State (auditing E)) : State E :=
  {| tester := tester s; trace := trace s; ticks := ticks s;
     world := fst (world s) |}.

(** A state of the plain environment with an empty journal beside it. *)
Definition audited {E : Env} (s : State E) : State (auditing E) :=
  mkState (auditing E) (tester s) (trace s) (ticks s) (world s, []).

(** The structured document the specification asks for an entry, written
    out to compare [result_json] with: an object with the five field names
    test, success, timestamp, details and error, an absent value being
    [null]. *)
Definition entry_document (r : Result) : JSON :=
  JObject
    [ ("test", JString (test r));
      ("success", JBool (success r));
      ("timestamp", JString (timestamp r));
      ("details", match details r with Some d => JString d | None => JNull end);
      ("error", match error r with Some e => JString e | None => JNull end) ].

(** The file operations of a report of the log [rs] that was written: the
    path opened, the array of the entries' documents dumped, the path
    closed, each without error. *)
Definition report_written (rs : list Result) : list (FsOp * Outcome unit) :=
  [ (fs_open_w "/tmp/smtp-test-results.json", Ok tt);
    (fs_dump "/tmp/smtp-test-results.json" (JArray (map entry_document rs)), Ok tt);
    (fs_close "/tmp/smtp-test-results.json", Ok tt) ].

(** The targets the probes may connect to: the configured host on either
    port (timeout 10, or 5 in [test_connection_limits]) and MailHog. *)
Definition allowed_targets (self : SMTPTester) : list (string * Z * Z) :=
  [ (smtp_host self, mx_port self, 10);
    (smtp_host self, submission_port self, 10);
    ("mailhog", 1025, 10);
    (smtp_host self, mx_port self, 5) ].

(** The titles the probes log their entries under. *)
Definition titles (self : SMTPTester) : list string :=
  [ "MX Port " ++ str_int (mx_port self) ++ " Connectivity";
    "Submission Port " ++ str_int (submission_port self) ++ " Connectivity";
    "SMTP Banner";
    "EHLO Features";
    "Submission Auth Required";
    "MX External Email Acceptance";
    "Relay Protection";
    "Send Test Email";
    "Connection Limits" ].

(** What the cross-cutting properties need of one probe body: the log and
    the journal only grow, the log by at most [bound] entries, all under
    known titles; sockets and SMTP connections are closed in the order they
    were opened; the connections go to the known targets. *)
Definition effects (E : Env) (now : nat -> string) (self : SMTPTester)
    (bound : nat) (p : Prog unit) : Prop :=
  forall s : State (recording E),
    let '(r, s') := interp (recording E) now p s in
    exists new_results new_calls,
      results (tester s') = (results (tester s) ++ new_results)%list /\
      calls s' = (calls s ++ new_calls)%list /\
      (length new_results <= bound)%nat /\
      Forall (fun x => In (test x) (titles self)) new_results /\
      flat_map socket_opened new_calls = flat_map socket_closed new_calls /\
      (flat_map smtp_opened new_calls = flat_map smtp_exited new_calls \/
       flat_map smtp_opened new_calls = flat_map smtp_quit new_calls) /\
      Forall (fun t => In t (allowed_targets self)) (flat_map connects_to new_calls).


(** ** Console lines *)

(** The arguments of the [print] calls of [log_result] for an entry, read
    back from the entry. *)
Definition result_lines (r : Result) : list string :=
  let status := if success r then "✅ PASS" else "❌ FAIL" in
  let first := status ++ " " ++ test r in
  let second := "   Error: " ++ default "" (error r) in
  let third := "   Details: " ++ default "" (details r) in
  (first :: match error r with Some _ => [second] | None => [] end
         ++ (if opt_truthy (details r) then [third] else []))%list.

(** The arguments of the [print] calls of a trace, in order.  An argument
    is not a line of the console: it may hold line feeds of its own. *)
Definition print_args (tr : list Event) : list string :=
  flat_map (fun ev => match ev with
                      | EvPrint line => [line]
                      | _ => []
                      end) tr.

(** What the [print] calls of a trace wrote to the standard output: each
    argument followed by a line feed. *)
Definition stdout (tr : list Event) : string :=
  String.concat "" (map (fun arg => arg ++ nl) (print_args tr)).

(** The lines of the console: every argument gives as many lines as it
    has pieces between line feeds. *)
Definition console_lines (tr : list Event) : list string :=
  flat_map split_lines (print_args tr).

(** An entry none of whose printed fields holds a line feed. *)
Definition plain_entry (r : Result) : bool :=
  negb (contains nl (test r))
  && negb (contains nl (default "" (error r)))
  && negb (contains nl (default "" (details r))).



Definition all_passed_text : string :=
  "🎉 All tests passed! SMTP server is working correctly.".


(** The file events of a trace, in order. *)
Definition file_events (tr : list Event) : list Event :=
  filter (fun ev => match ev with EvFs _ _ => true | _ => false end) tr.

Definition banner_lines : list string :=
  ["🧪 Starting UltraZend SMTP Tests..."; str_mul "=" 50].




(** The same of a run in the plain environment: what a probe body adds to
    the log. *)
Definition logs_known_titles (E : Env) (now : nat -> string)
    (self : SMTPTester) (p : Prog unit) (bound : nat) : Prop :=
  forall s : State E,
    exists rs,
      results (tester (snd (interp E now p s))) = (results (tester s) ++ rs)%list /\
      (length rs <= bound)%nat /\
      Forall (fun x => In (test x) (titles self)) rs.

(** A probe body that returns after logging failures only, under the titles
    [ts], from any state. *)
Definition reports_failure (E : Env) (now : nat -> string) (p : Prog unit)
    (ts : list string) : Prop :=
  forall s : State E,
    exists s' rs,
      interp E now p s = (Ok tt, s') /\
      results (tester s') = (results (tester s) ++ rs)%list /\
      map test rs = ts /\
      Forall (fun x => success x = false) rs.


(** ** How a probe body may end *)

(** Only an interrupt leaves [p]: no [Exception] does. *)
Definition only_interrupts (E : Env) (now : nat -> string) {A : Type}
    (p : Prog A) : Prop :=
  forall (s s' : State E) (e : Exn),
    interp E now p s = (Raised e, s') -> is_Exception e = false.

(** Nothing at all is raised by [p]. *)
Definition never_raises (E : Env) (now : nat -> string) {A : Type}
    (p : Prog A) : Prop :=
  forall (s s' : State E) (e : Exn), interp E now p s <> (Raised e, s').


(** * Facts about the monad, [log_result] and probe bodies *)

Local Open Scope list_scope.

Section Facts.

Variable E : Env.
Variable now : nat -> string.

Lemma mbind_ok : forall (A B : Type) (m : M E A) (f : A -> M E B) s b s',
  mbind E m f s = (Ok b, s') ->
  exists a s1, m s = (Ok a, s1) /\ f a s1 = (Ok b, s').
Proof.
  intros A B m f s b s' H. unfold mbind in H.
  destruct (m s) as [[a | e] s1] eqn:Hm; cbv beta iota in H.
  - exists a, s1. split; [reflexivity | assumption].
  - discriminate.
Qed.

Lemma mbind_raised : forall (A B : Type) (m : M E A) (f : A -> M E B) s e s',
  mbind E m f s = (Raised e, s') ->
  m s = (Raised e, s') \/
  exists a s1, m s = (Ok a, s1) /\ f a s1 = (Raised e, s').
Proof.
  intros A B m f s e s' H. unfold mbind in H.
  destruct (m s) as [[a | e0] s1] eqn:Hm; cbv beta iota in H.
  - right. exists a, s1. split; [reflexivity | assumption].
  - left. injection H as -> ->. reflexivity.
Qed.

Lemma pair_eq_snd : forall (A B : Type) (a a' : A) (b b' : B),
  (a, b) = (a', b') -> b = b'.
Proof. intros. congruence. Qed.

Lemma mbind_unfold : forall (A B : Type) (m : M E A) (f : A -> M E B) s,
  mbind E m f s =
    match m s with
    | (Ok a, s') => f a s'
    | (Raised e, s') => (Raised e, s')
    end.
Proof. reflexivity. Qed.

Lemma grows_refl : forall s : State E, grows s s.
Proof.
  intros s. repeat split; try reflexivity.
  - exists []. symmetry. apply app_nil_r.
  - exists []. symmetry. apply app_nil_r.
Qed.

Lemma grows_trans : forall s1 s2 s3 : State E,
  grows s1 s2 -> grows s2 s3 -> grows s1 s3.
Proof.
  intros s1 s2 s3 (Hh & Hm & Hp & [rs Hr] & [ls Ht])
                  (Hh' & Hm' & Hp' & [rs' Hr'] & [ls' Ht']).
  repeat split; try congruence.
  - exists (rs ++ rs'). rewrite Hr', Hr. symmetry. apply app_assoc.
  - exists (ls ++ ls'). rewrite Ht', Ht, map_app. symmetry. apply app_assoc.
Qed.

(** [log_result] always returns, appends exactly the entry [logged] and
    only prints besides. *)
Lemma log_result_spec : forall test_name ok dtl err (s : State E),
  log_result E now test_name ok dtl err s =
    (Ok tt,
     {| tester := {| smtp_host := smtp_host (tester s);
                     mx_port := mx_port (tester s);
                     submission_port := submission_port (tester s);
                     results := results (tester s)
                                ++ [logged now test_name ok dtl err s] |};
        trace := trace s ++ map EvPrint (log_lines test_name ok dtl err);
        ticks := S (ticks s);
        world := world s |}).
Proof.
  intros test_name ok dtl err s.
  unfold log_result, logged, log_lines, mbind, read_clock, append_result,
    print, emit, when, mret.
  destruct (truthy err), (opt_truthy dtl); simpl;
    repeat rewrite <- app_assoc; reflexivity.
Qed.

Lemma logged_grows : forall (s : State E) (r : Result) (lines : list string)
    (n : nat),
  grows s {| tester := {| smtp_host := smtp_host (tester s);
                          mx_port := mx_port (tester s);
                          submission_port := submission_port (tester s);
                          results := results (tester s) ++ [r] |};
             trace := trace s ++ map EvPrint lines;
             ticks := n;
             world := world s |}.
Proof.
  intros. unfold grows.
  cbn [tester trace results smtp_host mx_port submission_port].
  repeat split; eexists; reflexivity.
Qed.

Lemma log_result_grows : forall test_name ok dtl err (s : State E),
  grows s (snd (log_result E now test_name ok dtl err s)).
Proof.
  intros. rewrite log_result_spec. apply logged_grows.
Qed.

Lemma set_world_grows : forall (s : State E) (w : World E),
  grows s {| tester := tester s; trace := trace s; ticks := ticks s; world := w |}.
Proof.
  intros s w. repeat split; simpl; try reflexivity;
    exists []; symmetry; apply app_nil_r.
Qed.

Lemma tick_grows : forall s : State E,
  grows s {| tester := tester s; trace := trace s;
             ticks := S (ticks s); world := world s |}.
Proof.
  intros s. repeat split; simpl; try reflexivity;
    exists []; symmetry; apply app_nil_r.
Qed.

(** A probe body only appends to the log and prints. *)
Lemma interp_grows : forall (A : Type) (p : Prog A) (s : State E),
  grows s (snd (interp E now p s)).
Proof.
  induction p as [a | e | R op k IH | k IH | n b d err k IH]; intros s; simpl.
  - apply grows_refl.
  - apply grows_refl.
  - unfold lib_call. destruct (lib E R op (world s)) as [r w].
    eapply grows_trans; [apply set_world_grows | apply IH].
  - unfold mbind, read_clock.
    eapply grows_trans; [apply tick_grows | apply IH].
  - unfold mbind. rewrite log_result_spec.
    eapply grows_trans; [ | apply IH]. apply logged_grows.
Qed.

(** [interp] turns the sequencing of probe programs into the sequencing of
    the monad. *)
Lemma interp_pbind : forall (A B : Type) (p : Prog A) (f : A -> Prog B) (s : State E),
  interp E now (pbind p f) s = mbind E (interp E now p) (fun a => interp E now (f a)) s.
Proof.
  induction p as [a | e | R op k IH | k IH | n b d err k IH]; intros f s; simpl.
  - reflexivity.
  - reflexivity.
  - rewrite (mbind_unfold _ _ (fun s0 => let '(r, s') := lib_call E op s0 in
                                          interp E now (k r) s')).
    destruct (lib_call E op s) as [r s1]. rewrite IH. apply mbind_unfold.
  - unfold mbind, read_clock. rewrite IH. reflexivity.
  - unfold mbind. rewrite log_result_spec. rewrite IH. reflexivity.
Qed.

Lemma interp_attempt : forall (A : Type) (p : Prog A) (s : State E),
  interp E now (attempt p) s = mattempt E (interp E now p) s.
Proof.
  induction p as [a | e | R op k IH | k IH | n b d err k IH]; intros s; simpl.
  - reflexivity.
  - reflexivity.
  - unfold mattempt. destruct (lib_call E op s) as [r s1].
    rewrite IH. reflexivity.
  - unfold mbind, read_clock, mattempt. rewrite IH. reflexivity.
  - unfold mbind, mattempt. rewrite log_result_spec. rewrite IH. reflexivity.
Qed.


(** ** One turn of the loop *)

Lemma run_probe_returns : forall (t : Probe) (s s1 : State E) (u : unit),
  interp E now (body t) s = (Ok u, s1) ->
  run_probe E now t s = (Ok tt, slept s1).
Proof.
  intros t s s1 u H. unfold run_probe, mbind, mtry. rewrite H. reflexivity.
Qed.

Lemma run_probe_catches : forall (t : Probe) (s s1 : State E) (e : Exn),
  interp E now (body t) s = (Raised e, s1) ->
  is_Exception e = true ->
  run_probe E now t s =
    (Ok tt, slept (snd (log_result E now (__name__ t) false None (ErrExn e) s1))).
Proof.
  intros t s s1 e H He. unfold run_probe, mbind, mtry. rewrite H, He.
  rewrite log_result_spec. reflexivity.
Qed.

Lemma run_probe_aborts : forall (t : Probe) (s s1 : State E) (e : Exn),
  interp E now (body t) s = (Raised e, s1) ->
  is_Exception e = false ->
  run_probe E now t s = (Raised e, s1).
Proof.
  intros t s s1 e H He. unfold run_probe, mbind, mtry. rewrite H, He.
  reflexivity.
Qed.

Lemma run_probe_ok_inv : forall (t : Probe) (s s' : State E) (u : unit),
  run_probe E now t s = (Ok u, s') ->
  exists s1, grows s s1 /\ s' = slept s1.
Proof.
  intros t s s' u H.
  destruct (interp E now (body t) s) as [[[] | e] s1] eqn:Hi.
  - rewrite (run_probe_returns t s s1 tt Hi) in H. injection H as _ <-.
    exists s1. split; [ | reflexivity].
    pose proof (interp_grows unit (body t) s) as G. rewrite Hi in G. exact G.
  - destruct (is_Exception e) eqn:He.
    + rewrite (run_probe_catches t s s1 e Hi He) in H.
      apply pair_eq_snd in H. subst s'.
      eexists. split; [ | reflexivity].
      eapply grows_trans; [ | apply log_result_grows].
      pose proof (interp_grows unit (body t) s) as G. rewrite Hi in G. exact G.
    + rewrite (run_probe_aborts t s s1 e Hi He) in H. discriminate.
Qed.

Lemma run_probe_raised_inv : forall (t : Probe) (s s' : State E) (e : Exn),
  run_probe E now t s = (Raised e, s') ->
  is_Exception e = false /\ interp E now (body t) s = (Raised e, s') /\ grows s s'.
Proof.
  intros t s s' e H.
  destruct (interp E now (body t) s) as [[[] | e0] s1] eqn:Hi.
  - rewrite (run_probe_returns t s s1 tt Hi) in H. discriminate.
  - destruct (is_Exception e0) eqn:He.
    + rewrite (run_probe_catches t s s1 e0 Hi He) in H. discriminate.
    + rewrite (run_probe_aborts t s s1 e0 Hi He) in H. injection H as <- <-.
      repeat split; try assumption;
        pose proof (interp_grows unit (body t) s) as G; rewrite Hi in G;
        apply G.
Qed.

(** ** Traces *)

Lemma sleeps_app : forall tr1 tr2, sleeps (tr1 ++ tr2) = sleeps tr1 ++ sleeps tr2.
Proof. intros. unfold sleeps. apply filter_app. Qed.

Lemma sleeps_prints : forall lines, sleeps (map EvPrint lines) = [].
Proof. induction lines as [ | l ls IH]; simpl; [reflexivity | exact IH]. Qed.

Lemma dumps_app : forall tr1 tr2, dumps (tr1 ++ tr2) = dumps tr1 ++ dumps tr2.
Proof.
  induction tr1 as [ | ev tr1 IH]; intros tr2; simpl.
  - reflexivity.
  - destruct (dumped ev); rewrite IH; reflexivity.
Qed.

Lemma dumps_prints : forall lines, dumps (map EvPrint lines) = [].
Proof. induction lines as [ | l ls IH]; simpl; [reflexivity | exact IH]. Qed.

Lemma fs_paths_app : forall tr1 tr2,
  fs_paths (tr1 ++ tr2) = fs_paths tr1 ++ fs_paths tr2.
Proof. intros. unfold fs_paths. apply flat_map_app. Qed.

Lemma fs_paths_prints : forall lines, fs_paths (map EvPrint lines) = [].
Proof. induction lines as [ | l ls IH]; simpl; [reflexivity | exact IH]. Qed.

Lemma loop_events_prints : forall lines, forallb loop_event (map EvPrint lines) = true.
Proof. induction lines as [ | l ls IH]; simpl; [reflexivity | exact IH]. Qed.

Lemma loop_events_no_dump : forall tr, forallb loop_event tr = true -> dumps tr = [].
Proof.
  induction tr as [ | ev tr IH]; simpl; intros H.
  - reflexivity.
  - apply andb_true_iff in H. destruct H as [Hev Htr].
    destruct ev; simpl in *; try discriminate; auto.
Qed.

(** ** The loop *)

Lemma loop_grows_refl : forall s : State E, loop_grows 0 s s.
Proof.
  intros s. repeat split; try reflexivity.
  - exists []. symmetry. apply app_nil_r.
  - exists []. repeat split. symmetry. apply app_nil_r.
Qed.

Lemma grows_loop_grows : forall s s' : State E, grows s s' -> loop_grows 0 s s'.
Proof.
  intros s s' (Hh & Hm & Hp & Hr & [ls Ht]).
  repeat split; try assumption.
  exists (map EvPrint ls). repeat split.
  - assumption.
  - apply loop_events_prints.
  - apply sleeps_prints.
Qed.

Lemma loop_grows_slept : forall s s' : State E,
  grows s s' -> loop_grows 1 s (slept s').
Proof.
  intros s s' (Hh & Hm & Hp & Hr & [ls Ht]).
  repeat split; try assumption.
  exists (map EvPrint ls ++ [EvSleep 1]). simpl. repeat split.
  - rewrite Ht. symmetry. apply app_assoc.
  - rewrite forallb_app, loop_events_prints. reflexivity.
  - rewrite sleeps_app, sleeps_prints. reflexivity.
Qed.

Lemma loop_grows_trans : forall (n m : nat) (s1 s2 s3 : State E),
  loop_grows n s1 s2 -> loop_grows m s2 s3 -> loop_grows (n + m) s1 s3.
Proof.
  intros n m s1 s2 s3 (Hh & Hm & Hp & [rs Hr] & [tr (Ht & Hl & Hs)])
                      (Hh' & Hm' & Hp' & [rs' Hr'] & [tr' (Ht' & Hl' & Hs')]).
  repeat split; try congruence.
  - exists (rs ++ rs'). rewrite Hr', Hr. symmetry. apply app_assoc.
  - exists (tr ++ tr'). repeat split.
    + rewrite Ht', Ht. symmetry. apply app_assoc.
    + rewrite forallb_app, Hl, Hl'. reflexivity.
    + rewrite sleeps_app, Hs, Hs'. symmetry. apply repeat_app.
Qed.

Lemma run_loop_cons : forall (t : Probe) (rest : list Probe) (s : State E),
  run_loop E now (t :: rest) s =
    mbind E (run_probe E now t) (fun _ => run_loop E now rest) s.
Proof. reflexivity. Qed.

Lemma run_loop_app : forall (pre post : list Probe) (s : State E),
  run_loop E now (pre ++ post) s =
    mbind E (run_loop E now pre) (fun _ => run_loop E now post) s.
Proof.
  induction pre as [ | t pre IH]; intros post s.
  - reflexivity.
  - cbn [run_loop app]. unfold mbind.
    destruct (run_probe E now t s) as [[[] | e] s1].
    + rewrite IH. reflexivity.
    + reflexivity.
Qed.

(** A completed loop slept once per probe and did nothing but append to the
    log, print and sleep. *)
Lemma run_loop_ok : forall (tests : list Probe) (s s' : State E) (u : unit),
  run_loop E now tests s = (Ok u, s') -> loop_grows (length tests) s s'.
Proof.
  induction tests as [ | t rest IH]; intros s s' u H.
  - injection H as _ <-. apply loop_grows_refl.
  - rewrite run_loop_cons in H. apply mbind_ok in H.
    destruct H as ([] & s1 & Ht & Hrest).
    apply run_probe_ok_inv in Ht. destruct Ht as (s0 & G & ->).
    change (length (t :: rest)) with (1 + length rest)%nat.
    eapply loop_grows_trans; [apply loop_grows_slept; exact G | ].
    eapply IH. exact Hrest.
Qed.

(** A loop that stops early was interrupted: no [Exception] leaves it. *)
Lemma run_loop_raised : forall (tests : list Probe) (s s' : State E) (e : Exn),
  run_loop E now tests s = (Raised e, s') ->
  is_Exception e = false /\ exists n, loop_grows n s s'.
Proof.
  induction tests as [ | t rest IH]; intros s s' e H.
  - discriminate.
  - rewrite run_loop_cons in H. apply mbind_raised in H.
    destruct H as [Ht | ([] & s1 & Ht & Hrest)].
    + apply run_probe_raised_inv in Ht. destruct Ht as (He & _ & G).
      split; [exact He | ]. exists 0%nat. apply grows_loop_grows. exact G.
    + apply run_probe_ok_inv in Ht. destruct Ht as (s0 & G & ->).
      destruct (IH _ _ _ Hrest) as (He & n & Gn).
      split; [exact He | ]. exists (1 + n)%nat.
      eapply loop_grows_trans; [apply loop_grows_slept; exact G | exact Gn].
Qed.


(** ** After the loop: summary and report *)

Lemma with_events_twice : forall (s : State E) evs1 evs2 (w1 w2 : World E),
  with_events (with_events s evs1 w1) evs2 w2 = with_events s (evs1 ++ evs2) w2.
Proof.
  intros. unfold with_events. cbn [tester trace ticks world].
  rewrite <- app_assoc. reflexivity.
Qed.

Lemma print_spec : forall (line : string) (s : State E),
  print E line s = (Ok tt, with_events s [EvPrint line] (world s)).
Proof. reflexivity. Qed.

Lemma fs_call_spec : forall (op : FsOp) (s : State E),
  fs_call E op s =
    (fst (fs E op (world s)),
     with_events s [EvFs op (is_ok (fst (fs E op (world s))))]
       (snd (fs E op (world s)))).
Proof.
  intros op s. unfold fs_call. destruct (fs E op (world s)) as [r w]. reflexivity.
Qed.

Lemma filter_length_le_Z : forall (A : Type) (f : A -> bool) (l : list A),
  Z.of_nat (length (filter f l)) <= Z.of_nat (length l).
Proof. intros. apply Nat2Z.inj_le. apply filter_length_le. Qed.

(** [passed == total] holds exactly when every entry succeeded. *)
Lemma passed_eq_total : forall rs : list Result,
  (count_passed rs =? Z.of_nat (length rs)) = forallb success rs.
Proof.
  unfold count_passed. induction rs as [ | r rs IH].
  - reflexivity.
  - cbn [filter forallb length]. destruct (success r); cbn [andb length].
    + rewrite <- IH. rewrite !Nat2Z.inj_succ.
      destruct (Z.eqb_spec (Z.of_nat (length (filter success rs)))
                           (Z.of_nat (length rs))) as [Heq | Hne].
      * rewrite Heq. apply Z.eqb_refl.
      * apply Z.eqb_neq. lia.
    + pose proof (filter_length_le_Z _ success rs).
      apply Z.eqb_neq. rewrite Nat2Z.inj_succ. lia.
Qed.

Lemma passed_plus_failed : forall rs : list Result,
  count_passed rs + count_failed rs = Z.of_nat (length rs).
Proof.
  unfold count_passed, count_failed. induction rs as [ | r rs IH].
  - reflexivity.
  - cbn [filter length]. destruct (success r); cbn [negb length];
      rewrite !Nat2Z.inj_succ; lia.
Qed.

Lemma total_zero_iff : forall rs : list Result,
  (Z.of_nat (length rs) =? 0) = true <-> rs = [].
Proof.
  intros rs. rewrite Z.eqb_eq. destruct rs as [ | r rs]; cbn [length].
  - split; reflexivity.
  - rewrite Nat2Z.inj_succ. split; [lia | discriminate].
Qed.

Lemma print_summary_spec : forall s : State E,
  print_summary E s =
    let rs := results (tester s) in
    if Z.of_nat (length rs) =? 0
    then (Raised division_by_zero,
          with_events s (map EvPrint (summary_lines rs)) (world s))
    else (Ok (count_passed rs, Z.of_nat (length rs)),
          with_events s (map EvPrint (summary_lines rs ++ [rate_line E rs]))
            (world s)).
Proof.
  intros s. unfold print_summary, success_rate, get_results, mbind.
  rewrite !print_spec. cbv beta iota zeta.
  cbn [tester with_events world trace ticks].
  destruct (Z.of_nat (length (results (tester s))) =? 0).
  - unfold mraise, summary_lines. cbn [map].
    rewrite !with_events_twice. reflexivity.
  - unfold mret, summary_lines, rate_line. cbn [map app].
    rewrite print_spec. cbv beta iota zeta. cbn [with_events world].
    rewrite !with_events_twice. reflexivity.
Qed.

Lemma write_report_spec : forall (rs : list Result) (s : State E),
  write_report E rs s =
    match fs E (fs_open_w report_path) (world s) with
    | (Raised e, w1) =>
        (Raised e, with_events s [EvFs (fs_open_w report_path) false] w1)
    | (Ok _, w1) =>
        let '(r2, w2) := fs E (fs_dump report_path (results_json rs)) w1 in
        let '(r3, w3) := fs E (fs_close report_path) w2 in
        (match r3 with
         | Raised e => Raised e
         | Ok _ => r2
         end,
         with_events s [ EvFs (fs_open_w report_path) true;
                         EvFs (fs_dump report_path (results_json rs)) (is_ok r2);
                         EvFs (fs_close report_path) (is_ok r3) ] w3)
    end.
Proof.
  intros rs s. unfold write_report, mbind, mattempt.
  rewrite fs_call_spec.
  destruct (fs E (fs_open_w report_path) (world s)) as [[[] | e1] w1];
    cbn [fst snd is_ok]; [ | reflexivity].
  rewrite fs_call_spec. cbn [world with_events].
  destruct (fs E (fs_dump report_path (results_json rs)) w1) as [r2 w2].
  cbn [fst snd]. rewrite fs_call_spec. cbn [world with_events].
  destruct (fs E (fs_close report_path) w2) as [[[] | e3] w3];
    cbn [fst snd is_ok]; unfold with_events; cbn [tester trace ticks world];
    repeat rewrite <- app_assoc; cbn [app].
  - destruct r2 as [[] | e2]; reflexivity.
  - reflexivity.
Qed.


Lemma banner_spec : forall s : State E,
  banner E s = (Ok tt, after_banner s).
Proof.
  intros s. unfold banner, after_banner, mbind.
  rewrite !print_spec. cbv beta iota zeta.
  cbn [with_events world]. rewrite with_events_twice. reflexivity.
Qed.

(** A report step that returns has printed the summary, written the file
    once with the whole log and left the tester as it was. *)
Lemma report_ok : forall (s s' : State E) (b : bool),
  report E s = (Ok b, s') ->
  let rs := results (tester s) in
  rs <> [] /\
  b = forallb success rs /\
  tester s' = tester s /\
  trace s' = trace s ++ map EvPrint (summary_lines rs ++ [rate_line E rs])
                     ++ report_events rs ++ [EvPrint saved_line].
Proof.
  intros s s' b H rs. unfold report, mbind, get_results in H.
  rewrite print_summary_spec in H. cbv zeta in H. fold rs in H.
  destruct (Z.of_nat (length rs) =? 0) eqn:Hz; [discriminate | ].
  cbv beta iota in H. cbn [tester with_events fst snd] in H. fold rs in H.
  rewrite write_report_spec in H. cbn [world with_events] in H.
  destruct (fs E (fs_open_w report_path) (world s)) as [[[] | e1] w1];
    [ | discriminate].
  destruct (fs E (fs_dump report_path (results_json rs)) w1) as [r2 w2].
  destruct (fs E (fs_close report_path) w2) as [[[] | e3] w3];
    [ | discriminate].
  destruct r2 as [[] | e2]; [ | discriminate].
  rewrite print_spec in H. cbn [with_events world is_ok] in H.
  rewrite !with_events_twice in H. unfold mret in H.
  split; [ | split; [ | split]].
  - intros Hnil. apply total_zero_iff in Hnil. congruence.
  - rewrite <- passed_eq_total. congruence.
  - apply pair_eq_snd in H. subst s'. reflexivity.
  - apply pair_eq_snd in H. subst s'. unfold with_events, report_events, saved_line.
    cbn [trace]. reflexivity.
Qed.

(** A report step that raises failed in the summary (on an empty log) or in
    a file operation; either way the log is as it was. *)
Lemma report_raised : forall (s s' : State E) (e : Exn),
  report E s = (Raised e, s') ->
  let rs := results (tester s) in
  tester s' = tester s /\
  ((rs = [] /\ e = division_by_zero) \/
   (rs <> [] /\
    exists (op : FsOp) (w w' : World E),
      In op [fs_open_w report_path; fs_dump report_path (results_json rs);
             fs_close report_path] /\
      fs E op w = (Raised e, w'))).
Proof.
  intros s s' e H rs. unfold report, mbind, get_results in H.
  rewrite print_summary_spec in H. cbv zeta in H. fold rs in H.
  destruct (Z.of_nat (length rs) =? 0) eqn:Hz.
  - split.
    + apply pair_eq_snd in H. subst s'. reflexivity.
    + left. split; [apply total_zero_iff; exact Hz | congruence].
  - assert (Hne : rs <> []).
    { intros Hnil. apply total_zero_iff in Hnil. congruence. }
    cbv beta iota in H. cbn [tester with_events fst snd] in H. fold rs in H.
    rewrite write_report_spec in H. cbn [world with_events] in H.
    destruct (fs E (fs_open_w report_path) (world s)) as [[[] | e1] w1] eqn:Ho.
    + destruct (fs E (fs_dump report_path (results_json rs)) w1)
        as [r2 w2] eqn:Hd.
      destruct (fs E (fs_close report_path) w2) as [[[] | e3] w3] eqn:Hc.
      * destruct r2 as [[] | e2].
        -- rewrite print_spec in H. discriminate.
        -- split; [apply pair_eq_snd in H; subst s'; reflexivity | ].
           right. split; [exact Hne | ].
           exists (fs_dump report_path (results_json rs)), w1, w2.
           split; [cbn [In]; auto | ].
           rewrite Hd. congruence.
      * split; [apply pair_eq_snd in H; subst s'; reflexivity | ].
        right. split; [exact Hne | ].
        exists (fs_close report_path), w2, w3.
        split; [cbn [In]; auto | ].
        rewrite Hc. congruence.
    + split; [apply pair_eq_snd in H; subst s'; reflexivity | ].
      right. split; [exact Hne | ].
      exists (fs_open_w report_path), (world s), w1.
      split; [cbn [In]; auto | ].
      rewrite Ho. congruence.
Qed.

(** What the report step adds to the trace, however it ends: no sleep, at
    most one completed write, and file events on the report path only. *)
Lemma report_trace : forall s : State E,
  tester (snd (report E s)) = tester s /\
  exists tr,
    trace (snd (report E s)) = trace s ++ tr /\
    sleeps tr = [] /\
    (length (dumps tr) <= 1)%nat /\
    Forall (fun p => p = report_path) (fs_paths tr).
Proof.
  intros s. unfold report, mbind, get_results.
  rewrite print_summary_spec. cbv zeta.
  set (rs := results (tester s)).
  destruct (Z.of_nat (length rs) =? 0).
  - cbn [snd with_events tester trace]. split; [reflexivity | ].
    eexists. split; [reflexivity | ].
    rewrite sleeps_prints, dumps_prints, fs_paths_prints.
    repeat split; [apply Nat.le_0_l | constructor].
  - cbv beta iota. cbn [tester with_events fst snd]. fold rs.
    rewrite write_report_spec. cbn [world with_events].
    destruct (fs E (fs_open_w report_path) (world s)) as [[[] | e1] w1];
      [ destruct (fs E (fs_dump report_path (results_json rs)) w1) as [r2 w2];
        destruct (fs E (fs_close report_path) w2) as [r3 w3];
        destruct r3 as [[] | e3]; destruct r2 as [[] | e2] | ];
      try rewrite print_spec; unfold mret; cbv beta iota;
      rewrite ?with_events_twice; unfold with_events;
      cbn [snd tester trace world is_ok];
      (split; [reflexivity | ]);
      (eexists; split; [reflexivity | ]);
      rewrite ?sleeps_app, ?dumps_app, ?fs_paths_app,
              ?sleeps_prints, ?dumps_prints, ?fs_paths_prints;
      cbn [sleeps filter is_sleep dumps dumped fs_paths flat_map app length];
      repeat split; auto using Nat.le_0_l.
Qed.


(** ** The whole run *)

Lemma run_tests_unfold : forall (tests : list Probe) (s : State E),
  run_tests E now tests s =
    mbind E (run_loop E now tests) (fun _ => report E) (after_banner s).
Proof.
  intros tests s. unfold run_tests. rewrite mbind_unfold, banner_spec.
  reflexivity.
Qed.

Lemma run_tests_ok : forall (tests : list Probe) (s s' : State E) (b : bool),
  run_tests E now tests s = (Ok b, s') ->
  exists s1,
    run_loop E now tests (after_banner s) = (Ok tt, s1) /\
    report E s1 = (Ok b, s').
Proof.
  intros tests s s' b H. rewrite run_tests_unfold in H.
  apply mbind_ok in H. destruct H as ([] & s1 & Hl & Hr).
  exists s1. split; assumption.
Qed.


(** Whatever happens, the log at the end of the run is the log the loop
    left. *)
Lemma run_tests_results : forall (tests : list Probe) (s : State E),
  results (tester (snd (run_tests E now tests s))) =
  results (tester (snd (run_loop E now tests (after_banner s)))).
Proof.
  intros tests s. rewrite run_tests_unfold, mbind_unfold.
  destruct (run_loop E now tests (after_banner s)) as [[[] | e] s1];
    cbn [snd]; [ | reflexivity].
  destruct (report_trace s1) as [Ht _]. rewrite Ht. reflexivity.
Qed.


(** ** Running the constructs the probes are written with *)

Lemma interp_call : forall (R : Type) (op : LibOp R) (s : State E),
  interp E now (call op) s = lib_call E op s.
Proof.
  intros R op s. unfold call. cbn [interp].
  destruct (lib_call E op s) as [[v | e] s']; reflexivity.
Qed.

Lemma interp_self_log_result : forall test_name ok dtl err (s : State E),
  interp E now (self_log_result test_name ok dtl err) s =
  log_result E now test_name ok dtl err s.
Proof.
  intros. unfold self_log_result. cbn [interp]. unfold mbind.
  rewrite log_result_spec. reflexivity.
Qed.

Lemma interp_try_except : forall (A : Type) (p : Prog A) (h : Exn -> Prog A)
    (s : State E),
  interp E now (try_except p h) s =
  mtry E (interp E now p) (fun e => interp E now (h e)) s.
Proof.
  intros A p h s. unfold try_except. rewrite interp_pbind, mbind_unfold.
  rewrite interp_attempt. unfold mattempt, mtry.
  destruct (interp E now p s) as [[a | e] s']; reflexivity.
Qed.

Lemma lib_call_tester : forall (R : Type) (op : LibOp R) (s : State E),
  tester (snd (lib_call E op s)) = tester s.
Proof.
  intros R op s. unfold lib_call.
  destruct (lib E R op (world s)) as [r w]. reflexivity.
Qed.

(** One turn of the loop of [test_port_connectivity]: it records exactly
    one result under the port's title, unless it is interrupted. *)
Lemma port_check_logs_once : forall (title host : string) (port : Z) (s : State E),
  match interp E now
          (try_except_Exception
             (sock <- call (create_connection host port 10) ;;
              call (sock_close sock) ;;
              self_log_result title true None ErrNone)
             (fun e => self_log_result title false None (ErrExn e)))%prog s
  with
  | (Ok _, s') =>
      exists r, results (tester s') = results (tester s) ++ [r] /\ test r = title
  | (Raised e, _) => is_Exception e = false
  end.
Proof.
  intros title host port s.
  unfold try_except_Exception. rewrite interp_try_except. unfold mtry.
  rewrite interp_pbind, mbind_unfold, interp_call.
  pose proof (lib_call_tester Handle (create_connection host port 10) s) as T1.
  destruct (lib_call E (create_connection host port 10) s) as [[sock | e] s1];
    cbn [snd] in T1.
  - rewrite interp_pbind, mbind_unfold, interp_call.
    pose proof (lib_call_tester unit (sock_close sock) s1) as T2.
    destruct (lib_call E (sock_close sock) s1) as [[[] | e] s2]; cbn [snd] in T2.
    + rewrite interp_self_log_result, log_result_spec.
      eexists. cbn [tester results]. rewrite T2, T1.
      split; reflexivity.
    + destruct (is_Exception e) eqn:He.
      * rewrite interp_self_log_result, log_result_spec.
        eexists. cbn [tester results]. rewrite T2, T1.
        split; reflexivity.
      * cbn [interp]. exact He.
  - destruct (is_Exception e) eqn:He.
    + rewrite interp_self_log_result, log_result_spec.
      eexists. cbn [tester results]. rewrite T1.
      split; reflexivity.
    + cbn [interp]. exact He.
Qed.

(** [test_port_connectivity] records two results, one per port, whenever
    its turn in the loop completes. *)
Lemma test_port_connectivity_twice : forall (self : SMTPTester) (name : string)
    (s s1 : State E),
  run_probe E now (mkProbe name (test_port_connectivity self)) s = (Ok tt, s1) ->
  exists r1 r2,
    results (tester s1) = results (tester s) ++ [r1; r2] /\
    test r1 = ("MX Port " ++ str_int (mx_port self) ++ " Connectivity")%string /\
    test r2 = ("Submission Port " ++ str_int (submission_port self)
               ++ " Connectivity")%string.
Proof.
  intros self name s s1 H.
  unfold run_probe in H. rewrite mbind_unfold in H. unfold mtry in H.
  cbn [body] in H. unfold test_port_connectivity in H. cbn [for_each] in H.
  rewrite interp_pbind, mbind_unfold in H.
  pose proof (port_check_logs_once
                ("MX" ++ " Port " ++ str_int (mx_port self) ++ " Connectivity")%string
                (smtp_host self) (mx_port self) s) as C1.
  match type of H with
  | context [match ?x with (o, s') => _ end] =>
      match type of C1 with
      | match ?y with _ => _ end => change x with y in H
      end
  end.
  destruct (interp E now _ s) as [[[] | e1] sa].
  - destruct C1 as (r1 & Hr1 & Hn1).
    rewrite interp_pbind, mbind_unfold in H.
    pose proof (port_check_logs_once
                  ("Submission" ++ " Port " ++ str_int (submission_port self)
                   ++ " Connectivity")%string
                  (smtp_host self) (submission_port self) sa) as C2.
    destruct (interp E now _ sa) as [[[] | e2] sb].
    + destruct C2 as (r2 & Hr2 & Hn2).
      cbn [interp] in H. unfold mret, sleep, emit in H.
      apply pair_eq_snd in H. subst s1. cbn [tester].
      exists r1, r2. rewrite Hr2, Hr1, <- app_assoc.
      repeat split; assumption.
    + rewrite C2 in H. discriminate.
  - rewrite C1 in H. discriminate.
Qed.


(** The program's own probe list never leaves the log empty:
    [test_port_connectivity] comes first and records two results. *)
Lemma own_tests_log_nonempty : forall (s s1 : State E),
  run_loop E now (tests_of E (tester s)) (after_banner s) = (Ok tt, s1) ->
  (2 <= length (results (tester s1)))%nat.
Proof.
  intros s s1 H. unfold tests_of in H. rewrite run_loop_cons in H.
  apply mbind_ok in H. destruct H as ([] & sa & Hfirst & Hrest).
  apply test_port_connectivity_twice in Hfirst.
  destruct Hfirst as (r1 & r2 & Hres & _).
  apply run_loop_ok in Hrest. destruct Hrest as (_ & _ & _ & [rs Hrs] & _).
  rewrite Hrs, Hres, !length_app. cbn [length]. lia.
Qed.

(** The events of a whole run: console lines, one-second sleeps and file
    operations on the report path. *)
Lemma run_tests_events : forall (tests : list Probe) (s : State E),
  exists tr,
    trace (snd (run_tests E now tests s)) = trace s ++ tr /\
    forall ev, In ev tr ->
      match ev with
      | EvPrint _ => True
      | EvSleep secs => secs = 1
      | EvFs op _ => fs_op_path op = report_path
      end.
Proof.
  intros tests s. rewrite run_tests_unfold, mbind_unfold.
  assert (Hloop : forall n sa, loop_grows n (after_banner s) sa ->
            exists tr0, trace sa = trace s ++ tr0 /\ forallb loop_event tr0 = true).
  { intros n sa (_ & _ & _ & _ & [tr0 (Ht & Hl & _)]).
    eexists. split.
    - rewrite Ht. unfold after_banner, with_events. cbn [trace].
      rewrite <- app_assoc. reflexivity.
    - rewrite forallb_app, loop_events_prints, Hl. reflexivity. }
  assert (Hev : forall tr0 ev, forallb loop_event tr0 = true -> In ev tr0 ->
            match ev with
            | EvPrint _ => True
            | EvSleep secs => secs = 1
            | EvFs op _ => fs_op_path op = report_path
            end).
  { intros tr0 ev Hl Hin. rewrite forallb_forall in Hl. specialize (Hl ev Hin).
    destruct ev; cbn in Hl; [exact I | apply Z.eqb_eq; exact Hl | discriminate]. }
  destruct (run_loop E now tests (after_banner s)) as [[[] | e] s1] eqn:Hl.
  - apply run_loop_ok in Hl. destruct (Hloop _ _ Hl) as (tr0 & Ht0 & Hl0).
    destruct (report_trace s1) as (_ & tr1 & Ht1 & Hs1 & _ & Hp1).
    exists (tr0 ++ tr1). split.
    + rewrite Ht1, Ht0. symmetry. apply app_assoc.
    + intros ev Hin. apply in_app_or in Hin. destruct Hin as [Hin | Hin].
      * exact (Hev _ _ Hl0 Hin).
      * destruct ev as [line | secs | op done].
        -- exact I.
        -- assert (Hs : In (EvSleep secs) (sleeps tr1)).
           { unfold sleeps. apply filter_In. split; [exact Hin | reflexivity]. }
           rewrite Hs1 in Hs. destruct Hs.
        -- rewrite Forall_forall in Hp1. apply Hp1.
           unfold fs_paths. apply in_flat_map.
           exists (EvFs op done). split; [exact Hin | ].
           destruct op; cbn; auto.
  - apply run_loop_raised in Hl. destruct Hl as (_ & n & Hn).
    destruct (Hloop _ _ Hn) as (tr0 & Ht0 & Hl0).
    exists tr0. split; [exact Ht0 | ].
    intros ev Hin. exact (Hev _ _ Hl0 Hin).
Qed.


(** ** Every probe of the program records something *)

Lemma grows_length : forall s s' : State E,
  grows s s' -> (length (results (tester s)) <= length (results (tester s')))%nat.
Proof.
  intros s s' (_ & _ & _ & [rs Hr] & _). rewrite Hr, length_app. lia.
Qed.

Lemma interp_length : forall (A : Type) (p : Prog A) (s s' : State E) (r : Outcome A),
  interp E now p s = (r, s') ->
  (length (results (tester s)) <= length (results (tester s')))%nat.
Proof.
  intros A p s s' r H. apply grows_length.
  pose proof (interp_grows A p s) as G. rewrite H in G. exact G.
Qed.

Lemma logs_when_done_log : forall test_name ok dtl err,
  logs_when_done E now (self_log_result test_name ok dtl err).
Proof.
  intros test_name ok dtl err s s' a H.
  rewrite interp_self_log_result, log_result_spec in H.
  apply pair_eq_snd in H. subst s'. cbn [tester results].
  rewrite length_app. cbn [length]. lia.
Qed.

Lemma logs_when_done_raise : forall (A : Type) (e : Exn),
  logs_when_done E now (@Raise A e).
Proof. intros A e s s' a H. discriminate. Qed.

Lemma logs_when_done_bind_r : forall (A B : Type) (p : Prog A) (f : A -> Prog B),
  (forall a, logs_when_done E now (f a)) -> logs_when_done E now (pbind p f).
Proof.
  intros A B p f Hf s s' b H. rewrite interp_pbind in H.
  apply mbind_ok in H. destruct H as (a & s1 & Hp & Hfa).
  apply interp_length in Hp. apply Hf in Hfa. lia.
Qed.

Lemma logs_when_done_bind_l : forall (A B : Type) (p : Prog A) (f : A -> Prog B),
  logs_when_done E now p -> logs_when_done E now (pbind p f).
Proof.
  intros A B p f Hl s s' b H. rewrite interp_pbind in H.
  apply mbind_ok in H. destruct H as (a & s1 & Hp & Hfa).
  apply Hl in Hp. apply interp_length in Hfa. lia.
Qed.

Lemma logs_when_done_try_except :
  forall (A : Type) (p : Prog A) (h : Exn -> Prog A),
    logs_when_done E now p -> (forall e, logs_when_done E now (h e)) ->
    logs_when_done E now (try_except p h).
Proof.
  intros A p h Hp Hh s s' a H. rewrite interp_try_except in H. unfold mtry in H.
  destruct (interp E now p s) as [[a0 | e] s1] eqn:Hi.
  - apply pair_eq_snd in H. subst s'. exact (Hp _ _ _ Hi).
  - apply interp_length in Hi. apply Hh in H. lia.
Qed.

Lemma logs_when_done_try_except_Exception :
  forall (A : Type) (p : Prog A) (h : Exn -> Prog A),
    logs_when_done E now p -> (forall e, logs_when_done E now (h e)) ->
    logs_when_done E now (try_except_Exception p h).
Proof.
  intros A p h Hp Hh. unfold try_except_Exception.
  apply logs_when_done_try_except; [exact Hp | ].
  intros e. destruct (is_Exception e); [apply Hh | apply logs_when_done_raise].
Qed.

(** [try: q  finally: c] returns only if [q] returned. *)
Lemma logs_when_done_finally :
  forall (A B : Type) (q : Prog A) (c : Prog B),
    logs_when_done E now q ->
    logs_when_done E now (r <- attempt q ;; c ;; reraise r)%prog.
Proof.
  intros A B q c Hq s s' a H. rewrite interp_pbind in H.
  apply mbind_ok in H. destruct H as (r & s1 & Hatt & Hrest).
  rewrite interp_attempt in Hatt. unfold mattempt in Hatt.
  destruct (interp E now q s) as [r0 s0] eqn:Hi.
  assert (r0 = r /\ s0 = s1) as [-> ->] by (split; congruence).
  rewrite interp_pbind in Hrest. apply mbind_ok in Hrest.
  destruct Hrest as (b & s2 & Hc & Hre).
  apply interp_length in Hc.
  destruct r as [a0 | e]; cbn [reraise interp] in Hre; [ | discriminate].
  apply pair_eq_snd in Hre. subst s'. apply Hq in Hi. lia.
Qed.

Lemma logs_when_done_with_SMTP :
  forall (A : Type) (host : string) (port timeout : Z) (f : Handle -> Prog A),
    (forall server, logs_when_done E now (f server)) ->
    logs_when_done E now (with_SMTP host port timeout f).
Proof.
  intros A host port timeout f Hf. unfold with_SMTP.
  apply logs_when_done_bind_r. intros server.
  apply logs_when_done_finally. apply Hf.
Qed.

Ltac logs_step :=
  match goal with
  | |- forall _, _ => intro
  | |- logs_when_done _ _ (Raise _) => apply logs_when_done_raise
  | |- logs_when_done _ _ (self_log_result _ _ _ _) => apply logs_when_done_log
  | |- logs_when_done _ _ (try_except_Exception _ _) =>
      apply logs_when_done_try_except_Exception
  | |- logs_when_done _ _ (try_except _ _) => apply logs_when_done_try_except
  | |- logs_when_done _ _ (with_SMTP _ _ _ _) => apply logs_when_done_with_SMTP
  | |- logs_when_done _ _ (pbind (attempt _) (fun r => pbind _ (fun _ => reraise r))) =>
      apply logs_when_done_finally
  | |- logs_when_done _ _ (pbind _ _) => apply logs_when_done_bind_r
  | |- logs_when_done _ _ (match ?x with _ => _ end) => destruct x
  end.

(** Each probe after [test_port_connectivity] has recorded at least one
    result when it returns. *)
Lemma probes_log_when_done : forall self : SMTPTester,
  logs_when_done E now (test_smtp_banner E self) /\
  logs_when_done E now (test_ehlo_features E self) /\
  logs_when_done E now (test_submission_auth_required self) /\
  logs_when_done E now (test_mx_external_email self) /\
  logs_when_done E now (test_relay_protection self) /\
  logs_when_done E now (test_send_test_email self) /\
  logs_when_done E now (test_connection_limits self).
Proof.
  intros self.
  unfold test_smtp_banner, test_ehlo_features, test_submission_auth_required,
    test_mx_external_email, test_relay_protection, test_send_test_email,
    test_connection_limits.
  repeat split; repeat logs_step.
Qed.

(** A completed turn of such a probe has lengthened the log. *)
Lemma run_probe_logs : forall (t : Probe) (s s' : State E),
  logs_when_done E now (body t) ->
  run_probe E now t s = (Ok tt, s') ->
  (length (results (tester s)) < length (results (tester s')))%nat.
Proof.
  intros t s s' Hl H.
  destruct (interp E now (body t) s) as [[[] | e] s1] eqn:Hi.
  - rewrite (run_probe_returns t s s1 tt Hi) in H.
    apply pair_eq_snd in H. subst s'. exact (Hl _ _ _ Hi).
  - destruct (is_Exception e) eqn:He.
    + rewrite (run_probe_catches t s s1 e Hi He) in H.
      apply pair_eq_snd in H. subst s'. rewrite log_result_spec.
      apply interp_length in Hi. cbn [snd slept tester results].
      rewrite length_app. cbn [length]. lia.
    + rewrite (run_probe_aborts t s s1 e Hi He) in H. discriminate.
Qed.

(** The program's eight probes leave at least nine results. *)
Lemma own_tests_at_least_nine : forall (self : SMTPTester) (s s' : State E),
  run_loop E now (tests_of E self) s = (Ok tt, s') ->
  (length (results (tester s)) + 9 <= length (results (tester s')))%nat.
Proof.
  intros self s s' H.
  destruct (probes_log_when_done self) as (L2 & L3 & L4 & L5 & L6 & L7 & L8).
  unfold tests_of in H.
  rewrite run_loop_cons in H. apply mbind_ok in H.
  destruct H as ([] & s1 & H1 & H).
  apply test_port_connectivity_twice in H1. destruct H1 as (r1 & r2 & Hr & _).
  assert (T1 : (length (results (tester s)) + 2
                <= length (results (tester s1)))%nat).
  { rewrite Hr, length_app. cbn [length]. lia. }
  repeat match type of H with
  | run_loop E now (?t :: _) ?sa = _ =>
      rewrite run_loop_cons in H; apply mbind_ok in H;
      let sb := fresh "sb" in
      let Ht := fresh "Ht" in
      destruct H as ([] & sb & Ht & H);
      apply run_probe_logs in Ht; [ | cbn [body]; assumption]
  end.
  apply pair_eq_snd in H. subst s'. lia.
Qed.


End Facts.

(** * Runs under two clocks *)

Section TwoClocks.

Variable E : Env.
Variables now1 now2 : nat -> string.






End TwoClocks.

(** ** Probes of the program that do not read the clock *)

Section ClockFree.

Variable E : Env.














End ClockFree.





(** * The loop and the report, case by case *)

Section Cases.
Variable E : Env.
Variable now : nat -> string.

(** A loop that returns has made one turn per probe, in order. *)
Lemma run_loop_turns : forall (tests : list Probe) (s s' : State E),
  run_loop E now tests s = (Ok tt, s') ->
  exists blocks : list (list Result),
    turns E now tests s blocks s' /\
    length blocks = length tests /\
    results (tester s') = results (tester s) ++ concat blocks.
Proof.
  induction tests as [ | t rest IH]; intros s s' H.
  - apply pair_eq_snd in H. subst s'. exists []. repeat split.
    + constructor.
    + symmetry. apply app_nil_r.
  - rewrite run_loop_cons in H. apply mbind_ok in H.
    destruct H as ([] & s1 & Ht & Hrest).
    destruct (run_probe_ok_inv E now _ _ _ _ Ht) as (sa & G & Hs1).
    assert (Hblock : exists block,
               results (tester s1) = results (tester s) ++ block).
    { destruct G as (_ & _ & _ & Hr & _). rewrite Hs1. exact Hr. }
    destruct Hblock as [block Hblock].
    destruct (IH _ _ Hrest) as (blocks & Hturns & Hlen & Hres).
    exists (block :: blocks). repeat split.
    + econstructor; eassumption.
    + cbn [length]. rewrite Hlen. reflexivity.
    + cbn [concat]. rewrite Hres, Hblock. symmetry. apply app_assoc.
Qed.


(** The statements after the loop, whatever the file system answers: the
    summary divides by zero on an empty log; otherwise the path is opened,
    and if that went through the log is dumped and the path closed
    whatever the dump gave; an error of [close] is raised before one of
    [json.dump], and no error is kept back. *)
Lemma report_cases : forall s : State E,
  tester (snd (report E s)) = tester s /\
  ((results (tester s) = [] /\
    fst (report E s) = Raised division_by_zero /\
    world (snd (report E s)) = world s) \/
   (results (tester s) <> [] /\
    exists (r1 : Outcome unit) (w1 : World E),
      fs E (fs_open_w report_path) (world s) = (r1, w1) /\
      match r1 with
      | Raised e => fst (report E s) = Raised e /\ world (snd (report E s)) = w1
      | Ok _ =>
          exists (r2 r3 : Outcome unit) (w2 w3 : World E),
            fs E (fs_dump report_path (results_json (results (tester s)))) w1
              = (r2, w2) /\
            fs E (fs_close report_path) w2 = (r3, w3) /\
            world (snd (report E s)) = w3 /\
            fst (report E s)
              = match r3, r2 with
                | Raised e, _ => Raised e
                | Ok _, Raised e => Raised e
                | Ok _, Ok _ => Ok (forallb success (results (tester s)))
                end
      end)).
Proof.
  intros s. unfold report, mbind, get_results.
  rewrite print_summary_spec. cbv zeta.
  destruct (Z.of_nat (length (results (tester s))) =? 0) eqn:Hz.
  - cbn [snd fst with_events tester world]. split; [reflexivity | ].
    left. split; [apply total_zero_iff; exact Hz | split; reflexivity].
  - cbv beta iota. cbn [tester with_events fst snd].
    rewrite write_report_spec. cbn [world with_events].
    assert (Hne : results (tester s) <> []).
    { intros Hnil. apply total_zero_iff in Hnil. congruence. }
    destruct (fs E (fs_open_w report_path) (world s)) as [[[] | e1] w1] eqn:Hopen.
    + destruct (fs E (fs_dump report_path (results_json (results (tester s)))) w1)
        as [r2 w2] eqn:Hdump.
      destruct (fs E (fs_close report_path) w2) as [r3 w3] eqn:Hclose.
      destruct r3 as [[] | e3]; destruct r2 as [[] | e2];
        try rewrite print_spec; unfold mret; cbv beta iota;
        cbn [snd fst with_events tester world];
        (split; [reflexivity | ]); right; (split; [exact Hne | ]);
        exists (Ok tt), w1; (split; [reflexivity | ]);
        do 4 eexists; (split; [exact Hdump | ]); (split; [exact Hclose | ]);
        (split; [reflexivity | ]); rewrite <- ?passed_eq_total; reflexivity.
    + cbv beta iota. cbn [snd fst with_events tester world].
      split; [reflexivity | ]. right. split; [exact Hne | ].
      exists (Raised e1), w1. split; [reflexivity | split; reflexivity].
Qed.

(** The document the script dumps is the structured document of the
    specification. *)
Lemma results_json_documents : forall rs : list Result,
  results_json rs = JArray (map entry_document rs).
Proof.
  intros rs. reflexivity.
Qed.

End Cases.

(** * The journal of file operations *)

Section Audit.
Variable E : Env.
Variable now : nat -> string.

Lemma lib_call_auditing : forall (R : Type) (op : LibOp R) (s : State (auditing E)),
  lib_call (auditing E) op s =
    (fst (lib E R op (fst (world s))),
     mkState (auditing E) (tester s) (trace s) (ticks s)
       (snd (lib E R op (fst (world s))), filed s)).
Proof.
  intros R op s. unfold lib_call, filed. cbn [auditing lib].
  destruct (lib E R op (fst (world s))) as [r w]. reflexivity.
Qed.

(** A probe body does no file operation. *)
Lemma interp_filed : forall (A : Type) (p : Prog A) (s : State (auditing E)),
  filed (snd (interp (auditing E) now p s)) = filed s.
Proof.
  induction p as [a | e | R op k IH | k IH | n b d err k IH]; intros s;
    cbn [interp].
  - reflexivity.
  - reflexivity.
  - rewrite lib_call_auditing. cbn [fst snd]. rewrite IH. reflexivity.
  - rewrite mbind_unfold. unfold read_clock. rewrite IH. reflexivity.
  - rewrite mbind_unfold, log_result_spec. rewrite IH. reflexivity.
Qed.

Lemma run_probe_filed : forall (t : Probe) (s : State (auditing E)),
  filed (snd (run_probe (auditing E) now t s)) = filed s.
Proof.
  intros t s. pose proof (interp_filed unit (body t) s) as Hf.
  destruct (interp (auditing E) now (body t) s) as [[[] | e] s1] eqn:Hi;
    cbn [snd] in Hf.
  - rewrite (run_probe_returns (auditing E) now t s s1 tt Hi). exact Hf.
  - destruct (is_Exception e) eqn:He.
    + rewrite (run_probe_catches (auditing E) now t s s1 e Hi He), log_result_spec.
      exact Hf.
    + rewrite (run_probe_aborts (auditing E) now t s s1 e Hi He). exact Hf.
Qed.

(** Neither does the loop. *)
Lemma run_loop_filed : forall (tests : list Probe) (s : State (auditing E)),
  filed (snd (run_loop (auditing E) now tests s)) = filed s.
Proof.
  induction tests as [ | t rest IH]; intros s.
  - reflexivity.
  - rewrite run_loop_cons, mbind_unfold.
    pose proof (run_probe_filed t s) as Hf.
    destruct (run_probe (auditing E) now t s) as [[[] | e] s1]; cbn [snd] in Hf |- *.
    + rewrite IH. exact Hf.
    + exact Hf.
Qed.

(** What the statements after the loop ask of the file system, with what
    they return. *)
Lemma report_filed : forall s : State (auditing E),
  exists ops : list (FsOp * Outcome unit),
    filed (snd (report (auditing E) s)) = filed s ++ ops /\
    ((ops = [] /\ fst (report (auditing E) s) = Raised division_by_zero) \/
     (exists e,
        ops = [(fs_open_w report_path, Raised e)] /\
        fst (report (auditing E) s) = Raised e) \/
     (exists r2 r3,
        ops = [ (fs_open_w report_path, Ok tt);
                (fs_dump report_path (results_json (results (tester s))), r2);
                (fs_close report_path, r3) ] /\
        fst (report (auditing E) s)
          = match r3, r2 with
            | Raised e, _ => Raised e
            | Ok _, Raised e => Raised e
            | Ok _, Ok _ => Ok (forallb success (results (tester s)))
            end)).
Proof.
  intros s. destruct (report_cases (auditing E) s) as (_ & Hcases).
  destruct Hcases as [(_ & Hfst & Hw) | (_ & r1 & w1 & Hopen & Hrest)].
  - exists []. unfold filed. rewrite Hw, app_nil_r.
    split; [reflexivity | left; split; [reflexivity | exact Hfst]].
  - cbn [auditing fs] in Hopen.
    destruct (fs E (fs_open_w report_path) (fst (world s))) as [r1' w1'].
    assert (r1' = r1 /\ w1 = (w1', snd (world s) ++ [(fs_open_w report_path, r1')]))
      as [-> ->] by (split; congruence).
    destruct r1 as [[] | e].
    + destruct Hrest as (r2 & r3 & w2 & w3 & Hdump & Hclose & Hw & Hfst).
      cbn [auditing fs fst snd] in Hdump.
      destruct (fs E (fs_dump report_path (results_json (results (tester s)))) w1')
        as [r2' w2'].
      assert (r2' = r2 /\
              w2 = (w2', (snd (world s) ++ [(fs_open_w report_path, Ok tt)])
                         ++ [(fs_dump report_path
                                (results_json (results (tester s))), r2')]))
        as [-> ->] by (split; congruence).
      cbn [auditing fs fst snd] in Hclose.
      destruct (fs E (fs_close report_path) w2') as [r3' w3'].
      assert (r3' = r3 /\
              w3 = (w3', ((snd (world s) ++ [(fs_open_w report_path, Ok tt)])
                          ++ [(fs_dump report_path
                                 (results_json (results (tester s))), r2)])
                         ++ [(fs_close report_path, r3')]))
        as [-> ->] by (split; congruence).
      eexists. unfold filed. rewrite Hw. cbn [snd].
      rewrite <- !app_assoc. cbn [app]. split; [reflexivity | ].
      right. right. exists r2, r3. split; [reflexivity | exact Hfst].
    + destruct Hrest as (Hfst & Hw).
      eexists. unfold filed. rewrite Hw. cbn [snd]. split; [reflexivity | ].
      right. left. exists e. split; [reflexivity | exact Hfst].
Qed.


(** The journal does not change a run: under it the plain environment
    gives the same results, console and return value. *)
Lemma log_result_unaudited : forall test_name ok dtl err (s : State (auditing E)),
  log_result E now test_name ok dtl err (unaudited s) =
    (fst (log_result (auditing E) now test_name ok dtl err s),
     unaudited (snd (log_result (auditing E) now test_name ok dtl err s))).
Proof. intros. rewrite !log_result_spec. reflexivity. Qed.

Lemma interp_unaudited : forall (A : Type) (p : Prog A) (s : State (auditing E)),
  interp E now p (unaudited s) =
    (fst (interp (auditing E) now p s), unaudited (snd (interp (auditing E) now p s))).
Proof.
  induction p as [a | e | R op k IH | k IH | n b d err k IH]; intros s;
    cbn [interp].
  - reflexivity.
  - reflexivity.
  - rewrite lib_call_auditing. unfold lib_call. cbn [unaudited world].
    destruct (lib E R op (fst (world s))) as [r w]. cbn [fst snd].
    apply (IH r (mkState (auditing E) (tester s) (trace s) (ticks s) (w, filed s))).
  - rewrite !mbind_unfold. unfold read_clock. cbn [unaudited ticks].
    apply (IH _ (mkState (auditing E) (tester s) (trace s) (S (ticks s))
                   (world s))).
  - rewrite !mbind_unfold, log_result_unaudited.
    destruct (log_result (auditing E) now n b d err s) as [[[] | e] s1] eqn:Hl;
      cbn [fst snd].
    + apply IH.
    + rewrite log_result_spec in Hl. discriminate.
Qed.

Lemma run_probe_unaudited : forall (t : Probe) (s : State (auditing E)),
  run_probe E now t (unaudited s) =
    (fst (run_probe (auditing E) now t s),
     unaudited (snd (run_probe (auditing E) now t s))).
Proof.
  intros t s. unfold run_probe. rewrite !mbind_unfold. unfold mtry.
  rewrite interp_unaudited.
  destruct (interp (auditing E) now (body t) s) as [[[] | e] s1]; cbn [fst snd].
  - reflexivity.
  - destruct (is_Exception e).
    + rewrite log_result_unaudited. rewrite !log_result_spec. reflexivity.
    + reflexivity.
Qed.

Lemma run_loop_unaudited : forall (tests : list Probe) (s : State (auditing E)),
  run_loop E now tests (unaudited s) =
    (fst (run_loop (auditing E) now tests s),
     unaudited (snd (run_loop (auditing E) now tests s))).
Proof.
  induction tests as [ | t rest IH]; intros s.
  - reflexivity.
  - rewrite !run_loop_cons, !mbind_unfold, run_probe_unaudited.
    destruct (run_probe (auditing E) now t s) as [[[] | e] s1]; cbn [fst snd].
    + apply IH.
    + reflexivity.
Qed.

End Audit.
(** * The claims *)

(** ** C10: the [error] field of a recorded result *)

(** C10.  The entry [log_result] records has [error] equal to the string
    form of the [error] argument when that argument is truthy and [None]
    otherwise: [None] stays [None], a string is recorded unless it is
    empty (then [None]), and an exception is recorded as its string form
    even when that form is the empty string. *)
Theorem log_result_error_field :
  forall (E : Env) (now : nat -> string) (test_name : string) (ok : bool)
         (dtl : option string) (err : PyErr) (s : State E),
    fst (log_result E now test_name ok dtl err s) = Ok tt /\
    exists r : Result,
      results (tester (snd (log_result E now test_name ok dtl err s)))
        = results (tester s) ++ [r] /\
      test r = test_name /\
      success r = ok /\
      details r = dtl /\
      error r = (if truthy err then Some (py_str err) else None) /\
      match err with
      | ErrNone => error r = None
      | ErrStr EmptyString => error r = None
      | ErrStr msg => error r = Some msg
      | ErrExn e => error r = Some (exn_str e)
      end.
Proof.
  intros E now test_name ok dtl err s. rewrite log_result_spec.
  split; [reflexivity | ].
  exists (logged now test_name ok dtl err s).
  cbn [snd tester results]. unfold logged. cbn [test success details error].
  repeat split.
  destruct err as [ | [ | c msg] | e]; reflexivity.
Qed.

Example log_result_empty_exception :
  map error (results (tester (snd
    (log_result env_up clock0 "SMTP Banner" false None
       (ErrExn (mkExn OtherException "")) (start env_up tt)))))
  = [Some ""%string].
Proof. reflexivity. Qed.

Example log_result_empty_string :
  map error (results (tester (snd
    (log_result env_up clock0 "SMTP Banner" false None (ErrStr "")
       (start env_up tt)))))
  = [None].
Proof. reflexivity. Qed.

(** ** C5: the counts of the summary *)

(** C5.  In every run that finishes, with [passed] the number of recorded
    results that succeeded, [failed] the number that did not and [total]
    the length of the log, [passed + failed = total], and these are the
    numbers the summary printed. *)
Theorem passed_failed_total :
  forall (E : Env) (now : nat -> string) (tests : list Probe)
         (s s' : State E) (b : bool),
    run_tests E now tests s = (Ok b, s') ->
    let rs := results (tester s') in
    let passed := count_passed rs in
    let failed := count_failed rs in
    let total := Z.of_nat (length rs) in
    passed + failed = total /\
    In (EvPrint ("✅ Passed: " ++ str_int passed ++ "/" ++ str_int total)%string)
       (trace s') /\
    In (EvPrint ("❌ Failed: " ++ str_int failed ++ "/" ++ str_int total)%string)
       (trace s').
Proof.
  intros E now tests s s' b H rs passed failed total.
  assert (Hsum : passed + failed = total) by apply passed_plus_failed.
  split; [exact Hsum | ].
  apply run_tests_ok in H. destruct H as (s1 & _ & Hr).
  apply report_ok in Hr. destruct Hr as (_ & _ & Ht & Htr).
  assert (Hrs : results (tester s1) = rs) by (unfold rs; rewrite Ht; reflexivity).
  rewrite Hrs in Htr. rewrite Htr.
  replace failed with (total - passed) by lia.
  split; apply in_or_app; right; apply in_or_app; left;
    apply in_map; apply in_or_app; left;
    unfold summary_lines; fold passed; fold total;
    cbn [In]; auto.
Qed.

Lemma passed_failed_total_witness :
  let r := run_all_tests env_up clock0 (start env_up tt) in
  r = (Ok false, snd r) /\
  count_passed (results (tester (snd r))) = 7 /\
  count_failed (results (tester (snd r))) = 2 /\
  In (EvPrint "❌ Failed: 2/9") (trace (snd r)).
Proof.
  intros r.
  assert (H : run_tests env_up clock0 (tests_of env_up (tester (start env_up tt)))
                (start env_up tt) = (Ok false, snd r))
    by (vm_compute; reflexivity).
  split; [exact H | ].
  split; [vm_compute; reflexivity | ].
  split; [vm_compute; reflexivity | ].
  exact (proj2 (proj2 (passed_failed_total _ _ _ _ _ _ H))).
Defined.

(** ** C3: the overall result and the exit status *)




Example exit_code_when_a_probe_fails : fst (main env_up clock0 tt) = 1.
Proof. vm_compute. reflexivity. Qed.

Example exit_code_when_report_cannot_be_written :
  fst (main env_readonly clock0 tt) = 1.
Proof. vm_compute. reflexivity. Qed.

(** ** C1: an error raised by a probe *)

(** The scenario of the specification. *)
Example scenario_timeout :
  fst (run_tests env_up clock0 (scenario "timeout") (start env_up tt)) = Ok false /\
  map outline (results (tester (snd
    (run_tests env_up clock0 (scenario "timeout") (start env_up tt)))))
  = [ ("test_a"%string, true, None);
      ("test_b"%string, false, Some "timeout"%string);
      ("test_c"%string, true, None) ] /\
  In (EvPrint "✅ Passed: 2/3")
     (trace (snd (run_tests env_up clock0 (scenario "timeout") (start env_up tt)))) /\
  In (EvPrint "❌ Failed: 1/3")
     (trace (snd (run_tests env_up clock0 (scenario "timeout") (start env_up tt)))) /\
  In (EvPrint "📊 Success Rate: 66.7%")
     (trace (snd (run_tests env_up clock0 (scenario "timeout") (start env_up tt)))).
Proof. vm_compute. intuition. Qed.

(** Against C1 as stated: a probe that raises an exception whose string
    form is empty (one built without arguments) is recorded with [error]
    equal to the empty string, not with a non-empty description. *)
Lemma raised_error_recorded_empty :
  interp env_up clock0 (body (probe_raising "test_b" "")) (start env_up tt)
    = (Raised (mkExn OtherException ""), start env_up tt) /\
  map outline (results (tester (snd
    (run_tests env_up clock0 (scenario "") (start env_up tt)))))
  = [ ("test_a"%string, true, None);
      ("test_b"%string, false, Some ""%string);
      ("test_c"%string, true, None) ].
Proof. split; reflexivity. Qed.

(** C1, amended.  When a probe raises an error (an instance of
    [Exception]) that it does not handle itself, the runner catches it,
    appends a failed result carrying the probe's name and the error's
    string form (which may be empty), sleeps, and goes on with exactly the
    remaining probes, in order, followed by the summary and the report; no
    such error ever leaves the loop. *)
Theorem runner_catches_probe_error :
  forall (E : Env) (now : nat -> string) (pre post : list Probe) (t : Probe)
         (s0 s1 s2 : State E) (e : Exn),
    run_loop E now pre (after_banner s0) = (Ok tt, s1) ->
    interp E now (body t) s1 = (Raised e, s2) ->
    is_Exception e = true ->
    exists s3,
      run_probe E now t s1 = (Ok tt, slept s3) /\
      results (tester s3) =
        results (tester s2)
        ++ [ {| test := __name__ t; success := false;
                timestamp := now (ticks s2); details := None;
                error := Some (exn_str e) |} ] /\
      run_tests E now (pre ++ t :: post) s0 =
        mbind E (run_loop E now post) (fun _ => report E) (slept s3) /\
      (forall e' s', run_loop E now (pre ++ t :: post) (after_banner s0)
                       = (Raised e', s') ->
                     is_Exception e' = false).
Proof.
  intros E now pre post t s0 s1 s2 e Hpre Hbody He.
  exists (snd (log_result E now (__name__ t) false None (ErrExn e) s2)).
  pose proof (run_probe_catches E now t s1 s2 e Hbody He) as Hturn.
  split; [exact Hturn | ].
  split.
  - rewrite log_result_spec. reflexivity.
  - split.
    + rewrite run_tests_unfold, mbind_unfold, run_loop_app, mbind_unfold, Hpre.
      rewrite run_loop_cons, mbind_unfold, Hturn.
      symmetry. apply mbind_unfold.
    + intros e' s' Hr. apply (run_loop_raised E now _ _ _ _ Hr).
Qed.

Lemma runner_catches_probe_error_witness :
  run_loop env_up clock0 [probe_ok "test_a"] (after_banner (start env_up tt))
    = (Ok tt, snd (run_loop env_up clock0 [probe_ok "test_a"]
                     (after_banner (start env_up tt)))) /\
  is_Exception (mkExn OtherException "timeout") = true /\
  exists s3,
    map outline (results (tester s3))
      = [("test_a"%string, true, None); ("test_b"%string, false, Some "timeout"%string)] /\
    run_tests env_up clock0 (scenario "timeout") (start env_up tt)
      = mbind env_up (run_loop env_up clock0 [probe_ok "test_c"])
          (fun _ => report env_up) (slept s3).
Proof.
  assert (Hpre : run_loop env_up clock0 [probe_ok "test_a"]
                   (after_banner (start env_up tt))
                 = (Ok tt, snd (run_loop env_up clock0 [probe_ok "test_a"]
                                  (after_banner (start env_up tt)))))
    by reflexivity.
  assert (Hbody : interp env_up clock0 (body (probe_raising "test_b" "timeout"))
                    (snd (run_loop env_up clock0 [probe_ok "test_a"]
                            (after_banner (start env_up tt))))
                  = (Raised (mkExn OtherException "timeout"),
                     snd (run_loop env_up clock0 [probe_ok "test_a"]
                            (after_banner (start env_up tt)))))
    by reflexivity.
  assert (He : is_Exception (mkExn OtherException "timeout") = true)
    by reflexivity.
  split; [exact Hpre | ]. split; [exact He | ].
  destruct (runner_catches_probe_error env_up clock0
              [probe_ok "test_a"] [probe_ok "test_c"]
              (probe_raising "test_b" "timeout") _ _ _ _ Hpre Hbody He)
    as (s3 & _ & Hres & Hrun & _).
  exists s3. split.
  - rewrite Hres. reflexivity.
  - exact Hrun.
Defined.

(** An interrupt is not an [Exception]: it ends the loop. *)
Example interrupt_ends_the_run :
  fst (run_tests env_up clock0
         [probe_ok "test_a"; probe_interrupted "test_b"; probe_ok "test_c"]
         (start env_up tt))
    = Raised (mkExn KeyboardInterrupt "") /\
  map outline (results (tester (snd
    (run_tests env_up clock0
       [probe_ok "test_a"; probe_interrupted "test_b"; probe_ok "test_c"]
       (start env_up tt)))))
  = [("test_a"%string, true, None)].
Proof. split; reflexivity. Qed.

(** ** C2: how many results a probe produces *)

(** Against C2 as stated: the program's eight probes, all returning
    normally, leave nine results in the log, because
    [test_port_connectivity] records one result per port. *)
Lemma eight_probes_nine_results :
  length (tests_of env_up (tester (start env_up tt))) = 8%nat /\
  fst (run_all_tests env_up clock0 (start env_up tt)) = Ok false /\
  length (results (tester (snd (run_all_tests env_up clock0 (start env_up tt)))))
    = 9%nat /\
  length (results (tester (snd
    (run_probe env_up clock0
       (mkProbe "test_port_connectivity"
          (test_port_connectivity (tester (start env_up tt))))
       (start env_up tt))))) = 2%nat.
Proof. vm_compute. intuition. Qed.

(** C2, amended.  Every invocation of a probe appends one block of results
    to the log: those the probe logged itself, then the runner's record if
    the probe raised an error.  For every probe list of length N the log of
    a completed loop is the initial log followed by the N blocks in
    invocation order, nothing being removed or reordered.  A block need not
    hold exactly one result: that of [test_port_connectivity] always holds
    two, one per port, and each other probe of the program records at
    least one, so the program's eight probes leave at least nine results. *)
Theorem results_are_blocks_in_order :
  forall (E : Env) (now : nat -> string),
    (forall (tests : list Probe) (s s' : State E),
        run_loop E now tests s = (Ok tt, s') ->
        exists blocks : list (list Result),
          turns E now tests s blocks s' /\
          length blocks = length tests /\
          results (tester s') = results (tester s) ++ concat blocks) /\
    (forall (self : SMTPTester) (name : string) (s s1 : State E),
        run_probe E now (mkProbe name (test_port_connectivity self)) s = (Ok tt, s1) ->
        exists r1 r2,
          results (tester s1) = results (tester s) ++ [r1; r2] /\
          test r1 = ("MX Port " ++ str_int (mx_port self) ++ " Connectivity")%string /\
          test r2 = ("Submission Port " ++ str_int (submission_port self)
                     ++ " Connectivity")%string) /\
    (forall (self : SMTPTester) (s s' : State E),
        run_loop E now (tests_of E self) s = (Ok tt, s') ->
        (length (results (tester s)) + 9 <= length (results (tester s')))%nat).
Proof.
  intros E now. split; [ | split].
  - induction tests as [ | t rest IH]; intros s s' H.
    + apply pair_eq_snd in H. subst s'. exists []. repeat split.
      * constructor.
      * symmetry. apply app_nil_r.
    + rewrite run_loop_cons in H. apply mbind_ok in H.
      destruct H as ([] & s1 & Ht & Hrest).
      destruct (run_probe_ok_inv E now _ _ _ _ Ht) as (sa & G & Hs1).
      assert (Hblock : exists block,
                 results (tester s1) = results (tester s) ++ block).
      { destruct G as (_ & _ & _ & Hr & _). rewrite Hs1. exact Hr. }
      destruct Hblock as [block Hblock].
      destruct (IH _ _ Hrest) as (blocks & Hturns & Hlen & Hres).
      exists (block :: blocks). repeat split.
      * econstructor; eassumption.
      * cbn [length]. rewrite Hlen. reflexivity.
      * cbn [concat]. rewrite Hres, Hblock. symmetry. apply app_assoc.
  - apply test_port_connectivity_twice.
  - apply own_tests_at_least_nine.
Qed.

(** One invocation, two results: the banner probe logs its success inside
    the [with] block, then the failure of the block's exit. *)
Example banner_probe_can_log_twice :
  map outline (results (tester (snd
    (run_probe env_bad_quit clock0
       (mkProbe "test_smtp_banner"
          (test_smtp_banner env_bad_quit (tester (start env_bad_quit tt))))
       (start env_bad_quit tt)))))
  = [ ("SMTP Banner"%string, true, None);
      ("SMTP Banner"%string, false, Some "(500, b'Error')"%string) ].
Proof. reflexivity. Qed.

Lemma results_are_blocks_in_order_witness :
  run_loop env_up clock0 (tests_of env_up (tester (start env_up tt)))
    (start env_up tt)
  = (Ok tt, snd (run_loop env_up clock0 (tests_of env_up (tester (start env_up tt)))
                   (start env_up tt))) /\
  exists blocks : list (list Result),
    length blocks = 8%nat /\
    results (tester (snd (run_loop env_up clock0
                            (tests_of env_up (tester (start env_up tt)))
                            (start env_up tt))))
    = concat blocks.
Proof.
  assert (H : run_loop env_up clock0 (tests_of env_up (tester (start env_up tt)))
                (start env_up tt)
              = (Ok tt, snd (run_loop env_up clock0
                               (tests_of env_up (tester (start env_up tt)))
                               (start env_up tt))))
    by (vm_compute; reflexivity).
  split; [exact H | ].
  destruct (proj1 (results_are_blocks_in_order env_up clock0) _ _ _ H)
    as (blocks & _ & Hlen & Hres).
  exists blocks. split; [exact Hlen | exact Hres].
Defined.

(** ** C4: the success rate of an empty log *)

(** Against C4 as stated: with no probe at all the log is empty, the
    summary divides by [total = 0], and the run ends with
    [ZeroDivisionError] before any report is written. *)
Lemma empty_log_divides_by_zero :
  fst (run_tests env_up clock0 [] (start env_up tt)) = Raised division_by_zero /\
  results (tester (snd (run_tests env_up clock0 [] (start env_up tt)))) = [] /\
  In (EvPrint "✅ Passed: 0/0")
     (trace (snd (run_tests env_up clock0 [] (start env_up tt)))) /\
  dumps (trace (snd (run_tests env_up clock0 [] (start env_up tt)))) = [].
Proof. vm_compute. intuition. Qed.

(** C4, amended.  For a result log that is not empty ([total > 0]) the
    success-rate calculation is well defined and the summary does not
    divide by zero; the program's own probe list is fixed and never leaves
    the log empty (its first probe alone records two results), so its
    summary is always computed. *)
Theorem success_rate_defined_on_nonempty_log :
  forall (E : Env) (now : nat -> string),
    (forall s : State E,
        results (tester s) <> [] ->
        Z.of_nat (length (results (tester s))) <> 0 /\
        exists s',
          print_summary E s =
            (Ok (count_passed (results (tester s)),
                 Z.of_nat (length (results (tester s)))), s') /\
          In (EvPrint (rate_line E (results (tester s)))) (trace s')) /\
    (forall s s1 : State E,
        run_loop E now (tests_of E (tester s)) (after_banner s) = (Ok tt, s1) ->
        results (tester s1) <> [] /\
        exists counts s2, print_summary E s1 = (Ok counts, s2)).
Proof.
  intros E now.
  assert (Hdef : forall s : State E,
             results (tester s) <> [] ->
             Z.of_nat (length (results (tester s))) <> 0 /\
             exists s',
               print_summary E s =
                 (Ok (count_passed (results (tester s)),
                      Z.of_nat (length (results (tester s)))), s') /\
               In (EvPrint (rate_line E (results (tester s)))) (trace s')).
  { intros s Hne.
    assert (Hz : (Z.of_nat (length (results (tester s))) =? 0) = false).
    { destruct (Z.of_nat (length (results (tester s))) =? 0) eqn:Hz;
        [ | reflexivity].
      apply total_zero_iff in Hz. contradiction. }
    split; [apply Z.eqb_neq; exact Hz | ].
    rewrite print_summary_spec. cbv zeta. rewrite Hz.
    eexists. split; [reflexivity | ].
    unfold with_events. cbn [trace].
    apply in_or_app. right. apply in_map. apply in_or_app. right.
    cbn [In]. auto. }
  split; [exact Hdef | ].
  intros s s1 H. apply own_tests_log_nonempty in H.
  assert (Hne : results (tester s1) <> []).
  { intros Hnil. rewrite Hnil in H. cbn [length] in H. lia. }
  split; [exact Hne | ].
  destruct (Hdef s1 Hne) as (_ & s2 & Hs2 & _).
  eexists. exists s2. exact Hs2.
Qed.

Lemma success_rate_defined_on_nonempty_log_witness :
  results (tester (snd (run_loop env_up clock0 (scenario "timeout")
                          (start env_up tt)))) <> [] /\
  exists s',
    print_summary env_up
      (snd (run_loop env_up clock0 (scenario "timeout") (start env_up tt)))
    = (Ok (2, 3), s') /\
    In (EvPrint "📊 Success Rate: 66.7%") (trace s').
Proof.
  assert (Hne : results (tester (snd (run_loop env_up clock0 (scenario "timeout")
                                        (start env_up tt)))) <> [])
    by (vm_compute; discriminate).
  split; [exact Hne | ].
  destruct (proj1 (success_rate_defined_on_nonempty_log env_up clock0) _ Hne)
    as (_ & s' & Hs' & Hin).
  exists s'. split; [exact Hs' | exact Hin].
Defined.

(** ** C6: the report file *)

(** Against C6 as stated: a run in which every probe has completed and
    nine results are in the log, and the report is not written at all,
    because the path cannot be opened. *)
Lemma report_not_written_when_open_is_refused :
  let s := audited (start env_readonly tt) in
  let s' := snd (run_all_tests (auditing env_readonly) clock0 s) in
  (exists s1, run_loop (auditing env_readonly) clock0
                (tests_of (auditing env_readonly) (tester s)) (after_banner s)
              = (Ok tt, s1)) /\
  length (results (tester s')) = 9%nat /\
  filed s' = [ (fs_open_w "/tmp/smtp-test-results.json",
                Raised (mkExn OSError "[Errno 13] Permission denied")) ].
Proof.
  cbv zeta. split; [eexists; vm_compute; reflexivity | ].
  split; vm_compute; reflexivity.
Qed.

(** C6, amended.  In a run that returns, the file system is asked to write
    the report exactly once, after the loop has made its turn for every
    probe and not before: the operations it receives are the opening of
    the report path, one dump and the closing, and the document dumped is
    the array of every result of the log in order, each an object with the
    fields test, success, timestamp, details and error.  In a run that
    does not return the report is written at most once, and not at all if
    the loop was left early or the path could not be opened. *)
Theorem report_written_once_after_all_probes :
  forall (E : Env) (now : nat -> string) (tests : list Probe)
         (s : State (auditing E)),
    (forall (s' : State (auditing E)) (b : bool),
        run_tests (auditing E) now tests s = (Ok b, s') ->
        exists (s1 : State (auditing E)) (blocks : list (list Result)),
          turns (auditing E) now tests (after_banner s) blocks s1 /\
          length blocks = length tests /\
          filed s1 = filed s /\
          results (tester s') = results (tester s) ++ concat blocks /\
          filed s' = filed s ++ report_written (results (tester s'))) /\
    (exists ops : list (FsOp * Outcome unit),
        filed (snd (run_tests (auditing E) now tests s)) = filed s ++ ops /\
        (ops = [] \/
         exists s1 : State (auditing E),
           run_loop (auditing E) now tests (after_banner s) = (Ok tt, s1) /\
           filed s1 = filed s /\
           ((exists e, ops = [(fs_open_w "/tmp/smtp-test-results.json", Raised e)]) \/
            (exists r2 r3,
               ops = [ (fs_open_w "/tmp/smtp-test-results.json", Ok tt);
                       (fs_dump "/tmp/smtp-test-results.json"
                          (JArray (map entry_document (results (tester s1)))), r2);
                       (fs_close "/tmp/smtp-test-results.json", r3) ])))).
Proof.
  intros E now tests s.
  assert (Hloop : forall s1 r, run_loop (auditing E) now tests (after_banner s) = (r, s1) ->
                               filed s1 = filed s).
  { intros s1 r H. pose proof (run_loop_filed E now tests (after_banner s)) as Hf.
    rewrite H in Hf. exact Hf. }
  split.
  - intros s' b H. apply run_tests_ok in H. destruct H as (s1 & Hl & Hrep).
    destruct (run_loop_turns (auditing E) now _ _ _ Hl) as (blocks & Hturns & Hlen & Hres).
    destruct (report_filed E s1) as (ops & Hops & Hcase).
    destruct (report_cases (auditing E) s1) as (Ht & _).
    rewrite Hrep in Hops, Hcase, Ht. cbn [fst snd] in Hops, Hcase, Ht.
    exists s1, blocks. split; [exact Hturns | ]. split; [exact Hlen | ].
    split; [exact (Hloop _ _ Hl) | ].
    split; [rewrite Ht; exact Hres | ].
    rewrite Hops, (Hloop _ _ Hl), Ht.
    destruct Hcase as [(_ & Hfst) | [(e & _ & Hfst) | (r2 & r3 & -> & Hfst)]];
      try discriminate.
    destruct r3 as [[] | e3]; [ | discriminate].
    destruct r2 as [[] | e2]; [ | discriminate].
    reflexivity.
  - clear Hloop. rewrite run_tests_unfold, mbind_unfold.
    pose proof (run_loop_filed E now tests (after_banner s)) as Hf.
    change (filed (after_banner s)) with (filed s) in Hf.
    destruct (run_loop (auditing E) now tests (after_banner s)) as [[[] | e] s1];
      cbn [snd] in Hf.
    + destruct (report_filed E s1) as (ops & Hops & Hcase).
      exists ops. rewrite Hops, Hf. split; [reflexivity | ].
      destruct Hcase as [(-> & _) | [(e & -> & _) | (r2 & r3 & -> & _)]].
      * left. reflexivity.
      * right. exists s1. split; [reflexivity | ]. split; [exact Hf | ].
        left. exists e. reflexivity.
      * right. exists s1. split; [reflexivity | ]. split; [exact Hf | ].
        right. exists r2, r3. reflexivity.
    + exists []. cbn [snd]. rewrite Hf, app_nil_r.
      split; [reflexivity | left; reflexivity].
Qed.

(** The scenario of the specification with a writable file system: the
    three probes have had their turn, then the file system received the
    three operations of the report, with the three entries of the log. *)
Lemma report_written_once_after_all_probes_witness :
  let s := audited (start env_up tt) in
  let r := run_tests (auditing env_up) clock0 (scenario "timeout") s in
  r = (Ok false, snd r) /\
  map outline (results (tester (snd r)))
    = [ ("test_a"%string, true, None);
        ("test_b"%string, false, Some "timeout"%string);
        ("test_c"%string, true, None) ] /\
  filed (snd r) = report_written (results (tester (snd r))).
Proof.
  intros s r.
  assert (H : run_tests (auditing env_up) clock0 (scenario "timeout") s
              = (Ok false, snd r))
    by (vm_compute; reflexivity).
  split; [exact H | ]. split; [vm_compute; reflexivity | ].
  destruct (proj1 (report_written_once_after_all_probes env_up clock0
                     (scenario "timeout") s) _ _ H)
    as (s1 & blocks & _ & _ & _ & _ & Hfiled).
  exact Hfiled.
Defined.

(** In any run, finished or not, the report is written at most once. *)
Lemma report_written_at_most_once :
  forall (E : Env) (now : nat -> string) (tests : list Probe) (s : State E),
    (length (dumps (trace (snd (run_tests E now tests s))))
     <= length (dumps (trace s)) + 1)%nat.
Proof.
  intros E now tests s. rewrite run_tests_unfold, mbind_unfold.
  assert (Hb : dumps (trace (after_banner s)) = dumps (trace s)).
  { unfold after_banner, with_events. cbn [trace].
    rewrite dumps_app, dumps_prints. apply app_nil_r. }
  destruct (run_loop E now tests (after_banner s)) as [[[] | e] s1] eqn:Hl.
  - apply run_loop_ok in Hl.
    destruct Hl as (_ & _ & _ & _ & [tr0 (Ht0 & Hl0 & _)]).
    destruct (report_trace E s1) as (_ & tr1 & Ht1 & _ & Hd1 & _).
    rewrite Ht1, Ht0, !dumps_app, (loop_events_no_dump _ Hl0), Hb, !length_app.
    cbn [length]. lia.
  - apply run_loop_raised in Hl.
    destruct Hl as (_ & n & (_ & _ & _ & _ & [tr0 (Ht0 & Hl0 & _)])).
    cbn [snd]. rewrite Ht0, dumps_app, (loop_events_no_dump _ Hl0), Hb, length_app.
    cbn [length]. lia.
Qed.

(** ** C7: fatal errors *)




(** The same with a report path that cannot be opened. *)
Example open_error_reaches_the_caller :
  run_all_tests env_readonly clock0 (start env_readonly tt)
    = (Raised (mkExn OSError "[Errno 13] Permission denied"),
       snd (run_all_tests env_readonly clock0 (start env_readonly tt))) /\
  length (results (tester (snd (run_all_tests env_readonly clock0
                                  (start env_readonly tt))))) = 9%nat.
Proof. split; vm_compute; reflexivity. Qed.

(** ** C8: what can be configured *)

(** Against C8 as stated: the delay and the report path are literals of
    [run_all_tests].  Whatever the tester's configuration, its environment
    and its clock, no run sleeps for anything but one second or touches a
    file other than the fixed report path. *)
Lemma delay_and_report_path_are_fixed :
  ~ (exists (E : Env) (now : nat -> string) (self : SMTPTester) (w : World E)
            (ev : Event),
        In ev (trace (snd (run_all_tests E now (initial E self w)))) /\
        ((exists secs, ev = EvSleep secs /\ secs <> 1) \/
         (exists op done, ev = EvFs op done /\ fs_op_path op <> report_path))).
Proof.
  intros (E & now & self & w & ev & Hin & Hbad).
  unfold run_all_tests in Hin.
  destruct (run_tests_events E now (tests_of E (tester (initial E self w)))
              (initial E self w)) as (tr & Htr & Hall).
  rewrite Htr in Hin. cbn [initial trace app] in Hin.
  specialize (Hall ev Hin).
  destruct Hbad as [(secs & -> & Hne) | (op & done & -> & Hne)];
    contradiction.
Qed.

(** The host and the two ports do change what the probes connect to. *)
Example host_and_ports_are_used :
  map outline (results (tester (snd
    (run_probe env_custom clock0
       (mkProbe "test_port_connectivity"
          (test_port_connectivity (__init__ (Some "mail.test"%string)
                                            (Some 2525) (Some 465))))
       (start env_custom tt)))))
  = [ ("MX Port 2525 Connectivity"%string, true, None);
      ("Submission Port 465 Connectivity"%string, true, None) ] /\
  map outline (results (tester (snd
    (run_probe env_custom clock0
       (mkProbe "test_port_connectivity"
          (test_port_connectivity (__init__ None None None)))
       (start env_custom tt)))))
  = [ ("MX Port 25 Connectivity"%string, false,
       Some "[Errno 111] Connection refused"%string);
      ("Submission Port 587 Connectivity"%string, false,
       Some "[Errno 111] Connection refused"%string) ].
Proof. split; reflexivity. Qed.

(** C8, amended.  The program's configuration options are the target host
    and the two port numbers, arguments of the constructor with defaults
    app, 25 and 587, and the first probe connects to that host on the MX
    port.  The inter-probe delay and the report path are not options: the
    runner sleeps a fixed one second after each probe, so N times in a
    completed loop over N probes, and every file operation of a run is on
    the fixed path /tmp/smtp-test-results.json. *)
Theorem configuration_options :
  forall (E : Env) (now : nat -> string),
    __init__ None None None = mkTester "app" 25 587 [] /\
    (forall host mx sub, __init__ (Some host) (Some mx) (Some sub)
                         = mkTester host mx sub []) /\
    (forall self : SMTPTester,
        exists k, test_port_connectivity self
                  = Lib (create_connection (smtp_host self) (mx_port self) 10) k) /\
    (forall (t : Probe) (s s1 : State E),
        run_probe E now t s = (Ok tt, s1) ->
        exists tr, trace s1 = tr ++ [EvSleep 1]) /\
    (forall (tests : list Probe) (s s1 : State E),
        run_loop E now tests s = (Ok tt, s1) ->
        sleeps (trace s1) = sleeps (trace s) ++ repeat (EvSleep 1) (length tests)) /\
    (forall (self : SMTPTester) (w : World E) (ev : Event),
        In ev (trace (snd (run_all_tests E now (initial E self w)))) ->
        match ev with
        | EvPrint _ => True
        | EvSleep secs => secs = 1
        | EvFs op _ => fs_op_path op = report_path
        end).
Proof.
  intros E now.
  split; [reflexivity | ].
  split; [reflexivity | ].
  split; [intros self; eexists; reflexivity | ].
  split; [ | split].
  - intros t s s1 H. apply run_probe_ok_inv in H.
    destruct H as (sa & _ & ->). exists (trace sa). reflexivity.
  - intros tests s s1 H. apply run_loop_ok in H.
    destruct H as (_ & _ & _ & _ & [tr (Ht & _ & Hs)]).
    rewrite Ht, sleeps_app, Hs. reflexivity.
  - intros self w ev Hin. unfold run_all_tests in Hin.
    destruct (run_tests_events E now (tests_of E (tester (initial E self w)))
                (initial E self w)) as (tr & Htr & Hall).
    rewrite Htr in Hin. cbn [initial trace app] in Hin.
    exact (Hall ev Hin).
Qed.

Lemma configuration_options_witness :
  run_loop env_up clock0 (scenario "timeout") (start env_up tt)
    = (Ok tt, snd (run_loop env_up clock0 (scenario "timeout") (start env_up tt))) /\
  sleeps (trace (snd (run_loop env_up clock0 (scenario "timeout") (start env_up tt))))
    = [EvSleep 1; EvSleep 1; EvSleep 1].
Proof.
  assert (H : run_loop env_up clock0 (scenario "timeout") (start env_up tt)
              = (Ok tt, snd (run_loop env_up clock0 (scenario "timeout")
                               (start env_up tt))))
    by (vm_compute; reflexivity).
  split; [exact H | ].
  exact (proj1 (proj2 (proj2 (proj2 (proj2
           (configuration_options env_up clock0))))) _ _ _ H).
Defined.

(** ** C9: two runs of deterministic probes *)



(** The whole program under two clocks, against a server that does not
    look at the message it is sent. *)
Example two_runs_of_the_program :
  map success (results (tester (snd
    (run_all_tests env_good clock0 (start env_good tt)))))
  = map success (results (tester (snd
      (run_all_tests env_good clock1 (start env_good tt))))) /\
  results (tester (snd (run_all_tests env_good clock0 (start env_good tt))))
  <> results (tester (snd (run_all_tests env_good clock1 (start env_good tt)))).
Proof. split; [vm_compute; reflexivity | vm_compute; discriminate]. Qed.

(** * Beyond the runner: strings, the journal of library calls, the probes *)

(** ** Substrings and lines *)

Lemma prefix_iff : forall p s : string,
  prefix p s = true <-> exists post, s = (p ++ post)%string.
Proof.
  induction p as [ | c p IH]; intros s.
  - split; [intros _; exists s; reflexivity | intros _; destruct s; reflexivity].
  - destruct s as [ | d s]; cbn [prefix append].
    + split; [discriminate | intros [post Hp]; discriminate].
    + destruct (ascii_dec c d) as [-> | Hne].
      * rewrite IH. split; intros [post Hp]; exists post; congruence.
      * split; [discriminate | intros [post Hp]; congruence].
Qed.

(** [needle in s]: [contains] finds exactly the substrings. *)
Lemma contains_iff : forall needle s : string,
  contains needle s = true <->
  exists pre post, s = (pre ++ needle ++ post)%string.
Proof.
  intros needle. induction s as [ | c s IH]; cbn [contains].
  - destruct (prefix needle "") eqn:Hp.
    + split; [intros _ | reflexivity].
      apply prefix_iff in Hp. destruct Hp as [post Hp].
      exists "", post. exact Hp.
    + split; [discriminate | ].
      intros (pre & post & Hs). destruct pre; cbn [append] in Hs; [ | discriminate].
      assert (prefix needle "" = true) by (apply prefix_iff; exists post; exact Hs).
      congruence.
  - destruct (prefix needle (String c s)) eqn:Hp.
    + split; [intros _ | reflexivity].
      apply prefix_iff in Hp. destruct Hp as [post Hp].
      exists "", post. exact Hp.
    + rewrite IH. split.
      * intros (pre & post & Hs). exists (String c pre), post.
        cbn [append]. rewrite Hs. reflexivity.
      * intros (pre & post & Hs). destruct pre as [ | d pre]; cbn [append] in Hs.
        -- assert (prefix needle (String c s) = true)
             by (apply prefix_iff; exists post; exact Hs).
           congruence.
        -- exists pre, post. congruence.
Qed.

Lemma str_app_nil_r : forall s : string, (s ++ "")%string = s.
Proof.
  induction s as [ | c s IH]; cbn [append]; [reflexivity | rewrite IH; reflexivity].
Qed.

Lemma str_app_assoc : forall a b c : string,
  ((a ++ b) ++ c)%string = (a ++ b ++ c)%string.
Proof.
  induction a as [ | x a IH]; intros b c; cbn [append];
    [reflexivity | rewrite IH; reflexivity].
Qed.

Lemma lower_app : forall a b : string,
  lower (a ++ b)%string = (lower a ++ lower b)%string.
Proof.
  induction a as [ | c a IH]; intros b; cbn [append lower];
    [reflexivity | rewrite IH; reflexivity].
Qed.

(** [needle in s.lower()] does not see the case of [s]. *)
Lemma contains_any_case : forall pre word post s : string,
  s = (pre ++ word ++ post)%string ->
  contains (lower word) (lower s) = true.
Proof.
  intros pre word post s ->. apply contains_iff.
  exists (lower pre), (lower post). rewrite !lower_app. reflexivity.
Qed.

(** [str.split] with a separator always gives at least one piece. *)
Lemma split_lines_aux_cons : forall s cur : string,
  exists x xs, split_lines_aux cur s = x :: xs.
Proof.
  induction s as [ | c s IH]; intros cur; cbn [split_lines_aux]; [eauto | ].
  destruct (Ascii.eqb c "010"%char); eauto.
Qed.

Lemma split_lines_aux_concat : forall s cur : string,
  String.concat nl (split_lines_aux cur s) = (cur ++ s)%string.
Proof.
  induction s as [ | c s IH]; intros cur; cbn [split_lines_aux].
  - cbn [String.concat]. symmetry. apply str_app_nil_r.
  - destruct (Ascii.eqb_spec c "010"%char) as [-> | Hne].
    + specialize (IH ""%string). cbn [append] in IH.
      destruct (split_lines_aux_cons s "") as (x & xs & Hx). rewrite Hx in *.
      change (String.concat nl (cur :: x :: xs))
        with (cur ++ nl ++ String.concat nl (x :: xs))%string.
      rewrite IH. reflexivity.
    + rewrite IH, str_app_assoc. reflexivity.
Qed.

(** No piece of a split holds a line feed. *)
Lemma split_lines_aux_no_nl : forall s cur : string,
  contains nl cur = false ->
  Forall (fun piece => contains nl piece = false) (split_lines_aux cur s).
Proof.
  assert (Hsnoc : forall (cur : string) (c : ascii),
            contains nl cur = false -> Ascii.eqb c "010"%char = false ->
            contains nl (cur ++ String c "") = false).
  { induction cur as [ | d cur IH]; intros c Hcur Hc.
    - cbn [append contains prefix nl]. unfold nl.
      destruct (ascii_dec "010"%char c) as [<- | _]; [discriminate Hc | reflexivity].
    - cbn [append]. cbn [contains] in Hcur |- *.
      unfold nl in Hcur |- *. cbn [prefix] in Hcur |- *.
      destruct (ascii_dec "010"%char d) as [<- | _].
      + destruct cur; discriminate Hcur.
      + apply IH; assumption. }
  induction s as [ | c s IH]; intros cur Hcur; cbn [split_lines_aux].
  - constructor; [exact Hcur | constructor].
  - destruct (Ascii.eqb c "010"%char) eqn:Hc.
    + constructor; [exact Hcur | apply IH; reflexivity].
    + apply IH, Hsnoc; assumption.
Qed.

(** ** The journal does not change a run *)

Section Recording.
Variable E : Env.
Variable now : nat -> string.

Lemma lib_call_recording : forall (R : Type) (op : LibOp R) (s : State (recording E)),
  lib_call (recording E) op s =
    (fst (lib E R op (fst (world s))),
     mkState (recording E) (tester s) (trace s) (ticks s)
       (snd (lib E R op (fst (world s))),
        calls s ++ [record op (fst (lib E R op (fst (world s))))])).
Proof.
  intros R op s. unfold lib_call, calls. cbn [recording lib].
  destruct (lib E R op (fst (world s))) as [r w]. reflexivity.
Qed.

Lemma log_result_forget : forall test_name ok dtl err (s : State (recording E)),
  log_result E now test_name ok dtl err (forget s) =
    (fst (log_result (recording E) now test_name ok dtl err s),
     forget (snd (log_result (recording E) now test_name ok dtl err s))).
Proof. intros. rewrite !log_result_spec. reflexivity. Qed.

Lemma interp_forget : forall (A : Type) (p : Prog A) (s : State (recording E)),
  interp E now p (forget s) =
    (fst (interp (recording E) now p s), forget (snd (interp (recording E) now p s))).
Proof.
  induction p as [a | e | R op k IH | k IH | n b d err k IH]; intros s;
    cbn [interp].
  - reflexivity.
  - reflexivity.
  - rewrite lib_call_recording. unfold lib_call. cbn [forget world].
    destruct (lib E R op (fst (world s))) as [r w]. cbn [fst snd].
    apply (IH r (mkState (recording E) (tester s) (trace s) (ticks s)
                   (w, calls s ++ [record op r]))).
  - rewrite !mbind_unfold. unfold read_clock. cbn [forget ticks].
    apply (IH _ (mkState (recording E) (tester s) (trace s) (S (ticks s))
                   (world s))).
  - rewrite !mbind_unfold, log_result_forget.
    destruct (log_result (recording E) now n b d err s) as [[[] | e] s1] eqn:Hl;
      cbn [fst snd].
    + apply IH.
    + rewrite log_result_spec in Hl. discriminate.
Qed.

Lemma forget_journal : forall s : State E, forget (journal s) = s.
Proof. intros [t tr n w]. reflexivity. Qed.

End Recording.

(** ** Running a probe step by step *)

Ltac exec_step :=
  first
    [ rewrite interp_pbind, mbind_unfold
    | rewrite interp_try_except; unfold mtry
    | rewrite interp_attempt; unfold mattempt
    | rewrite interp_call, lib_call_recording
    | rewrite interp_self_log_result, log_result_spec
    | progress cbn [interp reraise lift mret mraise fst snd world tester trace
                    ticks calls results decode_utf8 repr_list recording
                    datetime_now read_clock]
    | progress cbv beta iota
    | rewrite mbind_unfold; unfold read_clock
    | match goal with
      | |- context [lib ?E0 ?R ?op ?w] =>
          let r := fresh "r" in
          let w' := fresh "w" in
          let H := fresh "Hlib" in
          destruct (lib E0 R op w) as [[r | r] w'] eqn:H
      | |- context [is_SMTPRecipientsRefused ?e] =>
          let H := fresh "Href" in destruct (is_SMTPRecipientsRefused e) eqn:H
      | |- context [is_Exception ?e] =>
          let H := fresh "Hexc" in destruct (is_Exception e) eqn:H
      | |- context [contains ?a ?b] =>
          let H := fresh "Hin" in destruct (contains a b) eqn:H
      | |- context [str_truthy (snd ?p)] =>
          let code := fresh "code" in
          let reply := fresh "reply" in
          destruct p as [code [ | ? reply]]; cbn [snd str_truthy]
      | |- context [decode_utf8 ?E0 ?x] =>
          let H := fresh "Hdec" in
          destruct (decode_utf8 E0 x) as [? | ?] eqn:H
      end ].

(** At the end of a path: name what the log and the journal gained. *)
Ltac leaf :=
  rewrite <- ?app_assoc; cbn [app record];
  do 2 eexists;
  split; [first [reflexivity | symmetry; apply app_nil_r] | ];
  split; [first [reflexivity | symmetry; apply app_nil_r] | ].

Ltac in_cases :=
  repeat match goal with
  | H : In _ [] |- _ => destruct H
  | H : In _ (_ :: _) |- _ => destruct H as [H | H]
  | H : False |- _ => destruct H
  end.

Ltac pick := cbn [In]; solve [repeat first [left; reflexivity | right]].

Ltac facts :=
  in_cases; subst;
  repeat match goal with u : unit |- _ => destruct u end;
  cbn [success logged error details test timestamp truthy str_truthy py_str
       ticks] in *;
  try discriminate.

(** The call named in a hypothesis is one call of the journal. *)
Ltac same_call :=
  in_cases; try discriminate;
  repeat match goal with
  | H : ?c (Raised ?a) = ?c' (Raised ?b) |- _ =>
      assert (a = b) by congruence; clear H; subst
  end;
  try congruence.

(** The entry of the log that a goal asks for. *)
Ltac find_result :=
  cbn [In];
  first
    [ eexists; split; [left; reflexivity | split; reflexivity]
    | eexists; split; [right; left; reflexivity | split; reflexivity]
    | eexists; split; [right; right; left; reflexivity | split; reflexivity] ].

Ltac find_pass :=
  cbn [In];
  first
    [ eexists; split; [left; reflexivity | reflexivity]
    | eexists; split; [right; left; reflexivity | reflexivity]
    | eexists; split; [right; right; left; reflexivity | reflexivity] ].

Ltac targets :=
  cbn [flat_map connects_to app];
  repeat (apply Forall_cons; [unfold allowed_targets; pick | ]);
  apply Forall_nil.

(** The error of a failed entry is the text of an exception of the path. *)
Ltac blame :=
  eexists; split; [reflexivity | ]; split; [assumption | ];
  first [ left; cbn [flat_map raised app]; pick
        | right; eexists; eassumption ].

Ltac blame_call :=
  eexists; split; [reflexivity | ]; split; [assumption | ];
  cbn [flat_map raised app]; pick.

Ltac returned H :=
  cbn [is_ok] in H; try discriminate H.

(** ** What every probe does to the log and to its connections *)

Section Effects.
Variable E : Env.
Variable now : nat -> string.

Ltac known_titles :=
  cbn [test logged];
  repeat (apply Forall_cons; [unfold titles; pick | ]);
  apply Forall_nil.

Ltac effects_by_exec :=
  repeat exec_step;
  leaf;
  (split; [cbn [length]; lia | ]);
  (split; [known_titles | ]);
  (split; [reflexivity | ]);
  (split; [left; reflexivity | targets]).

Lemma port_connectivity_effects : forall self : SMTPTester,
  effects E now self 2 (test_port_connectivity self).
Proof.
  intros self s. unfold test_port_connectivity, try_except_Exception.
  cbn [for_each]. effects_by_exec.
Qed.

Lemma smtp_banner_effects : forall self : SMTPTester,
  effects E now self 2 (test_smtp_banner E self).
Proof.
  intros self s. unfold test_smtp_banner, with_SMTP, try_except_Exception.
  effects_by_exec.
Qed.

Lemma ehlo_features_effects : forall self : SMTPTester,
  effects E now self 2 (test_ehlo_features E self).
Proof.
  intros self s. unfold test_ehlo_features, with_SMTP, try_except_Exception.
  effects_by_exec.
Qed.

Lemma submission_auth_effects : forall self : SMTPTester,
  effects E now self 2 (test_submission_auth_required self).
Proof.
  intros self s.
  unfold test_submission_auth_required, with_SMTP, try_except_Exception.
  effects_by_exec.
Qed.

Lemma mx_external_email_effects : forall self : SMTPTester,
  effects E now self 2 (test_mx_external_email self).
Proof.
  intros self s. unfold test_mx_external_email, with_SMTP, try_except_Exception.
  effects_by_exec.
Qed.

Lemma relay_protection_effects : forall self : SMTPTester,
  effects E now self 2 (test_relay_protection self).
Proof.
  intros self s. unfold test_relay_protection, with_SMTP, try_except_Exception.
  effects_by_exec.
Qed.

Lemma send_test_email_effects : forall self : SMTPTester,
  effects E now self 2 (test_send_test_email self).
Proof.
  intros self s. unfold test_send_test_email, with_SMTP, try_except_Exception.
  effects_by_exec.
Qed.

End Effects.

(** ** The connection-limits probe, loop by loop *)

Section Limits.
Variable E : Env.
Variable now : nat -> string.

(** The [for i in range(n)] loop: its journal holds one constructor call
    per handle it opened, and one more if a call raised. *)
Lemma open_connections_spec :
  forall (self : SMTPTester) (n : nat) (conns : list Handle)
         (s : State (recording E)),
    let '(r, s') := interp (recording E) now (open_connections self n conns) s in
    exists opened err new_calls,
      r = Ok (conns ++ opened, err) /\
      tester s' = tester s /\
      calls s' = calls s ++ new_calls /\
      flat_map smtp_opened new_calls = opened /\
      flat_map smtp_quit new_calls = [] /\
      flat_map socket_opened new_calls = [] /\
      flat_map socket_closed new_calls = [] /\
      Forall (fun t => t = (smtp_host self, mx_port self, 5))
             (flat_map connects_to new_calls) /\
      (length new_calls <= n)%nat /\
      match err with
      | None => length opened = n
      | Some e =>
          (length opened < n)%nat /\
          In (C_SMTP (smtp_host self) (mx_port self) 5 (Raised e)) new_calls
      end.
Proof.
  intros self. induction n as [ | n IH]; intros conns s; cbn [open_connections].
  - cbn [interp mret]. exists [], None, []. rewrite !app_nil_r.
    repeat split; constructor.
  - rewrite interp_pbind, mbind_unfold, interp_attempt. unfold mattempt.
    rewrite interp_call, lib_call_recording.
    destruct (lib E Handle (SMTP (smtp_host self) (mx_port self) 5) (fst (world s)))
      as [[conn | e] w]; cbn [fst snd].
    + specialize (IH (conns ++ [conn])
                     (mkState (recording E) (tester s) (trace s) (ticks s)
                        (w, calls s ++ [record (SMTP (smtp_host self) (mx_port self) 5)
                                          (Ok conn)]))).
      destruct (interp (recording E) now (open_connections self n (conns ++ [conn])) _)
        as [r s'].
      destruct IH
        as (opened & err & new_calls & Hr & Ht & Hc & Ho & Hq & Hso & Hsc & Hf & Hl & He).
      exists (conn :: opened), err,
        (C_SMTP (smtp_host self) (mx_port self) 5 (Ok conn) :: new_calls).
      cbn [tester calls world snd record] in *.
      repeat split.
      * rewrite Hr, <- app_assoc. reflexivity.
      * exact Ht.
      * rewrite Hc, <- app_assoc. reflexivity.
      * cbn [flat_map smtp_opened app]. rewrite Ho. reflexivity.
      * exact Hq.
      * exact Hso.
      * exact Hsc.
      * cbn [flat_map connects_to app]. constructor; [reflexivity | exact Hf].
      * cbn [length]. lia.
      * destruct err as [e | ]; cbn [length].
        -- destruct He as [Hlt Hin]. split; [lia | right; exact Hin].
        -- lia.
    + cbn [interp mret].
      exists [], (Some e), [C_SMTP (smtp_host self) (mx_port self) 5 (Raised e)].
      rewrite app_nil_r. cbn [tester calls world snd record flat_map smtp_opened
                              smtp_quit socket_opened socket_closed connects_to
                              app length].
      repeat split; try lia.
      * constructor; [reflexivity | constructor].
      * left. reflexivity.
Qed.

(** The [finally] block: one [quit] per connection, in order, whatever the
    calls answer, and nothing is raised. *)
Lemma quit_all_spec : forall (conns : list Handle) (s : State (recording E)),
  let '(r, s') :=
    interp (recording E) now
      (for_each conns
         (fun conn => try_except (call (SMTP_quit conn)) (fun _ => Ret tt))) s in
  exists new_calls,
    r = Ok tt /\
    tester s' = tester s /\
    calls s' = calls s ++ new_calls /\
    flat_map smtp_quit new_calls = conns /\
    flat_map smtp_opened new_calls = [] /\
    flat_map socket_opened new_calls = [] /\
    flat_map socket_closed new_calls = [] /\
    flat_map connects_to new_calls = [].
Proof.
  induction conns as [ | conn conns IH]; intros s; cbn [for_each].
  - cbn [interp mret]. exists []. rewrite app_nil_r. repeat split.
  - rewrite interp_pbind, mbind_unfold, interp_try_except. unfold mtry.
    rewrite interp_call, lib_call_recording.
    destruct (lib E unit (SMTP_quit conn) (fst (world s))) as [[[] | e] w];
      cbn [fst snd interp mret].
    all: match goal with
         | |- context [interp _ _ _ ?s1] =>
             specialize (IH s1);
             destruct (interp (recording E) now
                         (for_each conns
                            (fun conn => try_except (call (SMTP_quit conn))
                                           (fun _ => Ret tt))) s1) as [r s'];
             destruct IH as (new_calls & Hr & Ht & Hc & Hq & Ho & Hso & Hsc & Hf)
         end.
    all: eexists (_ :: new_calls); cbn [tester calls world snd record] in *.
    all: repeat split;
      [ exact Hr | exact Ht | rewrite Hc, <- app_assoc; reflexivity
      | cbn [flat_map smtp_quit app]; rewrite Hq; reflexivity
      | exact Ho | exact Hso | exact Hsc | exact Hf ].
Qed.

Lemma connects_at_most_calls : forall cs : list Call,
  (length (flat_map connects_to cs) <= length cs)%nat.
Proof.
  induction cs as [ | c cs IH]; cbn [flat_map length]; [lia | ].
  rewrite length_app. destruct c; cbn [connects_to length]; lia.
Qed.

Lemma connection_limits_spec : forall (self : SMTPTester) (s : State (recording E)),
  let '(r, s') := interp (recording E) now (test_connection_limits self) s in
  exists new_results new_calls,
    results (tester s') = results (tester s) ++ new_results /\
    calls s' = calls s ++ new_calls /\
    (length new_results = if is_ok r then 1%nat else 0%nat) /\
    Forall (fun x => test x = "Connection Limits"%string) new_results /\
    (forall x, In x new_results -> success x = true ->
       length (flat_map smtp_opened new_calls) = 5%nat /\
       details x = Some "Created 5 concurrent connections"%string) /\
    (forall x, In x new_results -> success x = false ->
       (length (flat_map smtp_opened new_calls) < 5)%nat /\
       exists e, error x = Some (exn_str e) /\ is_Exception e = true /\
                 In (C_SMTP (smtp_host self) (mx_port self) 5 (Raised e)) new_calls) /\
    flat_map smtp_opened new_calls = flat_map smtp_quit new_calls /\
    flat_map socket_opened new_calls = flat_map socket_closed new_calls /\
    (length (flat_map connects_to new_calls) <= 5)%nat /\
    Forall (fun t => t = (smtp_host self, mx_port self, 5))
           (flat_map connects_to new_calls).
Proof.
  intros self s. unfold test_connection_limits.
  rewrite interp_pbind, mbind_unfold.
  pose proof (open_connections_spec self 5 [] s) as Hopen.
  destruct (interp (recording E) now (open_connections self 5 []) s) as [r1 s1].
  destruct Hopen
    as (opened & err & calls1 & -> & Ht1 & Hc1 & Ho1 & Hq1 & Hso1 & Hsc1 & Hf1 & Hl1 & He1).
  cbn [app fst snd].
  rewrite interp_pbind, mbind_unfold, interp_attempt. unfold mattempt.
  assert (Hmid : exists (r2 : Outcome unit) (s2 : State (recording E)) new_results,
            interp (recording E) now
              (try_except_Exception
                 match err with
                 | Some e => Raise e
                 | None =>
                     self_log_result "Connection Limits" true
                       (Some ("Created " ++ str_int (Z.of_nat (length opened))
                              ++ " concurrent connections")%string) ErrNone
                 end
                 (fun e => self_log_result "Connection Limits" false None (ErrExn e)))
              s1 = (r2, s2) /\
            results (tester s2) = results (tester s1) ++ new_results /\
            calls s2 = calls s1 /\
            (length new_results = if is_ok r2 then 1%nat else 0%nat) /\
            Forall (fun x => test x = "Connection Limits"%string) new_results /\
            (forall x, In x new_results -> success x = true ->
               err = None /\
               details x = Some ("Created " ++ str_int (Z.of_nat (length opened))
                                 ++ " concurrent connections")%string) /\
            (forall x, In x new_results -> success x = false ->
               exists e, err = Some e /\ is_Exception e = true /\
                         error x = Some (exn_str e))).
  { unfold try_except_Exception. rewrite interp_try_except. unfold mtry.
    destruct err as [e | ].
    - cbn [interp mraise]. destruct (is_Exception e) eqn:Hexc.
      + rewrite interp_self_log_result, log_result_spec.
        do 3 eexists. split; [reflexivity | ]. cbn [tester results calls world].
        split; [reflexivity | ]. split; [reflexivity | ]. split; [reflexivity | ].
        split; [repeat constructor | ].
        split; intros x Hx Hs; facts.
        exists e. repeat split. exact Hexc.
      + cbn [interp mraise]. exists (Raised e), s1, [].
        rewrite app_nil_r.
        split; [reflexivity | ]. split; [reflexivity | ].
        split; [reflexivity | ]. split; [reflexivity | ].
        split; [constructor | ].
        split; intros x Hx; destruct Hx.
    - rewrite interp_self_log_result, log_result_spec.
      do 3 eexists. split; [reflexivity | ]. cbn [tester results calls world].
      split; [reflexivity | ]. split; [reflexivity | ]. split; [reflexivity | ].
      split; [repeat constructor | ].
      split; intros x Hx Hs; facts. split; reflexivity. }
  destruct Hmid
    as (r2 & s2 & new_results & Hrun & Hres & Hcalls & Hlen & Htitle & Hpass & Hfail).
  rewrite Hrun. cbv beta iota.
  rewrite interp_pbind, mbind_unfold.
  pose proof (quit_all_spec opened s2) as Hquit.
  destruct (interp (recording E) now
              (for_each opened
                 (fun conn => try_except (call (SMTP_quit conn)) (fun _ => Ret tt)))
              s2) as [r3 s3].
  destruct Hquit as (calls3 & -> & Ht3 & Hc3 & Hq3 & Ho3 & Hso3 & Hsc3 & Hf3).
  assert (Hshape :
    results (tester s3) = results (tester s) ++ new_results /\
    calls s3 = calls s ++ (calls1 ++ calls3)).
  { split.
    - rewrite Ht3, Hres, Ht1. reflexivity.
    - rewrite Hc3, Hcalls, Hc1, <- app_assoc. reflexivity. }
  destruct Hshape as [Hresults Hcallsall].
  assert (Hrest :
    (forall x, In x new_results -> success x = true ->
       length (flat_map smtp_opened (calls1 ++ calls3)) = 5%nat /\
       details x = Some "Created 5 concurrent connections"%string) /\
    (forall x, In x new_results -> success x = false ->
       (length (flat_map smtp_opened (calls1 ++ calls3)) < 5)%nat /\
       exists e, error x = Some (exn_str e) /\ is_Exception e = true /\
                 In (C_SMTP (smtp_host self) (mx_port self) 5 (Raised e))
                    (calls1 ++ calls3)) /\
    flat_map smtp_opened (calls1 ++ calls3) = flat_map smtp_quit (calls1 ++ calls3) /\
    flat_map socket_opened (calls1 ++ calls3)
      = flat_map socket_closed (calls1 ++ calls3) /\
    (length (flat_map connects_to (calls1 ++ calls3)) <= 5)%nat /\
    Forall (fun t => t = (smtp_host self, mx_port self, 5))
           (flat_map connects_to (calls1 ++ calls3))).
  { rewrite !flat_map_app, Ho1, Ho3, Hq1, Hq3, Hso1, Hso3, Hsc1, Hsc3, Hf3,
      !app_nil_r. cbn [app].
    split; [ | split; [ | split; [reflexivity | split; [reflexivity | split]]]].
    - intros x Hx Hs. destruct (Hpass x Hx Hs) as [-> Hd].
      split; [exact He1 | ]. rewrite Hd, He1. reflexivity.
    - intros x Hx Hs. destruct (Hfail x Hx Hs) as (e & -> & Hexc & Herr).
      destruct He1 as [Hlt Hin].
      split; [exact Hlt | ]. exists e.
      split; [exact Herr | split; [exact Hexc | apply in_or_app; left; exact Hin]].
    - pose proof (connects_at_most_calls calls1). lia.
    - exact Hf1. }
  destruct r2 as [[] | e2]; cbn [reraise interp mret mraise is_ok] in *;
    exists new_results, (calls1 ++ calls3);
    (split; [exact Hresults
            | split; [exact Hcallsall
                     | split; [exact Hlen | split; [exact Htitle | exact Hrest]]]]).
Qed.

Lemma connection_limits_effects : forall self : SMTPTester,
  effects E now self 1 (test_connection_limits self).
Proof.
  intros self s. pose proof (connection_limits_spec self s) as H.
  destruct (interp (recording E) now (test_connection_limits self) s) as [r s'].
  destruct H
    as (new_results & new_calls & Hr & Hc & Hlen & Ht & _ & _ & Hq & Hs & _ & Hf).
  exists new_results, new_calls.
  split; [exact Hr | ]. split; [exact Hc | ].
  split; [destruct (is_ok r); lia | ].
  split; [eapply Forall_impl; [ | exact Ht]; intros x ->; unfold titles; pick | ].
  split; [exact Hs | ]. split; [right; exact Hq | ].
  eapply Forall_impl; [ | exact Hf]. intros t ->.
  unfold allowed_targets. cbn [In]. auto.
Qed.

(** The most entries each probe of [run_all_tests] logs, in the order of
    the list. *)
Lemma probe_effects : forall self : SMTPTester,
  Forall2 (fun t bound => effects E now self bound (body t))
    (tests_of E self) [2; 2; 2; 2; 2; 2; 2; 1]%nat.
Proof.
  intros self. unfold tests_of.
  repeat (apply Forall2_cons; [cbn [body] | ]); [ | | | | | | | | apply Forall2_nil].
  - apply port_connectivity_effects.
  - apply smtp_banner_effects.
  - apply ehlo_features_effects.
  - apply submission_auth_effects.
  - apply mx_external_email_effects.
  - apply relay_protection_effects.
  - apply send_test_email_effects.
  - apply connection_limits_effects.
Qed.

End Limits.

(** * The probes, one by one *)

(** X1 ([test_port_connectivity]).  The probe tries the MX port, then the
    submission port, whatever the first attempt gave.  A passed entry
    carries the title of its port, and the journal shows the connection to
    that port on the configured host, established with a timeout of 10 and
    closed without error.  A failed entry carries the text of the exception
    that [create_connection] or [close] raised.  A probe that returns has
    logged exactly one entry per port, MX first. *)
Theorem port_probe_checks_both_ports :
  forall (E : Env) (now : nat -> string) (self : SMTPTester)
         (s : State (recording E)),
  let '(r, s') := interp (recording E) now (test_port_connectivity self) s in
  exists new_results new_calls,
    results (tester s') = results (tester s) ++ new_results /\
    calls s' = calls s ++ new_calls /\
    (forall x, In x new_results -> success x = true ->
       exists name port sock,
         In (name, port) [("MX"%string, mx_port self);
                          ("Submission"%string, submission_port self)] /\
         test x = (name ++ " Port " ++ str_int port ++ " Connectivity")%string /\
         In (C_create_connection (smtp_host self) port 10 (Ok sock)) new_calls /\
         In (C_sock_close sock (Ok tt)) new_calls) /\
    (forall x, In x new_results -> success x = false ->
       exists e, error x = Some (exn_str e) /\ is_Exception e = true /\
                 In e (flat_map raised new_calls)) /\
    (is_ok r = true ->
       map test new_results
         = [ ("MX Port " ++ str_int (mx_port self) ++ " Connectivity")%string;
             ("Submission Port " ++ str_int (submission_port self)
              ++ " Connectivity")%string ] /\
       exists r1 r2,
         In (C_create_connection (smtp_host self) (mx_port self) 10 r1) new_calls /\
         In (C_create_connection (smtp_host self) (submission_port self) 10 r2)
            new_calls).
Proof.
  intros E now self s. unfold test_port_connectivity, try_except_Exception.
  cbn [for_each].
  repeat exec_step.
  all: leaf.
  all: split; [intros x Hx Hs; facts | ].
  all: try (first
    [ exists "MX"%string, (mx_port self); eexists;
      solve [split; [pick | split; [reflexivity | split; pick]]]
    | exists "Submission"%string, (submission_port self); eexists;
      solve [split; [pick | split; [reflexivity | split; pick]]] ]).
  all: split; [intros x Hx Hs; facts; try blame_call | ].
  all: intros Hok; returned Hok.
  all: split; [reflexivity | do 2 eexists; split; pick].
Qed.

(** X2 ([test_smtp_banner]).  A passed entry reports the reply to EHLO: its
    details are "Response: " followed by the decoded reply, or by
    "No banner" when the reply is empty.  A failed entry carries the text of
    an exception raised by a library call or by the decoding.  An exception
    raised when the [with] block closes the connection is logged as a
    failure too, also after the pass has been logged. *)
Theorem banner_probe_reports_the_reply :
  forall (E : Env) (now : nat -> string) (self : SMTPTester)
         (s : State (recording E)),
  let '(r, s') := interp (recording E) now (test_smtp_banner E self) s in
  exists new_results new_calls,
    results (tester s') = results (tester s) ++ new_results /\
    calls s' = calls s ++ new_calls /\
    (forall x, In x new_results -> success x = true ->
       exists server code reply b,
         In (C_SMTP (smtp_host self) (mx_port self) 10 (Ok server)) new_calls /\
         In (C_ehlo server (Ok (code, reply))) new_calls /\
         test x = "SMTP Banner"%string /\
         details x = Some ("Response: " ++ b)%string /\
         ((reply = ""%string /\ b = "No banner"%string) \/
          (reply <> ""%string /\ decode_utf8 E reply = Ok b))) /\
    (forall x, In x new_results -> success x = false ->
       exists e, error x = Some (exn_str e) /\ is_Exception e = true /\
                 (In e (flat_map raised new_calls) \/
                  exists reply, decode_utf8 E reply = Raised e)) /\
    (forall server e, In (C_exit server (Raised e)) new_calls ->
       is_Exception e = true ->
       exists x, In x new_results /\ success x = false /\
                 error x = Some (exn_str e)).
Proof.
  intros E now self s. unfold test_smtp_banner, with_SMTP, try_except_Exception.
  repeat exec_step.
  all: leaf.
  all: split; [intros x Hx Hs; facts | ].
  all: try (do 4 eexists; split; [pick | ]; split; [pick | ];
            split; [reflexivity | ]; split; [reflexivity | ];
            first [left; split; reflexivity
                  | right; split; [discriminate | eassumption]]).
  all: split; [intros x Hx Hs; facts; try blame | ].
  all: intros server err Hc Herr; same_call.
  all: find_result.
Qed.

(** X3 ([test_ehlo_features]).  A passed entry lists the lines of the reply
    to EHLO: its details are "Features: " followed by the list obtained by
    splitting the decoded reply at line feeds (the empty list for an empty
    reply).  The split loses nothing: joining the pieces with line feeds
    gives the decoded reply back, and no piece holds a line feed. *)
Theorem ehlo_probe_lists_the_reply_lines :
  forall (E : Env) (now : nat -> string) (self : SMTPTester)
         (s : State (recording E)),
  let '(r, s') := interp (recording E) now (test_ehlo_features E self) s in
  exists new_results new_calls,
    results (tester s') = results (tester s) ++ new_results /\
    calls s' = calls s ++ new_calls /\
    (forall x, In x new_results -> success x = true ->
       exists server code reply features,
         In (C_SMTP (smtp_host self) (mx_port self) 10 (Ok server)) new_calls /\
         In (C_ehlo server (Ok (code, reply))) new_calls /\
         test x = "EHLO Features"%string /\
         details x = Some ("Features: " ++ repr_list E features)%string /\
         ((reply = ""%string /\ features = []) \/
          (reply <> ""%string /\
           exists decoded,
             decode_utf8 E reply = Ok decoded /\
             features = split_lines decoded /\
             String.concat nl features = decoded /\
             Forall (fun piece => contains nl piece = false) features))) /\
    (forall x, In x new_results -> success x = false ->
       exists e, error x = Some (exn_str e) /\ is_Exception e = true /\
                 (In e (flat_map raised new_calls) \/
                  exists reply, decode_utf8 E reply = Raised e)).
Proof.
  intros E now self s. unfold test_ehlo_features, with_SMTP, try_except_Exception.
  repeat exec_step.
  all: leaf.
  all: split; [intros x Hx Hs; facts | ].
  all: try (do 4 eexists; split; [pick | ]; split; [pick | ];
            split; [reflexivity | ]; split; [reflexivity | ];
            first [left; split; reflexivity
                  | right; split; [discriminate | ];
                    eexists; split; [eassumption | ];
                    split; [reflexivity | ];
                    split; [apply split_lines_aux_concat
                           | apply split_lines_aux_no_nl; reflexivity]]).
  all: intros x Hx Hs; facts; try blame.
Qed.

(** X4 ([test_submission_auth_required]).  The probe passes only when
    [server.mail('test@example.com')] on the submission port was refused:
    the call raised [SMTPRecipientsRefused], or an [Exception] whose text,
    with its ASCII letters lowered, has "authentication" as a substring.
    The test does not see the case of the text.  When the server accepts
    the sender, a failure is logged with the fixed message; when the call
    raises another [Exception], a failure is logged with its text. *)
Theorem submission_probe_passes_only_on_refusal :
  forall (E : Env) (now : nat -> string) (self : SMTPTester)
         (s : State (recording E)),
  let '(r, s') := interp (recording E) now (test_submission_auth_required self) s in
  exists new_results new_calls,
    results (tester s') = results (tester s) ++ new_results /\
    calls s' = calls s ++ new_calls /\
    (forall x, In x new_results -> success x = true ->
       exists server e,
         In (C_SMTP (smtp_host self) (submission_port self) 10 (Ok server))
            new_calls /\
         In (C_mail server "test@example.com" (Raised e)) new_calls /\
         (is_SMTPRecipientsRefused e = true \/
          (is_Exception e = true /\
           exists pre post,
             lower (exn_str e) = (pre ++ "authentication" ++ post)%string))) /\
    (forall server e pre word post,
       In (C_mail server "test@example.com" (Raised e)) new_calls ->
       is_Exception e = true ->
       exn_str e = (pre ++ word ++ post)%string ->
       lower word = "authentication"%string ->
       exists x, In x new_results /\ success x = true) /\
    (forall server, In (C_mail server "test@example.com" (Ok tt)) new_calls ->
       exists x, In x new_results /\ success x = false /\
                 error x
                 = Some "Submission port allows mail without authentication"%string) /\
    (forall server e,
       In (C_mail server "test@example.com" (Raised e)) new_calls ->
       is_Exception e = true ->
       is_SMTPRecipientsRefused e = false ->
       (forall pre post,
          lower (exn_str e) <> (pre ++ "authentication" ++ post)%string) ->
       exists x, In x new_results /\ success x = false /\
                 error x = Some (exn_str e)).
Proof.
  intros E now self s.
  unfold test_submission_auth_required, with_SMTP, try_except_Exception.
  repeat exec_step.
  all: leaf.
  all: split; [intros x Hx Hs; facts | ].
  all: try (do 2 eexists; split; [pick | ]; split; [pick | ];
            first [ left; assumption
                  | right; split; [assumption | apply contains_iff; assumption] ]).
  all: split;
    [ intros server err pre word post Hc Herr Htext Hword; same_call;
      try (exfalso; pose proof (contains_any_case _ _ _ _ Htext) as Hcon;
           rewrite Hword in Hcon; congruence);
      find_pass
    | ].
  all: split; [intros server Hc; same_call; find_result | ].
  all: intros server err Hc Herr Hnot Hnone; same_call.
  all: try (exfalso;
            match goal with
            | Hin : contains _ _ = true |- _ =>
                apply contains_iff in Hin; destruct Hin as (pre & post & Hin);
                exact (Hnone _ _ Hin)
            end).
  all: find_result.
Qed.

(** X5 ([test_mx_external_email]).  The probe passes only after the whole
    dialogue went through on the MX port: EHLO, MAIL FROM
    external\@example.com, RCPT TO test\@ultrazend.com.br and QUIT all
    answered without error, in this order.  Any [Exception] on the way is
    logged as a failure with its text, also one raised when the [with] block
    closes the connection after the pass. *)
Theorem mx_probe_passes_only_after_full_dialogue :
  forall (E : Env) (now : nat -> string) (self : SMTPTester)
         (s : State (recording E)),
  let '(r, s') := interp (recording E) now (test_mx_external_email self) s in
  exists new_results new_calls,
    results (tester s') = results (tester s) ++ new_results /\
    calls s' = calls s ++ new_calls /\
    (forall x, In x new_results -> success x = true ->
       exists server reply rest,
         new_calls
         = [ C_SMTP (smtp_host self) (mx_port self) 10 (Ok server);
             C_ehlo server (Ok reply);
             C_mail server "external@example.com" (Ok tt);
             C_rcpt server "test@ultrazend.com.br" (Ok tt);
             C_quit server (Ok tt) ] ++ rest) /\
    (forall x, In x new_results -> success x = false ->
       exists e, error x = Some (exn_str e) /\ is_Exception e = true /\
                 In e (flat_map raised new_calls)) /\
    (forall server e, In (C_exit server (Raised e)) new_calls ->
       is_Exception e = true ->
       exists x, In x new_results /\ success x = false /\
                 error x = Some (exn_str e)).
Proof.
  intros E now self s. unfold test_mx_external_email, with_SMTP, try_except_Exception.
  repeat exec_step.
  all: leaf.
  all: split; [intros x Hx Hs; facts | ].
  all: try (do 3 eexists; cbn [app]; reflexivity).
  all: split; [intros x Hx Hs; facts; try blame_call | ].
  all: intros server err Hc Herr; same_call.
  all: find_result.
Qed.

(** X6 ([test_relay_protection]).  The probe passes only when the MX
    accepted the sender and then refused the foreign recipient with
    [SMTPRecipientsRefused].  When the recipient is accepted, a failure is
    logged with the fixed message; another [Exception] from RCPT is logged
    as a failure with its text, provided the [with] block then closes the
    connection without error. *)
Theorem relay_probe_passes_only_on_refusal :
  forall (E : Env) (now : nat -> string) (self : SMTPTester)
         (s : State (recording E)),
  let '(r, s') := interp (recording E) now (test_relay_protection self) s in
  exists new_results new_calls,
    results (tester s') = results (tester s) ++ new_results /\
    calls s' = calls s ++ new_calls /\
    (forall x, In x new_results -> success x = true ->
       exists server e,
         In (C_SMTP (smtp_host self) (mx_port self) 10 (Ok server)) new_calls /\
         In (C_mail server "external@example.com" (Ok tt)) new_calls /\
         In (C_rcpt server "external@other-domain.com" (Raised e)) new_calls /\
         is_SMTPRecipientsRefused e = true) /\
    (forall server, In (C_rcpt server "external@other-domain.com" (Ok tt)) new_calls ->
       exists x, In x new_results /\ success x = false /\
                 error x = Some "MX server allowed unauthorized relay"%string) /\
    (forall server e,
       In (C_rcpt server "external@other-domain.com" (Raised e)) new_calls ->
       is_Exception e = true ->
       is_SMTPRecipientsRefused e = false ->
       In (C_exit server (Ok tt)) new_calls ->
       exists x, In x new_results /\ success x = false /\
                 error x = Some (exn_str e)).
Proof.
  intros E now self s. unfold test_relay_protection, with_SMTP, try_except_Exception.
  repeat exec_step.
  all: leaf.
  all: split; [intros x Hx Hs; facts | ].
  all: try (do 2 eexists; split; [pick | ]; split; [pick | ];
            split; [pick | assumption]).
  all: split; [intros server Hc; same_call; find_result | ].
  all: intros server err Hc Herr Hnot Hclosed; same_call.
  all: find_result.
Qed.

(** X7 ([test_send_test_email]).  The probe connects to mailhog:1025 and
    nowhere else, whatever the tester was configured with.  It passes only
    after [send_message] accepted the message with the fixed sender,
    recipient and subject, whose body carries the time read before the
    sending; the entry itself is stamped with the next reading of the
    clock. *)
Theorem email_probe_sends_the_stamped_message :
  forall (E : Env) (now : nat -> string) (self : SMTPTester)
         (s : State (recording E)),
  let '(r, s') := interp (recording E) now (test_send_test_email self) s in
  exists new_results new_calls,
    results (tester s') = results (tester s) ++ new_results /\
    calls s' = calls s ++ new_calls /\
    flat_map connects_to new_calls = [("mailhog"%string, 1025, 10)] /\
    (forall x, In x new_results -> success x = true ->
       exists server,
         In (C_SMTP "mailhog" 1025 10 (Ok server)) new_calls /\
         In (C_send_message server
               {| msg_From := "test@ultrazend.com.br";
                  msg_To := "recipient@example.com";
                  msg_Subject := "UltraZend SMTP Test";
                  msg_body := email_body (now (ticks s)) |} (Ok tt)) new_calls /\
         details x = Some "Email sent to MailHog successfully"%string /\
         timestamp x = now (S (ticks s))) /\
    (forall x, In x new_results -> success x = false ->
       exists e, error x = Some (exn_str e) /\ is_Exception e = true /\
                 In e (flat_map raised new_calls)).
Proof.
  intros E now self s. unfold test_send_test_email, with_SMTP, try_except_Exception.
  repeat exec_step.
  all: leaf.
  all: split; [reflexivity | ].
  all: split; [intros x Hx Hs; facts | ].
  all: try (eexists; split; [pick | ]; split; [pick | ]; split; reflexivity).
  all: intros x Hx Hs; facts; try blame_call.
Qed.

(** X8 ([test_connection_limits]).  The probe logs exactly one entry when
    it returns and none when it is interrupted.  It passes only after five
    connections to the MX port were opened, and says so in its details; it
    fails with fewer than five open, carrying the text of the [Exception]
    the constructor raised.  Either way [quit] is called once on every
    connection that was opened, in the order of opening, whatever the
    earlier [quit] calls answered; the probe connects at most five times,
    always to the MX port of the configured host with a timeout of 5. *)
Theorem limits_probe_opens_five_and_quits_all :
  forall (E : Env) (now : nat -> string) (self : SMTPTester)
         (s : State (recording E)),
  let '(r, s') := interp (recording E) now (test_connection_limits self) s in
  exists new_results new_calls,
    results (tester s') = results (tester s) ++ new_results /\
    calls s' = calls s ++ new_calls /\
    (length new_results = if is_ok r then 1%nat else 0%nat) /\
    (forall x, In x new_results -> success x = true ->
       length (flat_map smtp_opened new_calls) = 5%nat /\
       details x = Some "Created 5 concurrent connections"%string) /\
    (forall x, In x new_results -> success x = false ->
       (length (flat_map smtp_opened new_calls) < 5)%nat /\
       exists e, error x = Some (exn_str e) /\ is_Exception e = true /\
                 In (C_SMTP (smtp_host self) (mx_port self) 5 (Raised e)) new_calls) /\
    flat_map smtp_quit new_calls = flat_map smtp_opened new_calls /\
    (length (flat_map connects_to new_calls) <= 5)%nat /\
    Forall (fun t => t = (smtp_host self, mx_port self, 5))
           (flat_map connects_to new_calls).
Proof.
  intros E now self s. pose proof (connection_limits_spec E now self s) as H.
  destruct (interp (recording E) now (test_connection_limits self) s) as [r s'].
  destruct H
    as (new_results & new_calls & Hr & Hc & Hlen & _ & Hpass & Hfail & Hq & _ & Hn & Hf).
  exists new_results, new_calls.
  split; [exact Hr | ]. split; [exact Hc | ]. split; [exact Hlen | ].
  split; [exact Hpass | ]. split; [exact Hfail | ].
  split; [symmetry; exact Hq | ]. split; [exact Hn | exact Hf].
Qed.

(** * What leaves a probe *)

Section Interrupts.
Variable E : Env.
Variable now : nat -> string.

Lemma never_raises_only_interrupts : forall (A : Type) (p : Prog A),
  never_raises E now p -> only_interrupts E now p.
Proof. intros A p H s s' e Hi. exfalso. exact (H s s' e Hi). Qed.

Lemma never_raises_log : forall test_name ok dtl err,
  never_raises E now (self_log_result test_name ok dtl err).
Proof.
  intros test_name ok dtl err s s' e H.
  rewrite interp_self_log_result, log_result_spec in H. discriminate.
Qed.

Lemma never_raises_ret : forall (A : Type) (a : A), never_raises E now (Ret a).
Proof. intros A a s s' e H. discriminate. Qed.

Lemma never_raises_attempt : forall (A : Type) (p : Prog A),
  never_raises E now (attempt p).
Proof.
  intros A p s s' e H. rewrite interp_attempt in H. unfold mattempt in H.
  destruct (interp E now p s). discriminate.
Qed.

Lemma never_raises_bind : forall (A B : Type) (p : Prog A) (f : A -> Prog B),
  never_raises E now p -> (forall a, never_raises E now (f a)) ->
  never_raises E now (pbind p f).
Proof.
  intros A B p f Hp Hf s s' e H. rewrite interp_pbind in H.
  apply mbind_raised in H. destruct H as [H | (a & s1 & _ & H)].
  - exact (Hp _ _ _ H).
  - exact (Hf a _ _ _ H).
Qed.

Lemma never_raises_try_except : forall (A : Type) (p : Prog A) (h : Exn -> Prog A),
  (forall e, never_raises E now (h e)) -> never_raises E now (try_except p h).
Proof.
  intros A p h Hh s s' e H. rewrite interp_try_except in H. unfold mtry in H.
  destruct (interp E now p s) as [[a | e0] s1]; [discriminate | ].
  exact (Hh e0 _ _ _ H).
Qed.

Lemma never_raises_for_each : forall (X : Type) (xs : list X) (f : X -> Prog unit),
  (forall x, never_raises E now (f x)) -> never_raises E now (for_each xs f).
Proof.
  induction xs as [ | x xs IH]; intros f Hf; cbn [for_each].
  - apply never_raises_ret.
  - apply never_raises_bind; [apply Hf | intros _; apply IH; exact Hf].
Qed.

Lemma never_raises_open_connections : forall (self : SMTPTester) (n : nat)
    (connections : list Handle),
  never_raises E now (open_connections self n connections).
Proof.
  induction n as [ | n IH]; intros connections; cbn [open_connections].
  - apply never_raises_ret.
  - apply never_raises_bind; [apply never_raises_attempt | ].
    intros [conn | e]; [apply IH | apply never_raises_ret].
Qed.

Lemma only_interrupts_bind : forall (A B : Type) (p : Prog A) (f : A -> Prog B),
  only_interrupts E now p -> (forall a, only_interrupts E now (f a)) ->
  only_interrupts E now (pbind p f).
Proof.
  intros A B p f Hp Hf s s' e H. rewrite interp_pbind in H.
  apply mbind_raised in H. destruct H as [H | (a & s1 & _ & H)].
  - exact (Hp _ _ _ H).
  - exact (Hf a _ _ _ H).
Qed.

Lemma only_interrupts_for_each : forall (X : Type) (xs : list X) (f : X -> Prog unit),
  (forall x, only_interrupts E now (f x)) -> only_interrupts E now (for_each xs f).
Proof.
  induction xs as [ | x xs IH]; intros f Hf; cbn [for_each].
  - apply never_raises_only_interrupts, never_raises_ret.
  - apply only_interrupts_bind; [apply Hf | intros _; apply IH; exact Hf].
Qed.

(** [try: p  except Exception as e: h e] with a handler that does not raise
    lets only interrupts through, whatever [p] does. *)
Lemma only_interrupts_try_except_Exception :
  forall (A : Type) (p : Prog A) (h : Exn -> Prog A),
    (forall e, never_raises E now (h e)) ->
    only_interrupts E now (try_except_Exception p h).
Proof.
  intros A p h Hh s s' e H. unfold try_except_Exception in H.
  rewrite interp_try_except in H. unfold mtry in H.
  destruct (interp E now p s) as [[a | e0] s1]; [discriminate | ].
  destruct (is_Exception e0) eqn:He.
  - exfalso. exact (Hh e0 _ _ _ H).
  - cbn [interp] in H. unfold mraise in H. congruence.
Qed.

(** [try: q  finally: c] with a clean-up that does not raise. *)
Lemma only_interrupts_finally :
  forall (A B : Type) (q : Prog A) (c : Prog B),
    only_interrupts E now q -> never_raises E now c ->
    only_interrupts E now (r <- attempt q ;; c ;; reraise r)%prog.
Proof.
  intros A B q c Hq Hc s s' e H. rewrite interp_pbind in H.
  apply mbind_raised in H. destruct H as [H | (r & s1 & Hatt & H)].
  - exfalso. exact (never_raises_attempt A q _ _ _ H).
  - rewrite interp_attempt in Hatt. unfold mattempt in Hatt.
    destruct (interp E now q s) as [r0 s0] eqn:Hi.
    assert (r0 = r /\ s0 = s1) as [-> ->] by (split; congruence).
    rewrite interp_pbind in H. apply mbind_raised in H.
    destruct H as [H | (b & s2 & _ & H)].
    + exfalso. exact (Hc _ _ _ H).
    + destruct r as [a | e0]; cbn [reraise interp] in H;
        unfold mret, mraise in H; [discriminate | ].
      assert (e0 = e) by congruence. subst e0. exact (Hq _ _ _ Hi).
Qed.

(** No probe of the program lets an [Exception] out. *)
Lemma probes_only_interrupts : forall (self : SMTPTester) (t : Probe),
  In t (tests_of E self) -> only_interrupts E now (body t).
Proof.
  intros self t Hin. unfold tests_of in Hin. cbn [In] in Hin.
  repeat match type of Hin with
         | _ \/ _ => destruct Hin as [<- | Hin]
         | False => destruct Hin
         end; cbn [body].
  - unfold test_port_connectivity. apply only_interrupts_for_each.
    intros [port_name port].
    apply only_interrupts_try_except_Exception. intros e. apply never_raises_log.
  - apply only_interrupts_try_except_Exception. intros e. apply never_raises_log.
  - apply only_interrupts_try_except_Exception. intros e. apply never_raises_log.
  - apply only_interrupts_try_except_Exception. intros e. apply never_raises_log.
  - apply only_interrupts_try_except_Exception. intros e. apply never_raises_log.
  - apply only_interrupts_try_except_Exception. intros e. apply never_raises_log.
  - apply only_interrupts_try_except_Exception. intros e. apply never_raises_log.
  - unfold test_connection_limits.
    apply only_interrupts_bind.
    + apply never_raises_only_interrupts, never_raises_open_connections.
    + intros opened. apply only_interrupts_finally.
      * apply only_interrupts_try_except_Exception. intros e.
        apply never_raises_log.
      * apply never_raises_for_each. intros conn.
        apply never_raises_try_except. intros e. apply never_raises_ret.
Qed.

End Interrupts.

(** X11 (the eight probes, and the [try] of the loop in [run_all_tests]).
    Every probe of the list handles its own errors: no [Exception] leaves
    its body, only an interrupt can.  So the [except Exception] clause of
    the loop never fires for them: a turn of the loop is the body followed
    by the pause, and no entry is ever logged under a method name. *)
Theorem probes_never_reach_the_runner_handler :
  forall (E : Env) (now : nat -> string) (self : SMTPTester),
    Forall (fun t =>
              forall s : State E,
                (forall e s', interp E now (body t) s = (Raised e, s') ->
                              is_Exception e = false) /\
                run_probe E now t s
                  = mbind E (interp E now (body t)) (fun _ => sleep E 1) s)
           (tests_of E self).
Proof.
  intros E now self. apply Forall_forall. intros t Hin s.
  pose proof (probes_only_interrupts E now self t Hin) as Hoi.
  split; [intros e s' H; exact (Hoi _ _ _ H) | ].
  unfold run_probe. rewrite !mbind_unfold. unfold mtry.
  destruct (interp E now (body t) s) as [[[] | e] s1] eqn:Hi; [reflexivity | ].
  rewrite (Hoi _ _ _ Hi). reflexivity.
Qed.

(** * The journal of a whole run *)

Section Run.
Variable E : Env.
Variable now : nat -> string.

Lemma Forall2_left : forall (A B : Type) (P : A -> B -> Prop) (Q : A -> Prop)
    (l : list A) (l' : list B),
  Forall2 P l l' -> (forall a b, P a b -> Q a) -> Forall Q l.
Proof.
  intros A B P Q l l' H HPQ. induction H as [ | a b l l' Hab _ IH].
  - constructor.
  - constructor; [exact (HPQ a b Hab) | exact IH].
Qed.

Lemma Forall2_and_left : forall (A B : Type) (P : A -> B -> Prop) (Q : A -> Prop)
    (l : list A) (l' : list B),
  Forall2 P l l' -> (forall a, In a l -> Q a) ->
  Forall2 (fun a b => P a b /\ Q a) l l'.
Proof.
  intros A B P Q l l' H. induction H as [ | a b l l' Hab _ IH]; intros HQ.
  - constructor.
  - constructor.
    + split; [exact Hab | apply HQ; left; reflexivity].
    + apply IH. intros a' Ha'. apply HQ. right. exact Ha'.
Qed.

(** What one turn of the loop adds to the journal. *)
Lemma run_probe_journal : forall (self : SMTPTester) (bound : nat) (t : Probe)
    (s : State (recording E)),
  effects E now self bound (body t) ->
  exists new_calls,
    calls (snd (run_probe (recording E) now t s)) = calls s ++ new_calls /\
    flat_map socket_opened new_calls = flat_map socket_closed new_calls /\
    Forall (fun c => In c (allowed_targets self)) (flat_map connects_to new_calls).
Proof.
  intros self bound t s Heff. specialize (Heff s).
  destruct (interp (recording E) now (body t) s) as [[[] | e] s1] eqn:Hi;
    destruct Heff as (rs & cs & _ & Hc & _ & _ & Hs & _ & Hf);
    exists cs.
  - rewrite (run_probe_returns (recording E) now t s s1 tt Hi).
    split; [exact Hc | split; [exact Hs | exact Hf]].
  - destruct (is_Exception e) eqn:He.
    + rewrite (run_probe_catches (recording E) now t s s1 e Hi He), log_result_spec.
      split; [exact Hc | split; [exact Hs | exact Hf]].
    + rewrite (run_probe_aborts (recording E) now t s s1 e Hi He).
      split; [exact Hc | split; [exact Hs | exact Hf]].
Qed.

Lemma run_loop_journal : forall (self : SMTPTester) (tests : list Probe),
  Forall (fun t => exists bound, effects E now self bound (body t)) tests ->
  forall s : State (recording E),
  exists new_calls,
    calls (snd (run_loop (recording E) now tests s)) = calls s ++ new_calls /\
    flat_map socket_opened new_calls = flat_map socket_closed new_calls /\
    Forall (fun c => In c (allowed_targets self)) (flat_map connects_to new_calls).
Proof.
  intros self tests Hall. induction Hall as [ | t rest [bound Ht] _ IH]; intros s.
  - exists []. cbn [run_loop mret snd flat_map]. rewrite app_nil_r.
    split; [reflexivity | split; [reflexivity | constructor]].
  - rewrite run_loop_cons, mbind_unfold.
    destruct (run_probe_journal self bound t s Ht) as (cs1 & Hc1 & Hs1 & Hf1).
    destruct (run_probe (recording E) now t s) as [[[] | e] s1]; cbn [snd] in *.
    + destruct (IH s1) as (cs2 & Hc2 & Hs2 & Hf2).
      exists (cs1 ++ cs2). rewrite Hc2, Hc1, <- app_assoc, !flat_map_app, Hs1, Hs2.
      split; [reflexivity | split; [reflexivity | ]].
      apply Forall_app. split; assumption.
    + exists cs1. split; [exact Hc1 | split; [exact Hs1 | exact Hf1]].
Qed.

(** The statements after the loop call nothing of [socket] or [smtplib]. *)
Lemma report_journal : forall s : State (recording E),
  calls (snd (report (recording E) s)) = calls s.
Proof.
  intros s. unfold report, mbind, get_results.
  rewrite print_summary_spec. cbv zeta.
  destruct (Z.of_nat (length (results (tester s))) =? 0); [reflexivity | ].
  cbv beta iota. cbn [tester with_events fst snd].
  rewrite write_report_spec. cbn [world with_events recording fs].
  destruct (fs E (fs_open_w report_path) (fst (world s))) as [[[] | e1] w1];
    cbn [fst snd]; [ | reflexivity].
  destruct (fs E (fs_dump report_path (results_json (results (tester s)))) w1)
    as [r2 w2]; cbn [fst snd].
  destruct (fs E (fs_close report_path) w2) as [r3 w3]; cbn [fst snd].
  destruct r3 as [[] | e3]; destruct r2 as [[] | e2];
    try rewrite print_spec; reflexivity.
Qed.

(** What a probe body adds to the log, in the plain environment. *)
Lemma effects_plain : forall (self : SMTPTester) (bound : nat) (p : Prog unit),
  effects E now self bound p -> logs_known_titles E now self p bound.
Proof.
  intros self bound p Heff s. specialize (Heff (journal s)).
  pose proof (interp_forget E now unit p (journal s)) as Hplain.
  rewrite forget_journal in Hplain. rewrite Hplain.
  destruct (interp (recording E) now p (journal s)) as [r s'].
  destruct Heff as (rs & cs & Hr & _ & Hlen & Ht & _).
  exists rs. cbn [snd forget tester] in *.
  split; [exact Hr | split; [exact Hlen | exact Ht]].
Qed.

Lemma run_probe_titles : forall (self : SMTPTester) (bound : nat) (t : Probe)
    (s : State E),
  logs_known_titles E now self (body t) bound ->
  only_interrupts E now (body t) ->
  exists rs,
    results (tester (snd (run_probe E now t s))) = results (tester s) ++ rs /\
    (length rs <= bound)%nat /\
    Forall (fun x => In (test x) (titles self)) rs.
Proof.
  intros self bound t s Hlog Hoi. destruct (Hlog s) as (rs & Hr & Hlen & Ht).
  exists rs.
  destruct (interp E now (body t) s) as [[[] | e] s1] eqn:Hi; cbn [snd] in Hr.
  - rewrite (run_probe_returns E now t s s1 tt Hi).
    split; [exact Hr | split; [exact Hlen | exact Ht]].
  - rewrite (run_probe_aborts E now t s s1 e Hi (Hoi _ _ _ Hi)).
    split; [exact Hr | split; [exact Hlen | exact Ht]].
Qed.

Lemma run_loop_titles : forall (self : SMTPTester) (tests : list Probe)
    (bounds : list nat),
  Forall2 (fun t bound => logs_known_titles E now self (body t) bound /\
                          only_interrupts E now (body t)) tests bounds ->
  forall s : State E,
  exists rs,
    results (tester (snd (run_loop E now tests s))) = results (tester s) ++ rs /\
    (length rs <= list_sum bounds)%nat /\
    Forall (fun x => In (test x) (titles self)) rs.
Proof.
  intros self tests bounds Hall.
  induction Hall as [ | t bound rest bounds [Hlog Hoi] _ IH]; intros s.
  - exists []. cbn [run_loop mret snd length]. rewrite app_nil_r.
    split; [reflexivity | split; [apply Nat.le_0_l | constructor]].
  - rewrite run_loop_cons, mbind_unfold.
    change (list_sum (bound :: bounds)) with (bound + list_sum bounds)%nat.
    destruct (run_probe_titles self bound t s Hlog Hoi) as (rs1 & Hr1 & Hl1 & Ht1).
    destruct (run_probe E now t s) as [[[] | e] s1]; cbn [snd] in *.
    + destruct (IH s1) as (rs2 & Hr2 & Hl2 & Ht2).
      exists (rs1 ++ rs2). rewrite Hr2, Hr1, <- app_assoc, length_app.
      split; [reflexivity | split; [lia | ]].
      apply Forall_app. split; assumption.
    + exists rs1. split; [exact Hr1 | split; [lia | exact Ht1]].
Qed.

End Run.

(** X9 (the eight probes).  No probe leaves a connection behind, however
    its calls end: every socket that [create_connection] handed out is
    passed to [close], and every SMTP connection the constructor handed out
    is passed to [__exit__] by the [with] block, or to [quit] by the
    [finally] block of [test_connection_limits], in the order of
    opening. *)
Theorem no_probe_leaks_a_connection :
  forall (E : Env) (now : nat -> string) (self : SMTPTester),
    Forall (fun t =>
              forall s : State (recording E),
              exists new_calls,
                calls (snd (interp (recording E) now (body t) s))
                  = calls s ++ new_calls /\
                flat_map socket_closed new_calls
                  = flat_map socket_opened new_calls /\
                (flat_map smtp_exited new_calls = flat_map smtp_opened new_calls \/
                 flat_map smtp_quit new_calls = flat_map smtp_opened new_calls))
           (tests_of E self).
Proof.
  intros E now self.
  apply (Forall2_left _ _ _ _ _ _ (probe_effects E now self)).
  intros t bound Heff s. specialize (Heff s).
  destruct (interp (recording E) now (body t) s) as [r s'].
  destruct Heff as (rs & cs & _ & Hc & _ & _ & Hs & Hq & _).
  exists cs. split; [exact Hc | ]. split; [symmetry; exact Hs | ].
  destruct Hq as [Hq | Hq]; [left | right]; symmetry; exact Hq.
Qed.

(** X10 ([run_all_tests] and the eight probes).  A whole run, however it
    ends, connects only to the configured host on its two ports and to
    mailhog:1025, with timeouts 10 and 5; every socket it opened was passed
    to [close]; the banner, the summary and the writing of the report call
    nothing of the network. *)
Theorem run_contacts_only_known_targets :
  forall (E : Env) (now : nat -> string) (s : State (recording E)),
  exists new_calls,
    calls (snd (run_all_tests (recording E) now s)) = calls s ++ new_calls /\
    Forall (fun c => In c (allowed_targets (tester s)))
           (flat_map connects_to new_calls) /\
    flat_map socket_closed new_calls = flat_map socket_opened new_calls.
Proof.
  intros E now s. unfold run_all_tests.
  rewrite run_tests_unfold, mbind_unfold.
  assert (Hall : Forall (fun t => exists bound,
                           effects E now (tester s) bound (body t))
                        (tests_of (recording E) (tester s))).
  { apply (Forall2_left _ _ _ _ _ _ (probe_effects E now (tester s))).
    intros t bound Heff. exists bound. exact Heff. }
  destruct (run_loop_journal E now (tester s) _ Hall (after_banner s))
    as (cs & Hc & Hs & Hf).
  destruct (run_loop (recording E) now (tests_of (recording E) (tester s))
              (after_banner s)) as [[[] | e] s1]; cbn [snd] in Hc |- *.
  - exists cs. rewrite report_journal.
    split; [exact Hc | split; [exact Hf | symmetry; exact Hs]].
  - exists cs. split; [exact Hc | split; [exact Hf | symmetry; exact Hs]].
Qed.

(** X12 ([run_all_tests], [log_result] and the eight probes).  Whatever the
    servers answer and however the run ends, it appends at most fifteen
    entries to the log, each under one of the nine fixed titles; the
    method names of the probes never appear as titles. *)
Theorem report_titles_are_fixed :
  forall (E : Env) (now : nat -> string) (s : State E),
  exists rs,
    results (tester (snd (run_all_tests E now s))) = results (tester s) ++ rs /\
    (length rs <= 15)%nat /\
    Forall (fun x => In (test x) (titles (tester s))) rs /\
    Forall (fun x => ~ In (test x) (map __name__ (tests_of E (tester s)))) rs.
Proof.
  intros E now s. unfold run_all_tests. rewrite run_tests_results.
  assert (Hall : Forall2 (fun t bound =>
                            logs_known_titles E now (tester s) (body t) bound /\
                            only_interrupts E now (body t))
                         (tests_of E (tester s)) [2; 2; 2; 2; 2; 2; 2; 1]%nat).
  { apply Forall2_and_left.
    - eapply Forall2_impl; [ | apply (probe_effects E now (tester s))].
      intros t bound Heff. apply effects_plain. exact Heff.
    - intros t Hin. exact (probes_only_interrupts E now (tester s) t Hin). }
  destruct (run_loop_titles E now (tester s) _ _ Hall (after_banner s))
    as (rs & Hr & Hlen & Ht).
  exists rs. split; [exact Hr | ]. split; [exact Hlen | ]. split; [exact Ht | ].
  eapply Forall_impl; [ | exact Ht]. intros x Hx Hname.
  unfold titles in Hx. cbn [In map tests_of __name__] in Hx, Hname.
  repeat match goal with
         | H : _ \/ _ |- _ => destruct H as [H | H]
         | H : False |- _ => destruct H
         end;
    match goal with
    | H1 : _ = test x, H2 : _ = test x |- _ =>
        rewrite <- H2 in H1; cbn [append] in H1; discriminate H1
    end.
Qed.

(** * The console and the report file *)

(** ** Line feeds *)





(** A line feed ends the line before it. *)
Lemma split_lines_aux_app_nl : forall a cur b : string,
  split_lines_aux cur (a ++ nl ++ b)%string
  = split_lines_aux cur a ++ split_lines b.
Proof.
  induction a as [ | c a IH]; intros cur b.
  - reflexivity.
  - cbn [append split_lines_aux].
    destruct (Ascii.eqb c "010"%char).
    + cbn [app]. f_equal. apply IH.
    + apply IH.
Qed.



(** ** The console, line by line *)

Lemma print_args_app : forall tr1 tr2,
  print_args (tr1 ++ tr2) = print_args tr1 ++ print_args tr2.
Proof. intros. unfold print_args. apply flat_map_app. Qed.

Lemma print_args_prints : forall args, print_args (map EvPrint args) = args.
Proof.
  induction args as [ | l ls IH]; cbn [map print_args flat_map app] in *;
    [reflexivity | ]. f_equal. exact IH.
Qed.

Lemma console_lines_app : forall tr1 tr2,
  console_lines (tr1 ++ tr2) = console_lines tr1 ++ console_lines tr2.
Proof. intros. unfold console_lines. rewrite print_args_app. apply flat_map_app. Qed.

(** The lines of the console are the lines of what was written to the
    standard output, which ends with a line feed if anything was
    printed. *)
Lemma stdout_lines : forall tr : list Event,
  split_lines (stdout tr) = console_lines tr ++ [""%string].
Proof.
  intros tr. unfold stdout, console_lines.
  induction (print_args tr) as [ | arg args IH]; [reflexivity | ].
  cbn [map flat_map]. rewrite <- app_assoc, <- IH.
  assert (Hcat : forall (x : string) (xs : list string),
            String.concat "" (x :: xs) = (x ++ String.concat "" xs)%string).
  { intros x [ | y ys]; cbn [String.concat]; [symmetry; apply str_app_nil_r | ].
    reflexivity. }
  rewrite Hcat, str_app_assoc. apply (split_lines_aux_app_nl arg "").
Qed.




(** ** What the run prints *)



Section Console.
Variable E : Env.
Variable now : nat -> string.

Lemma log_lines_logged : forall test_name ok dtl err (s : State E),
  log_lines test_name ok dtl err = result_lines (logged now test_name ok dtl err s).
Proof.
  intros. unfold log_lines, result_lines, logged.
  cbn [success test error details]. destruct (truthy err); reflexivity.
Qed.

(** What a probe body prints is the rendering of what it logged. *)
Lemma interp_prints_results : forall (A : Type) (p : Prog A) (s : State E),
  exists rs,
    results (tester (snd (interp E now p s))) = results (tester s) ++ rs /\
    trace (snd (interp E now p s))
      = trace s ++ map EvPrint (flat_map result_lines rs).
Proof.
  induction p as [a | e | R op k IH | k IH | n b d err k IH]; intros s;
    cbn [interp].
  - exists []. cbn [snd mret flat_map map]. rewrite !app_nil_r. split; reflexivity.
  - exists []. cbn [snd mraise flat_map map]. rewrite !app_nil_r. split; reflexivity.
  - unfold lib_call. destruct (lib E R op (world s)) as [r w].
    destruct (IH r {| tester := tester s; trace := trace s; ticks := ticks s;
                      world := w |}) as (rs & Hr & Ht).
    exists rs. split; assumption.
  - rewrite mbind_unfold. unfold read_clock.
    destruct (IH (now (ticks s))
                 {| tester := tester s; trace := trace s; ticks := S (ticks s);
                    world := world s |}) as (rs & Hr & Ht).
    exists rs. split; assumption.
  - rewrite mbind_unfold, log_result_spec.
    match goal with
    | |- context [interp E now k ?s1] => destruct (IH s1) as (rs & Hr & Ht)
    end.
    cbn [tester results trace] in Hr, Ht.
    exists (logged now n b d err s :: rs). split.
    + rewrite Hr, <- app_assoc. reflexivity.
    + rewrite Ht, <- app_assoc, <- map_app.
      cbn [flat_map]. rewrite <- (log_lines_logged n b d err s). reflexivity.
Qed.


Lemma print_args_result_lines_logged :
  forall test_name ok dtl err (s : State E),
    print_args (map EvPrint (log_lines test_name ok dtl err))
    = result_lines (logged now test_name ok dtl err s).
Proof. intros. rewrite print_args_prints. apply log_lines_logged. Qed.

(** One turn of the loop prints the rendering of what it appended. *)
Lemma run_probe_prints_results : forall (t : Probe) (s : State E),
  exists rs tr,
    results (tester (snd (run_probe E now t s))) = results (tester s) ++ rs /\
    trace (snd (run_probe E now t s)) = trace s ++ tr /\
    print_args tr = flat_map result_lines rs.
Proof.
  intros t s. destruct (interp_prints_results unit (body t) s) as (rs & Hr & Ht).
  destruct (interp E now (body t) s) as [[[] | e] s1] eqn:Hi; cbn [snd] in Hr, Ht.
  - rewrite (run_probe_returns E now t s s1 tt Hi).
    exists rs, (map EvPrint (flat_map result_lines rs) ++ [EvSleep 1]).
    cbn [snd slept tester trace]. split; [exact Hr | ]. split.
    + rewrite Ht, <- app_assoc. reflexivity.
    + rewrite print_args_app, print_args_prints. apply app_nil_r.
  - destruct (is_Exception e) eqn:He.
    + rewrite (run_probe_catches E now t s s1 e Hi He), log_result_spec.
      exists (rs ++ [logged now (__name__ t) false None (ErrExn e) s1]),
        (map EvPrint (flat_map result_lines rs)
         ++ map EvPrint (log_lines (__name__ t) false None (ErrExn e))
         ++ [EvSleep 1]).
      cbn [snd slept tester trace results]. split; [ | split].
      * rewrite Hr, <- app_assoc. reflexivity.
      * rewrite Ht, <- !app_assoc. reflexivity.
      * rewrite !print_args_app, !print_args_prints, flat_map_app.
        cbn [flat_map print_args]. rewrite !app_nil_r.
        rewrite (log_lines_logged _ _ _ _ s1). reflexivity.
    + rewrite (run_probe_aborts E now t s s1 e Hi He).
      exists rs, (map EvPrint (flat_map result_lines rs)). cbn [snd].
      split; [exact Hr | ]. split; [exact Ht | apply print_args_prints].
Qed.

Lemma run_loop_prints_results : forall (tests : list Probe) (s : State E),
  exists rs tr,
    results (tester (snd (run_loop E now tests s))) = results (tester s) ++ rs /\
    trace (snd (run_loop E now tests s)) = trace s ++ tr /\
    print_args tr = flat_map result_lines rs.
Proof.
  induction tests as [ | t rest IH]; intros s.
  - exists [], []. cbn [run_loop mret snd]. rewrite !app_nil_r. repeat split.
  - rewrite run_loop_cons, mbind_unfold.
    destruct (run_probe_prints_results t s) as (rs1 & tr1 & Hr1 & Ht1 & Hp1).
    destruct (run_probe E now t s) as [[[] | e] s1]; cbn [snd] in *.
    + destruct (IH s1) as (rs2 & tr2 & Hr2 & Ht2 & Hp2).
      exists (rs1 ++ rs2), (tr1 ++ tr2). split; [ | split].
      * rewrite Hr2, Hr1, <- app_assoc. reflexivity.
      * rewrite Ht2, Ht1, <- app_assoc. reflexivity.
      * rewrite print_args_app, flat_map_app, Hp1, Hp2. reflexivity.
    + exists rs1, tr1. repeat split; assumption.
Qed.




(** The events of the statements after the loop, case by case. *)
Lemma report_shape : forall s : State E,
  let rs := results (tester s) in
  let summary := map EvPrint (summary_lines rs ++ [rate_line E rs]) in
  exists tr,
    trace (snd (report E s)) = trace s ++ tr /\
    ((rs = [] /\ tr = map EvPrint (summary_lines rs) /\
      fst (report E s) = Raised division_by_zero) \/
     (tr = summary ++ [EvFs (fs_open_w report_path) false] /\
      is_ok (fst (report E s)) = false) \/
     (exists dumped closed,
        tr = summary
             ++ [EvFs (fs_open_w report_path) true;
                 EvFs (fs_dump report_path (results_json rs)) dumped;
                 EvFs (fs_close report_path) closed]
             ++ (if andb dumped closed then [EvPrint saved_line] else []) /\
        is_ok (fst (report E s)) = andb dumped closed)).
Proof.
  intros s rs summary. unfold report, mbind, get_results.
  rewrite print_summary_spec. cbv zeta. fold rs.
  destruct (Z.of_nat (length rs) =? 0) eqn:Hz.
  - cbn [snd fst with_events trace]. eexists. split; [reflexivity | ].
    left. split; [apply total_zero_iff; exact Hz | split; reflexivity].
  - cbv beta iota. cbn [tester with_events fst snd]. fold rs.
    rewrite write_report_spec. cbn [world with_events].
    destruct (fs E (fs_open_w report_path) (world s)) as [[[] | e1] w1].
    + destruct (fs E (fs_dump report_path (results_json rs)) w1) as [r2 w2].
      destruct (fs E (fs_close report_path) w2) as [r3 w3].
      destruct r3 as [[] | e3]; destruct r2 as [[] | e2];
        try rewrite print_spec; unfold mret; cbv beta iota;
        rewrite ?with_events_twice; unfold with_events; cbn [snd fst trace is_ok];
        (eexists; split; [reflexivity | ]); right; right;
        [> exists true, true | exists false, true
         | exists true, false | exists false, false ];
        (split; [ | reflexivity]);
        cbn [andb app]; rewrite <- ?app_assoc; reflexivity.
    + cbv beta iota. rewrite ?with_events_twice. unfold with_events.
      cbn [snd fst trace is_ok].
      eexists. split; [reflexivity | ]. right. left. split; reflexivity.
Qed.

Lemma file_events_app : forall tr1 tr2,
  file_events (tr1 ++ tr2) = file_events tr1 ++ file_events tr2.
Proof. intros. unfold file_events. apply filter_app. Qed.

Lemma file_events_prints : forall lines, file_events (map EvPrint lines) = [].
Proof. induction lines as [ | l ls IH]; [reflexivity | exact IH]. Qed.

Lemma loop_events_no_file : forall tr,
  forallb loop_event tr = true -> file_events tr = [].
Proof.
  induction tr as [ | ev tr IH]; cbn [forallb]; intros H.
  - reflexivity.
  - apply andb_true_iff in H. destruct H as [Hev Htr].
    destruct ev; cbn [loop_event] in Hev; try discriminate;
      cbn [file_events filter]; apply IH; exact Htr.
Qed.

(** The whole run, however it ends: what the trace gains, split into the
    banner, the loop and the statements after the loop. *)
Lemma run_tests_shape : forall (tests : list Probe) (s : State E),
  exists rs tr_loop tr_report,
    trace (snd (run_tests E now tests s))
      = trace s ++ map EvPrint banner_lines ++ tr_loop ++ tr_report /\
    results (tester (snd (run_tests E now tests s))) = results (tester s) ++ rs /\
    print_args tr_loop = flat_map result_lines rs /\
    forallb loop_event tr_loop = true /\
    match run_loop E now tests (after_banner s) with
    | (Raised e, s1) =>
        tr_report = [] /\ run_tests E now tests s = (Raised e, s1)
    | (Ok _, s1) =>
        results (tester s1) = results (tester s) ++ rs /\
        trace (snd (report E s1)) = trace s1 ++ tr_report /\
        fst (run_tests E now tests s) = fst (report E s1)
    end.
Proof.
  intros tests s. rewrite run_tests_unfold, mbind_unfold.
  destruct (run_loop_prints_results tests (after_banner s))
    as (rs & tr & Hr & Ht & Hp).
  assert (Hev : forallb loop_event tr = true).
  { destruct (run_loop E now tests (after_banner s)) as [[[] | e] s1] eqn:Hl;
      cbn [snd] in Ht.
    - apply run_loop_ok in Hl.
      destruct Hl as (_ & _ & _ & _ & [tr0 (Ht0 & Hl0 & _)]).
      rewrite Ht0 in Ht. apply app_inv_head in Ht. subst tr0. exact Hl0.
    - apply run_loop_raised in Hl.
      destruct Hl as (_ & n & (_ & _ & _ & _ & [tr0 (Ht0 & Hl0 & _)])).
      rewrite Ht0 in Ht. apply app_inv_head in Ht. subst tr0. exact Hl0. }
  cbn [after_banner with_events tester trace] in Hr, Ht.
  destruct (run_loop E now tests (after_banner s)) as [[[] | e] s1];
    cbn [snd] in Hr, Ht.
  - destruct (report_trace E s1) as (Htester & tr2 & Ht2 & _).
    exists rs, tr, tr2. split; [ | split; [ | split; [exact Hp | split; [exact Hev | ]]]].
    + rewrite Ht2, Ht. unfold banner_lines. rewrite <- !app_assoc. reflexivity.
    + rewrite Htester. exact Hr.
    + split; [exact Hr | split; [exact Ht2 | reflexivity]].
  - exists rs, tr, []. cbn [snd]. rewrite app_nil_r.
    split; [ | split; [exact Hr | split; [exact Hp | split; [exact Hev | ]]]].
    + rewrite Ht. unfold banner_lines. rewrite <- !app_assoc. reflexivity.
    + split; reflexivity.
Qed.





End Console.




(** X16 ([run_all_tests], the loop and what follows it).  When the loop
    is left by an exception, which can only be an interrupt, the run ends
    with it at once: no summary is computed and the report file is not
    touched. *)
Theorem interrupted_run_touches_no_file :
  forall (E : Env) (now : nat -> string) (tests : list Probe)
         (s s1 : State E) (e : Exn),
    run_loop E now tests (after_banner s) = (Raised e, s1) ->
    run_tests E now tests s = (Raised e, s1) /\
    is_Exception e = false /\
    exists tr, trace s1 = trace s ++ tr /\ file_events tr = [].
Proof.
  intros E now tests s s1 e Hl.
  destruct (run_tests_shape E now tests s)
    as (rs & tr1 & tr2 & Ht & Hr & Hp & Hev & Hcase).
  rewrite Hl in Hcase. destruct Hcase as (-> & Hrun).
  split; [exact Hrun | ].
  split; [apply (run_loop_raised E now _ _ _ _ Hl) | ].
  rewrite Hrun in Ht. cbn [snd] in Ht.
  eexists. split; [exact Ht | ].
  rewrite !file_events_app, file_events_prints, (loop_events_no_file _ Hev).
  reflexivity.
Qed.

(** X15 ([run_all_tests], the [with open(...)] block).  The file events of
    a run are one of three: none at all; a refused opening of the report
    path and nothing else; or the opening, the dump of the final log and
    the closing, in this order, the closing attempted whether or not the
    dump succeeded.  Nothing else is ever opened or written. *)
Theorem report_file_opened_once_and_closed :
  forall (E : Env) (now : nat -> string) (tests : list Probe) (s : State E),
  exists tr,
    trace (snd (run_tests E now tests s)) = trace s ++ tr /\
    (file_events tr = [] \/
     file_events tr = [EvFs (fs_open_w report_path) false] \/
     exists dumped closed,
       file_events tr
       = [ EvFs (fs_open_w report_path) true;
           EvFs (fs_dump report_path
                   (results_json (results (tester (snd (run_tests E now tests s))))))
                dumped;
           EvFs (fs_close report_path) closed ]).
Proof.
  intros E now tests s.
  destruct (run_tests_shape E now tests s)
    as (rs & tr1 & tr2 & Ht & Hr & Hp & Hev & Hcase).
  eexists. split; [exact Ht | ].
  rewrite !file_events_app, file_events_prints, (loop_events_no_file _ Hev).
  cbn [app].
  destruct (run_loop E now tests (after_banner s)) as [[[] | e] s1].
  - destruct Hcase as (Hr1 & Ht2 & _).
    destruct (report_shape E s1) as (tr' & Htr' & Hshape).
    rewrite Htr' in Ht2. apply app_inv_head in Ht2. subst tr'.
    rewrite Hr, <- Hr1.
    destruct Hshape as [(_ & -> & _) | [(-> & _) | (d & c & -> & _)]].
    + left. apply file_events_prints.
    + right. left. rewrite file_events_app, file_events_prints. reflexivity.
    + right. right. exists d, c.
      rewrite !file_events_app, file_events_prints.
      destruct (andb d c); reflexivity.
  - destruct Hcase as (-> & _). left. reflexivity.
Qed.


(** ** From the arguments of [print] to the lines of the console *)










Section Lines.
Variable E : Env.




Variable now : nat -> string.



End Lines.


(** The program against a server that accepts everything: nine entries
    without line feeds, seven PASS lines and two FAIL lines on the
    console. *)
Example console_of_a_plain_run :
  let s' := snd (run_loop env_up clock0 (tests_of env_up (tester (start env_up tt)))
                   (start env_up tt)) in
  forallb plain_entry (results (tester s')) = true /\
  length (filter success (results (tester s'))) = 7%nat /\
  length (filter (fun line => prefix "✅ PASS " line) (console_lines (trace s')))
    = 7%nat /\
  length (filter (fun line => prefix "❌ FAIL " line) (console_lines (trace s')))
    = 2%nat.
Proof. vm_compute. repeat split. Qed.

(** Without the condition the count fails: a reply to EHLO with a line
    that reads "PASS Relay Protection" puts one PASS line more on the
    console than successes were logged, and the relay probe has failed. *)
Example console_of_a_forged_reply :
  let s' := snd (run_loop env_forged clock0
                   (tests_of env_forged (tester (start env_forged tt)))
                   (start env_forged tt)) in
  forallb plain_entry (results (tester s')) = false /\
  length (filter success (results (tester s'))) = 7%nat /\
  length (filter (fun line => prefix "✅ PASS " line) (console_lines (trace s')))
    = 8%nat /\
  In "✅ PASS Relay Protection"%string (console_lines (trace s')) /\
  map success (filter (fun r => String.eqb (test r) "Relay Protection")
                      (results (tester s'))) = [false].
Proof.
  vm_compute. repeat split. repeat first [left; reflexivity | right].
Qed.





(** Without the condition the closing line can be forged: a reply to EHLO
    that carries the text of the line puts it on the console of a run
    that ends with status 1. *)
Example verdict_of_a_forged_reply :
  In all_passed_text (console_lines (trace (snd (main env_forged clock0 tt)))) /\
  fst (main env_forged clock0 tt) = 1 /\
  forallb plain_entry (results (tester (snd (main env_forged clock0 tt)))) = false.
Proof.
  split; [vm_compute; repeat first [left; reflexivity | right] | ].
  split; vm_compute; reflexivity.
Qed.
(** * The probes against concrete servers *)

(** An interrupted probe between two passing ones: the run stops at it and
    no file is touched. *)
Lemma interrupted_run_touches_no_file_witness :
  exists s1,
    run_loop env_up clock0
      [probe_ok "test_a"; probe_interrupted "test_b"; probe_ok "test_c"]
      (after_banner (start env_up tt))
    = (Raised (mkExn KeyboardInterrupt ""), s1) /\
    run_tests env_up clock0
      [probe_ok "test_a"; probe_interrupted "test_b"; probe_ok "test_c"]
      (start env_up tt)
    = (Raised (mkExn KeyboardInterrupt ""), s1) /\
    is_Exception (mkExn KeyboardInterrupt "") = false /\
    exists tr, trace s1 = trace (start env_up tt) ++ tr /\ file_events tr = [].
Proof.
  eexists. split; [vm_compute; reflexivity | ].
  apply interrupted_run_touches_no_file. vm_compute. reflexivity.
Defined.

(** With a library whose [mail] raises on a refusal ([lib_good]) the
    submission probe passes: the error names the authentication. *)
Example submission_probe_against_good_server :
  let s' := snd (interp (recording env_good) clock0
                   (test_submission_auth_required (__init__ None None None))
                   (journal (start env_good tt))) in
  map outline (results (tester s')) = [("Submission Auth Required"%string, true, None)] /\
  calls s'
  = [ C_SMTP "app" 587 10 (Ok 0%nat);
      C_ehlo 0%nat (Ok (250, "mail.test"%string));
      C_mail 0%nat "test@example.com"
        (Raised (mkExn OtherException "530 5.7.0 Authentication required"));
      C_exit 0%nat (Ok tt) ].
Proof. vm_compute. split; reflexivity. Qed.

(** When [mail] and [rcpt] return, as those of [smtplib] do whatever the
    server replied, both policy probes fail. *)
Example policy_probes_against_open_server :
  map outline
    (results (tester (snd (interp (recording env_up) clock0
                             (test_submission_auth_required (__init__ None None None) ;;
                              test_relay_protection (__init__ None None None))%prog
                             (journal (start env_up tt))))))
  = [ ("Submission Auth Required"%string, false,
       Some "Submission port allows mail without authentication"%string);
      ("Relay Protection"%string, false,
       Some "MX server allowed unauthorized relay"%string) ].
Proof. vm_compute. reflexivity. Qed.

(** The journal of the banner probe against a server that answers the
    closing QUIT with an error. *)
Example banner_probe_against_bad_quit :
  calls (snd (interp (recording env_bad_quit) clock0
                (test_smtp_banner env_bad_quit (__init__ None None None))
                (journal (start env_bad_quit tt))))
  = [ C_SMTP "app" 25 10 (Ok 0%nat);
      C_ehlo 0%nat (Ok (250, "mail.test"%string));
      C_exit 0%nat (Raised (mkExn OtherException "(500, b'Error')")) ].
Proof. vm_compute. reflexivity. Qed.

(** The connection-limits probe against a server that is up: five
    connections opened, five quit. *)
Example limits_probe_against_open_server :
  let s' := snd (interp (recording env_up) clock0
                   (test_connection_limits (__init__ None None None))
                   (journal (start env_up tt))) in
  map outline (results (tester s')) = [("Connection Limits"%string, true, None)] /\
  flat_map smtp_opened (calls s') = repeat 0%nat 5 /\
  flat_map smtp_quit (calls s') = repeat 0%nat 5.
Proof. vm_compute. repeat split; reflexivity. Qed.

(** * An unreachable server *)

Ltac down_step Hdown :=
  first
    [ rewrite interp_pbind, mbind_unfold
    | rewrite interp_try_except; unfold mtry
    | rewrite interp_attempt; unfold mattempt
    | rewrite interp_call; unfold lib_call
    | rewrite interp_self_log_result, log_result_spec
    | progress cbn [interp reraise lift mret mraise fst snd world tester trace
                    ticks results for_each open_connections app]
    | progress cbv beta iota
    | match goal with
      | He : is_Exception ?e = true |- context [is_Exception ?e] => rewrite He
      | |- context [lib ?E0 ?R ?op ?w] =>
          let e := fresh "e" in
          let w' := fresh "w" in
          let Hl := fresh "Hl" in
          let He := fresh "He" in
          destruct (Hdown R op w) as (e & w' & Hl & He); rewrite Hl
      end ].

Ltac down Hdown :=
  repeat down_step Hdown;
  do 2 eexists; split; [reflexivity | ];
  cbn [tester results]; rewrite <- ?app_assoc; cbn [app];
  split; [reflexivity | ];
  split; [reflexivity | repeat constructor].

Section Down.
Variable E : Env.
Variable now : nat -> string.
Hypothesis Hdown : forall (R : Type) (op : LibOp R) (w : World E),
  exists e w', lib E R op w = (Raised e, w') /\ is_Exception e = true.

(** With every call refused, each probe returns after logging its
    failures: two for the ports, one for each of the others. *)
Lemma probes_report_failure : forall self : SMTPTester,
  Forall2 (fun t ts => reports_failure E now (body t) ts)
    (tests_of E self)
    [ firstn 2 (titles self);
      ["SMTP Banner"%string];
      ["EHLO Features"%string];
      ["Submission Auth Required"%string];
      ["MX External Email Acceptance"%string];
      ["Relay Protection"%string];
      ["Send Test Email"%string];
      ["Connection Limits"%string] ].
Proof.
  intros self. unfold tests_of.
  repeat (apply Forall2_cons; [cbn [body]; intros s | ]);
    [ | | | | | | | | apply Forall2_nil].
  - unfold test_port_connectivity, try_except_Exception. down Hdown.
  - unfold test_smtp_banner, with_SMTP, try_except_Exception. down Hdown.
  - unfold test_ehlo_features, with_SMTP, try_except_Exception. down Hdown.
  - unfold test_submission_auth_required, with_SMTP, try_except_Exception.
    down Hdown.
  - unfold test_mx_external_email, with_SMTP, try_except_Exception. down Hdown.
  - unfold test_relay_protection, with_SMTP, try_except_Exception. down Hdown.
  - unfold test_send_test_email, with_SMTP, try_except_Exception. down Hdown.
  - unfold test_connection_limits, try_except_Exception. down Hdown.
Qed.

End Down.

Section Failing.
Variable E : Env.
Variable now : nat -> string.

(** A loop over probes that all return with failures returns with the
    failures of all of them. *)
Lemma run_loop_reports_failure : forall (tests : list Probe)
    (blocks : list (list string)),
  Forall2 (fun t ts => reports_failure E now (body t) ts) tests blocks ->
  forall s : State E,
  exists s' rs,
    run_loop E now tests s = (Ok tt, s') /\
    results (tester s') = results (tester s) ++ rs /\
    map test rs = concat blocks /\
    Forall (fun x => success x = false) rs.
Proof.
  intros tests blocks Hall.
  induction Hall as [ | t ts rest blocks Ht _ IH]; intros s.
  - exists s, []. cbn [run_loop mret concat map]. rewrite app_nil_r.
    repeat split. constructor.
  - destruct (Ht s) as (s1 & rs1 & Hi & Hr1 & Hm1 & Hf1).
    rewrite run_loop_cons, mbind_unfold, (run_probe_returns E now t s s1 tt Hi).
    destruct (IH (slept s1)) as (s2 & rs2 & Hl & Hr2 & Hm2 & Hf2).
    exists s2, (rs1 ++ rs2). cbn [slept tester] in Hr2.
    split; [exact Hl | ].
    split; [rewrite Hr2, Hr1, <- app_assoc; reflexivity | ].
    split; [rewrite map_app, Hm1, Hm2; reflexivity | ].
    apply Forall_app. split; assumption.
Qed.

End Failing.

(** X18 (the eight probes and [run_all_tests]).  When no server answers,
    so that every call into [socket] and [smtplib] raises an [Exception],
    the run does not crash on it: every probe logs its failure, the log
    gains exactly the nine titles in order, each with [success] false, and
    [run_all_tests] cannot return [True]. *)
Theorem unreachable_server_fails_every_probe :
  forall (E : Env) (now : nat -> string),
    (forall (R : Type) (op : LibOp R) (w : World E),
       exists e w', lib E R op w = (Raised e, w') /\ is_Exception e = true) ->
    forall s : State E,
    exists rs,
      results (tester (snd (run_all_tests E now s))) = results (tester s) ++ rs /\
      map test rs = titles (tester s) /\
      Forall (fun x => success x = false) rs /\
      fst (run_all_tests E now s) <> Ok true.
Proof.
  intros E now Hdown s. unfold run_all_tests.
  destruct (run_loop_reports_failure E now _ _
              (probes_report_failure E now Hdown (tester s)) (after_banner s))
    as (s1 & rs & Hl & Hr & Hm & Hf).
  cbn [after_banner with_events tester] in Hr.
  exists rs. rewrite run_tests_results, Hl. cbn [snd].
  split; [exact Hr | ]. split; [exact Hm | ]. split; [exact Hf | ].
  rewrite run_tests_unfold, mbind_unfold, Hl.
  destruct (report E s1) as [[b | e] s'] eqn:Hrep; cbn [fst]; [ | discriminate].
  apply report_ok in Hrep. cbv zeta in Hrep. destruct Hrep as (_ & Hb & _).
  subst b. rewrite Hr, forallb_app.
  destruct rs as [ | x rs]; [discriminate Hm | ].
  apply Forall_inv in Hf.
  cbn [forallb]. rewrite Hf, andb_false_r. discriminate.
Qed.

(** With [env_down] every probe fails and the run returns [False]. *)
Lemma unreachable_server_fails_every_probe_witness :
  exists rs,
    results (tester (snd (run_all_tests env_down clock0 (start env_down tt))))
    = results (tester (start env_down tt)) ++ rs /\
    map test rs = titles (tester (start env_down tt)) /\
    Forall (fun x => success x = false) rs /\
    fst (run_all_tests env_down clock0 (start env_down tt)) <> Ok true.
Proof.
  apply unreachable_server_fails_every_probe.
  intros R op w. do 2 eexists. split; reflexivity.
Defined.

Example unreachable_server_exit_status : fst (main env_down clock0 tt) = 1.
Proof. vm_compute. reflexivity. Qed.
